(** * BertRanker: a shallow embedding of [model/bert.py]

    The module wires a pretrained encoder into a linear scoring head on
    top of an external training harness.  What the module itself decides
    is which collaborator is called, with which arguments and in which
    order, which dictionary lookups may raise, which parameters are
    frozen and handed to the optimizer, and the shape of the score
    tensor.  The embedding therefore keeps

    - the hyperparameter bundle as a finite map from strings to Python
      values ([hparams.get(k)] versus [hparams[k]]),
    - every call to a collaborator as an event in a call log, threaded
      through a writer/error monad, so that "constructed", "invoked" and
      "before" are statements about the log,
    - the parameter store of the two parameter-carrying children
      ([bert] and [classification]) with the [requires_grad] flag that
      the freeze loop mutates,
    - tensors as a shape with row-major data; the entries are rationals,
      and the arithmetic that produces new entries (the kernel of the
      linear layer, the scaling of dropout) belongs to the collaborators,
      so that no statement assumes exact arithmetic,
    - the random generator consumed by dropout as explicit state. *)

From Stdlib Require Import ZArith QArith List Bool Ascii Lia.
From stdpp Require Import base option list strings gmap.

Local Open Scope Z_scope.
Local Open Scope string_scope.
Local Open Scope list_scope.

(** ** Python values and exceptions *)

Inductive value : Type :=
| VNone
| VBool (b : bool)
| VInt (z : Z)
| VFloat (q : Q)
| VStr (s : string).

(** An exception is its class name and its argument. *)
Inductive exn : Type :=
| Raise (cls : string) (arg : string).

Definition exn_class (e : exn) : string :=
  match e with Raise c _ => c end.

Definition KeyError (k : string) : exn := Raise "KeyError" k.
Definition TypeError (a : string) : exn := Raise "TypeError" a.
Definition ValueError (a : string) : exn := Raise "ValueError" a.
Definition RuntimeError (a : string) : exn := Raise "RuntimeError" a.
Definition IndexError (a : string) : exn := Raise "IndexError" a.

Definition is_ConfigurationError (e : exn) : bool :=
  String.eqb (exn_class e) "ConfigurationError".

Inductive result (A : Type) : Type :=
| Ok (a : A)
| Err (e : exn).
Arguments Ok {A} a.
Arguments Err {A} e.

Definition is_Ok {A} (r : result A) : bool :=
  match r with Ok _ => true | Err _ => false end.

(** [v == s] for a string literal [s]: only a string compares equal. *)
Definition py_eq_str (v : value) (s : string) : bool :=
  match v with VStr t => String.eqb t s | _ => false end.

(** [v is not None]. *)
Definition is_not_None (v : value) : bool :=
  match v with VNone => false | _ => true end.

(** Python truth value, as taken by [not v]. *)
Definition truthy (v : value) : bool :=
  match v with
  | VNone => false
  | VBool b => b
  | VInt z => negb (Z.eqb z 0)
  | VFloat q => negb (Qeq_bool q 0%Q)
  | VStr s => negb (String.eqb s EmptyString)
  end.

(** A number as torch and transformers read one ([bool] is an [int]). *)
Definition as_number (v : value) : option Q :=
  match v with
  | VInt z => Some (inject_Z z)
  | VFloat q => Some q
  | VBool b => Some (if b then 1%Q else 0%Q)
  | _ => None
  end.

(** ** Tensors and parameters *)

Record tensor : Type := Tensor {
  t_shape : list nat;
  t_data : list Q
}.

Definition numel (shape : list nat) : nat := fold_right Nat.mul 1%nat shape.

(** A parameter of a module: its name inside the module, its tensor and
    the [requires_grad] flag. *)
Record param : Type := Param {
  p_name : string;
  p_tensor : tensor;
  p_requires_grad : bool
}.

Definition set_requires_grad (b : bool) (p : param) : param :=
  {| p_name := p_name p; p_tensor := p_tensor p; p_requires_grad := b |}.

(** ** Handles of the collaborators' objects

    A dataset, an optimizer and a scheduler are opaque to this module; a
    handle records the constructor and the arguments it was built from. *)

Inductive dataset_kind : Type := Pointwise | Pairwise | ValTest.

Record dataset : Type := Dataset {
  ds_kind : dataset_kind;
  ds_data_file : value;
  ds_split_file : value;
  ds_bert_type : value
}.

Record optimizer : Type := Optimizer {
  opt_params : list param;
  opt_lr : value
}.

Record scheduler : Type := Scheduler {
  sched_optimizer : optimizer;
  sched_warmup_steps : value
}.

(** The dictionary [{'scheduler': sched, 'interval': 'step'}]. *)
Record sched_descriptor : Type := SchedDescriptor {
  sd_scheduler : scheduler;
  sd_interval : string
}.

Record bert_output : Type := BertOutput {
  last_hidden_state : tensor;
  pooler_output : tensor
}.

(** Generator state of the random number generator. *)
Definition rng : Type := Z.

(** ** The call log *)

Inductive event : Type :=
| EvPointwiseTrainDataset (data_file train_file bert_type : value)
| EvPairwiseTrainDataset (data_file train_file bert_type : value)
| EvValTestDataset (data_file split_file bert_type : value)
| EvBaseRankerInit (hparams : gmap string value)
    (train_ds val_ds test_ds : option dataset)
    (loss_margin batch_size num_workers : value)
| EvFromPretrained (bert_type : value)
| EvAdamW (params : list param) (lr : value)
| EvSchedule (opt : optimizer) (warmup_steps : value).

Definition is_dataset_event (e : event) : bool :=
  match e with
  | EvPointwiseTrainDataset _ _ _
  | EvPairwiseTrainDataset _ _ _
  | EvValTestDataset _ _ _ => true
  | _ => false
  end.

Definition is_pointwise_event (e : event) : bool :=
  match e with EvPointwiseTrainDataset _ _ _ => true | _ => false end.

Definition is_pairwise_event (e : event) : bool :=
  match e with EvPairwiseTrainDataset _ _ _ => true | _ => false end.

Definition is_valtest_event (e : event) : bool :=
  match e with EvValTestDataset _ _ _ => true | _ => false end.

Definition is_from_pretrained_event (e : event) : bool :=
  match e with EvFromPretrained _ => true | _ => false end.

(** ** Computations: a call log and a result or an exception *)

Definition M (A : Type) : Type := (list event * result A)%type.

Definition ret {A} (a : A) : M A := ([], Ok a).

Definition bind {A B} (c : M A) (k : A -> M B) : M B :=
  match c with
  | (l, Ok a) => let '(l', r) := k a in (l ++ l', r)
  | (l, Err e) => (l, Err e)
  end.

Definition raise {A} (e : exn) : M A := ([], Err e).

(** A call to a collaborator: the call is logged, then it returns or
    raises. *)
Definition call {A} (ev : event) (r : result A) : M A := ([ev], r).

Definition log {A} (c : M A) : list event := fst c.
Definition outcome {A} (c : M A) : result A := snd c.

Notation "'let!' x ':=' c 'in' k" := (bind c (fun x => k))
  (at level 10, x name, c at level 100, k at level 200, only parsing).

(** ** The hyperparameter bundle *)

(** [hparams.get(k)]. *)
Definition get (h : gmap string value) (k : string) : value :=
  default VNone (h !! k).

(** [hparams[k]]. *)
Definition getitem (h : gmap string value) (k : string) : M value :=
  match h !! k with
  | Some v => ret v
  | None => raise (KeyError k)
  end.

(** ** Layers of the scoring head *)

(** [torch.nn.Linear]: [weight] of shape (out, in) and [bias] of shape
    (out). *)
Record linear : Type := Linear {
  in_features : nat;
  out_features : nat;
  weight : param;
  bias : param
}.

Definition linear_parameters (l : linear) : list param := [weight l; bias l].

(** ** The collaborators

    Dataset constructors, the harness initialiser, the optimizer and the
    schedule factory either raise or return; the encoder registry returns
    the parameters of the loaded encoder; the encoder call maps the
    current parameters, the mode, the generator state and a batch to its
    output; the initialiser of the head gives the initial entries; the
    sampler draws a dropout mask.  The arithmetic of the tensors is the
    library's as well: the kernel of the linear layer gives one output
    entry from the shape of the input, the indices of the row and of the
    output, the row, the weight row and the bias entry; the scaling of
    dropout gives the kept entry from the probability and the entry;
    [max_numel] is the largest number of entries a tensor can be
    allocated with. *)
Record collaborators : Type := Collaborators {
  PointwiseTrainDataset_raises : value -> value -> value -> option exn;
  PairwiseTrainDataset_raises : value -> value -> value -> option exn;
  ValTestDataset_raises : value -> value -> value -> option exn;
  BaseRanker_raises :
    gmap string value -> option dataset -> option dataset -> option dataset ->
    value -> value -> value -> option exn;
  from_pretrained : value -> result (list param);
  bert_call : list param -> bool -> rng -> list tensor -> result bert_output * rng;
  weight_init : nat -> Q;
  bias_init : nat -> Q;
  bernoulli : rng -> Q -> nat -> list bool * rng;
  AdamW_raises : list param -> value -> option exn;
  schedule_raises : optimizer -> value -> option exn;
  linear_kernel : list nat -> nat -> nat -> list Q -> list Q -> Q -> Q;
  scale_kept : Q -> Q -> Q;
  max_numel : Z
}.

Definition returning {A} (r : option exn) (a : A) : result A :=
  match r with Some e => Err e | None => Ok a end.

(** [torch.nn.Dropout(p)]: the probability has to lie between 0 and 1. *)
Definition Dropout (p : value) : M Q :=
  match as_number p with
  | None => raise (TypeError "dropout probability")
  | Some q =>
      if Qle_bool 0 q && Qle_bool q 1 then ret q
      else raise (ValueError "dropout probability has to be between 0 and 1")
  end.

(** [torch.nn.Linear(in_features, out)]: two fresh trainable parameters. *)
Definition make_linear (env : collaborators) (n_in n_out : nat) : linear :=
  {| in_features := n_in;
     out_features := n_out;
     weight := {| p_name := "weight";
                  p_tensor := Tensor [n_out; n_in]
                                (map (weight_init env) (seq 0 (n_out * n_in)));
                  p_requires_grad := true |};
     bias := {| p_name := "bias";
                p_tensor := Tensor [n_out] (map (bias_init env) (seq 0 n_out));
                p_requires_grad := true |} |}.

(** A tensor size as torch reads one: an integer, a [bool] counting as
    0 or 1. *)
Definition as_size (v : value) : option Z :=
  match v with
  | VInt d => Some d
  | VBool b => Some (if b then 1 else 0)
  | _ => None
  end.

(** The size has to fit 64 bits, must not be negative, and the weight
    has to be allocated. *)
Definition new_Linear (env : collaborators) (n_in : value) (n_out : nat) : M linear :=
  match as_size n_in with
  | None => raise (TypeError "in_features")
  | Some d =>
      if Z.ltb d (- 2 ^ 63) || Z.leb (2 ^ 63) d then
        raise (TypeError "Overflow when unpacking long")
      else if Z.ltb d 0 then raise (RuntimeError "negative dimension")
      else if Z.ltb (max_numel env) (d * Z.of_nat n_out) then
        raise (RuntimeError "not enough memory")
      else ret (make_linear env (Z.to_nat d) n_out)
  end.

(** The input width of the layer that [new_Linear] returns for a size,
    if it returns one. *)
Definition linear_width (env : collaborators) (v : value) (n_out : nat)
  : option nat :=
  match as_size v with
  | Some d =>
      if Z.leb 0 d && Z.ltb d (2 ^ 63) && Z.leb (d * Z.of_nat n_out) (max_numel env)
      then Some (Z.to_nat d) else None
  | None => None
  end.

(** ** The ranker *)

Record ranker : Type := Ranker {
  hparams : gmap string value;
  train_ds : option dataset;
  val_ds : option dataset;
  test_ds : option dataset;
  bert : list param;
  dropout : Q;
  classification : linear;
  training : bool
}.

(** [self.train()] and [self.eval()], which the harness calls. *)
Definition set_training (b : bool) (m : ranker) : ranker :=
  {| hparams := hparams m; train_ds := train_ds m; val_ds := val_ds m;
     test_ds := test_ds m; bert := bert m; dropout := dropout m;
     classification := classification m; training := b |}.

Section Construction.

Variable env : collaborators.

Definition PointwiseTrainDataset (data_file train_file bert_type : value) : M dataset :=
  call (EvPointwiseTrainDataset data_file train_file bert_type)
       (returning (PointwiseTrainDataset_raises env data_file train_file bert_type)
                  (Dataset Pointwise data_file train_file bert_type)).

Definition PairwiseTrainDataset (data_file train_file bert_type : value) : M dataset :=
  call (EvPairwiseTrainDataset data_file train_file bert_type)
       (returning (PairwiseTrainDataset_raises env data_file train_file bert_type)
                  (Dataset Pairwise data_file train_file bert_type)).

Definition ValTestDataset (data_file split_file bert_type : value) : M dataset :=
  call (EvValTestDataset data_file split_file bert_type)
       (returning (ValTestDataset_raises env data_file split_file bert_type)
                  (Dataset ValTest data_file split_file bert_type)).

Definition BaseRanker_init (h : gmap string value)
    (tr va te : option dataset) (loss_margin batch_size num_workers : value) : M unit :=
  call (EvBaseRankerInit h tr va te loss_margin batch_size num_workers)
       (returning (BaseRanker_raises env h tr va te loss_margin batch_size num_workers) tt).

Definition BertModel_from_pretrained (bert_type : value) : M (list param) :=
  call (EvFromPretrained bert_type) (from_pretrained env bert_type).

(** Lines 19-23. *)
Definition build_train_ds (h : gmap string value) : M (option dataset) :=
  if py_eq_str (get h "training_mode") "pointwise" then
    let! a := getitem h "data_file" in
    let! b := getitem h "train_file_pointwise" in
    let! c := getitem h "bert_type" in
    let! d := PointwiseTrainDataset a b c in
    ret (Some d)
  else if py_eq_str (get h "training_mode") "pairwise" then
    let! a := getitem h "data_file" in
    let! b := getitem h "train_file_pairwise" in
    let! c := getitem h "bert_type" in
    let! d := PairwiseTrainDataset a b c in
    ret (Some d)
  else ret None.

(** Lines 24-26 and 27-29, for the key [k]. *)
Definition build_eval_ds (h : gmap string value) (k : string) : M (option dataset) :=
  if is_not_None (get h k) then
    let! a := getitem h "data_file" in
    let! b := getitem h k in
    let! c := getitem h "bert_type" in
    let! d := ValTestDataset a b c in
    ret (Some d)
  else ret None.

(** Lines 19-29. *)
Definition build_datasets (h : gmap string value)
  : M (option dataset * option dataset * option dataset) :=
  let! tr := build_train_ds h in
  let! va := build_eval_ds h "val_file" in
  let! te := build_eval_ds h "test_file" in
  ret (tr, va, te).

(** Lines 38-39: the flag is looked up once per encoder parameter. *)
Fixpoint freeze_loop (h : gmap string value) (ps : list param) : M (list param) :=
  match ps with
  | [] => ret []
  | p :: ps' =>
      let! v := getitem h "freeze_bert" in
      let! qs := freeze_loop h ps' in
      ret (set_requires_grad (negb (truthy v)) p :: qs)
  end.

(** Lines 31-39, once the three dataset handles are there. *)
Definition finish_init (h : gmap string value) (tr va te : option dataset)
  : M ranker :=
  let num_workers := get h "num_workers" in
  let! loss_margin := getitem h "loss_margin" in
  let! batch_size := getitem h "batch_size" in
  let! _ := BaseRanker_init h tr va te loss_margin batch_size num_workers in
  let! bt := getitem h "bert_type" in
  let! enc := BertModel_from_pretrained bt in
  let! dp := getitem h "dropout" in
  let! p := Dropout dp in
  let! bd := getitem h "bert_dim" in
  let! cls := new_Linear env bd 1 in
  let! enc' := freeze_loop h enc in
  ret {| hparams := h; train_ds := tr; val_ds := va; test_ds := te;
         bert := enc'; dropout := p; classification := cls; training := true |}.

(** [BertRanker.__init__]. *)
Definition init (h : gmap string value) : M ranker :=
  let! ds := build_datasets h in
  let '(tr, va, te) := ds in
  finish_init h tr va te.

End Construction.

(** ** Parameters of the ranker

    [self.parameters()] walks the children in registration order with
    their qualified names: [bert], [dropout] (which has no parameter) and
    [classification]; the harness base class registers none. *)

Definition qualify (prefix : string) (p : param) : param :=
  {| p_name := String.append prefix (p_name p);
     p_tensor := p_tensor p;
     p_requires_grad := p_requires_grad p |}.

Definition encoder_parameters (m : ranker) : list param :=
  map (qualify "bert.") (bert m).

Definition head_parameters (m : ranker) : list param :=
  map (qualify "classification.") (linear_parameters (classification m)).

Definition parameters (m : ranker) : list param :=
  encoder_parameters m ++ head_parameters m.

(** Line 59. *)
Definition params_with_grad (m : ranker) : list param :=
  List.filter p_requires_grad (parameters m).

(** Number of scalars held by a list of parameters. *)
Definition param_count (ps : list param) : nat :=
  fold_right (fun p n => (numel (t_shape (p_tensor p)) + n)%nat) 0%nat ps.

Section Optimizers.

Variable env : collaborators.

Definition AdamW (params : list param) (lr : value) : M optimizer :=
  call (EvAdamW params lr)
       (returning (AdamW_raises env params lr) (Optimizer params lr)).

Definition get_constant_schedule_with_warmup (opt : optimizer) (warmup : value)
  : M scheduler :=
  call (EvSchedule opt warmup)
       (returning (schedule_raises env opt warmup) (Scheduler opt warmup)).

(** [BertRanker.configure_optimizers]. *)
Definition configure_optimizers (m : ranker)
  : M (list optimizer * list sched_descriptor) :=
  let! lr := getitem (hparams m) "lr" in
  let! opt := AdamW (params_with_grad m) lr in
  let! ws := getitem (hparams m) "warmup_steps" in
  let! sched := get_constant_schedule_with_warmup opt ws in
  ret ([opt], [{| sd_scheduler := sched; sd_interval := "step" |}]).

End Optimizers.

(** ** The forward pass *)

(** [t[:, 0]]: index 0 along the second dimension. *)
Definition select_first (t : tensor) : result tensor :=
  match t_shape t with
  | b :: s :: rest =>
      if Nat.eqb s 0 then Err (IndexError "index 0 is out of bounds for dimension 1")
      else
        let w := numel rest in
        Ok (Tensor (b :: rest)
              (flat_map (fun i => firstn w (skipn (i * s * w) (t_data t))) (seq 0 b)))
  | _ => Err (IndexError "too many indices for tensor")
  end.

Definition Qsum (l : list Q) : Q := fold_right Qplus 0%Q l.

(** The exact value of a row against a weight row, plus the bias entry:
    what the kernel of the layer approximates. *)
Definition exact_affine (row w : list Q) (b : Q) : Q :=
  (Qsum (zip_with Qmult row w) + b)%Q.

(** Entry [o] of the output for row [r] of an input of shape [shape]:
    the kernel on the row, row [o] of the weight and entry [o] of the
    bias. *)
Definition affine (env : collaborators) (l : linear) (shape : list nat)
    (r : nat) (row : list Q) (o : nat) : Q :=
  let w := firstn (in_features l)
             (skipn (o * in_features l) (t_data (p_tensor (weight l)))) in
  linear_kernel env shape r o row w (nth o (t_data (p_tensor (bias l))) 0%Q).

(** [torch.nn.Linear.forward]: the last dimension is replaced by
    [out_features]; it has to equal [in_features]. *)
Definition linear_forward (env : collaborators) (l : linear) (x : tensor)
  : result tensor :=
  match rev (t_shape x) with
  | [] => Err (RuntimeError "input has no dimension")
  | d :: lead =>
      if Nat.eqb d (in_features l) then
        Ok (Tensor (rev lead ++ [out_features l])
              (flat_map
                 (fun r =>
                    let row := firstn d (skipn (r * d) (t_data x)) in
                    map (affine env l (t_shape x) r row) (seq 0 (out_features l)))
                 (seq 0 (numel lead))))
      else Err (RuntimeError "shapes cannot be multiplied")
  end.

Section Forward.

Variable env : collaborators.

(** [torch.nn.Dropout.forward]: the identity outside training, for a
    probability of 0 and on an empty tensor; all zeros for a probability
    of 1; otherwise a mask sampled for the probability [p], the kept
    entries scaled. *)
Definition dropout_forward (p : Q) (train : bool) (g : rng) (x : tensor)
  : tensor * rng :=
  if Qeq_bool p 0 || negb train || Nat.eqb (length (t_data x)) 0 then (x, g)
  else if Qeq_bool p 1 then (Tensor (t_shape x) (map (fun _ => 0%Q) (t_data x)), g)
  else
    let '(mask, g') := bernoulli env g p (length (t_data x)) in
    (Tensor (t_shape x)
       (zip_with (fun v (keep : bool) => if keep then scale_kept env p v else 0%Q)
                 (t_data x) mask),
     g').

(** [BertRanker.forward], with the generator state before and after. *)
Definition forward (m : ranker) (g : rng) (batch : list tensor)
  : result tensor * rng :=
  match bert_call env (bert m) (training m) g batch with
  | (Err e, g1) => (Err e, g1)
  | (Ok out, g1) =>
      match select_first (last_hidden_state out) with
      | Err e => (Err e, g1)
      | Ok cls_out =>
          let '(dropped, g2) :=
            dropout_forward (dropout m) (training m) g1 cls_out in
          (linear_forward env (classification m) dropped, g2)
      end
  end.

End Forward.

(** ** A concrete setting

    Collaborators that never raise, an encoder with two parameters whose
    output has two positions of width two per example, and a sampler
    that reads its mask off the bits of the generator state. *)

Definition example_encoder : list param :=
  [ {| p_name := "embeddings.weight";
       p_tensor := Tensor [2; 2]%nat [1; 2; 3; 4]%Q;
       p_requires_grad := true |};
    {| p_name := "pooler.bias";
       p_tensor := Tensor [2]%nat [5; 6]%Q;
       p_requires_grad := true |} ].

Definition example_bert_call (ps : list param) (train : bool) (g : rng)
    (batch : list tensor) : result bert_output * rng :=
  match batch with
  | ids :: _ =>
      let b := hd 0%nat (t_shape ids) in
      (Ok {| last_hidden_state :=
               Tensor [b; 2; 2]%nat
                 (flat_map (fun _ => [1; 2; 3; 4]%Q) (seq 0 b));
             pooler_output := Tensor [b; 2]%nat (flat_map (fun _ => [1; 2]%Q) (seq 0 b)) |},
       g)
  | [] => (Err (TypeError "forward() missing input_ids"), g)
  end.

Definition example_env : collaborators :=
  {| PointwiseTrainDataset_raises := fun _ _ _ => None;
     PairwiseTrainDataset_raises := fun _ _ _ => None;
     ValTestDataset_raises := fun _ _ _ => None;
     BaseRanker_raises := fun _ _ _ _ _ _ _ => None;
     from_pretrained := fun _ => Ok example_encoder;
     bert_call := example_bert_call;
     weight_init := fun i => inject_Z (Z.of_nat i + 1);
     bias_init := fun _ => 0%Q;
     bernoulli := fun g _ n => (map (fun i => Z.testbit g (Z.of_nat i)) (seq 0 n), g + 1);
     AdamW_raises := fun _ _ => None;
     schedule_raises := fun _ _ => None;
     linear_kernel := fun _ _ _ row w b => exact_affine row w b;
     scale_kept := fun p v => (v / (1 - p))%Q;
     max_numel := 2 ^ 31 |}.

(** The bundle of the specification's scenario, with a hidden width of 2
    to fit the example encoder. *)
Definition example_bundle : gmap string value :=
  list_to_map
    [ ("training_mode", VStr "pointwise");
      ("train_file_pointwise", VStr "train.tsv");
      ("data_file", VStr "data.jsonl");
      ("bert_type", VStr "bert-base-uncased");
      ("bert_dim", VInt 2);
      ("dropout", VFloat (1 # 2));
      ("lr", VFloat (3 # 100000));
      ("loss_margin", VFloat (2 # 10));
      ("batch_size", VInt 32);
      ("warmup_steps", VInt 1000);
      ("freeze_bert", VBool false) ].

Definition example_batch : list tensor :=
  [ Tensor [1; 2]%nat [101; 102]%Q ].

(** ** Vocabulary of the statements *)

Definition has_key (h : gmap string value) (k : string) : bool :=
  match h !! k with Some _ => true | None => false end.

(** The keys that the dataset step of a bundle looks up. *)
Definition dataset_keys_ok (h : gmap string value) : bool :=
  (if py_eq_str (get h "training_mode") "pointwise" then
     has_key h "data_file" && has_key h "train_file_pointwise" && has_key h "bert_type"
   else if py_eq_str (get h "training_mode") "pairwise" then
     has_key h "data_file" && has_key h "train_file_pairwise" && has_key h "bert_type"
   else true)
  && (if is_not_None (get h "val_file") then
        has_key h "data_file" && has_key h "bert_type" else true)
  && (if is_not_None (get h "test_file") then
        has_key h "data_file" && has_key h "bert_type" else true).

(** The keys looked up after the dataset step, with values that the two
    layers accept. *)
Definition head_keys_ok (env : collaborators) (h : gmap string value) : bool :=
  has_key h "loss_margin" && has_key h "batch_size" && has_key h "bert_type"
  && has_key h "freeze_bert"
  && match h !! "dropout" with
     | Some v =>
         match as_number v with
         | Some q => Qle_bool 0 q && Qle_bool q 1
         | None => false
         end
     | None => false
     end
  && match h !! "bert_dim" with
     | Some v => match linear_width env v 1 with Some _ => true | None => false end
     | None => false
     end.

Definition complete (env : collaborators) (h : gmap string value) : bool :=
  dataset_keys_ok h && head_keys_ok env h.

(** Collaborators that accept every construction call. *)
Definition quiet (env : collaborators) : Prop :=
  (forall a b c, PointwiseTrainDataset_raises env a b c = None) /\
  (forall a b c, PairwiseTrainDataset_raises env a b c = None) /\
  (forall a b c, ValTestDataset_raises env a b c = None) /\
  (forall h tr va te lm bs nw, BaseRanker_raises env h tr va te lm bs nw = None) /\
  (forall bt, is_Ok (from_pretrained env bt) = true).

(** The scenario bundle with an unsupported mode and a validation file. *)
Definition listwise_bundle : gmap string value :=
  <["val_file" := VStr "val.tsv"]>
    (<["training_mode" := VStr "listwise"]> example_bundle).

(** The scenario bundle without the pointwise training file. *)
Definition no_train_file_bundle : gmap string value :=
  delete "train_file_pointwise" example_bundle.

(** The scenario bundle in pairwise mode. *)
Definition pairwise_bundle : gmap string value :=
  <["train_file_pairwise" := VStr "pairs.tsv"]>
    (<["training_mode" := VStr "pairwise"]> example_bundle).

(** The scenario bundle with a frozen encoder. *)
Definition frozen_bundle : gmap string value :=
  <["freeze_bert" := VBool true]> example_bundle.

(** The reading of C1 as it is written: construction ends in a
    ConfigurationError and the log holds neither a dataset construction
    nor an encoder load. *)
Definition rejected_before_loading (env : collaborators) (h : gmap string value)
  : Prop :=
  (exists e, outcome (init env h) = Err e /\ is_ConfigurationError e = true) /\
  Forall (fun ev => is_dataset_event ev = false /\
                    is_from_pretrained_event ev = false)
         (log (init env h)).

(** The reading of C2 as it is written: construction ends in a
    ConfigurationError. *)
Definition fails_with_ConfigurationError (env : collaborators)
    (h : gmap string value) : Prop :=
  exists e, outcome (init env h) = Err e /\ is_ConfigurationError e = true.

(** The ranker a construction returns, with a default for the case that
    it raises. *)
Definition constructed (env : collaborators) (h : gmap string value) : ranker :=
  match outcome (init env h) with
  | Ok m => m
  | Err _ =>
      {| hparams := h; train_ds := None; val_ds := None; test_ds := None;
         bert := []; dropout := 0%Q; classification := make_linear env 0 1;
         training := true |}
  end.

(** An encoder without randomness outside training: in evaluation mode
    its output does not depend on the generator state, which it leaves
    as it is. *)
Definition deterministic_in_eval (env : collaborators) : Prop :=
  forall ps g batch,
    bert_call env ps false g batch = (fst (bert_call env ps false 0 batch), g).

(** The reading of C6 as it is written: a second call of [forward] on
    the same batch and the same parameters returns what the first one
    returned. *)
Definition forward_repeatable (env : collaborators) (m : ranker) : Prop :=
  forall g batch,
    fst (forward env m (snd (forward env m g batch)) batch) =
    fst (forward env m g batch).

(** ** The command line: [add_model_specific_args]

    An [ArgumentParser] is modelled by what [add_argument] reads and
    writes: its prefix characters, its conflict handler and the actions
    registered so far, each with the option strings it still answers to.
    With the default prefix character the destination of a long option
    is its name without the leading dashes, inner dashes turned into
    underscores. *)

Inductive arg_type : Type := AsGiven | AsInt | AsFloat.

Inductive arg_action : Type := Store | StoreTrue.

Record argument : Type := Argument {
  arg_flag : string;
  arg_type_of : arg_type;
  arg_action_of : arg_action;
  arg_default : option value;
  arg_choices : option (list string);
  arg_help : string
}.

Fixpoint strip_dashes (s : string) : string :=
  match s with
  | String c s' => if Ascii.eqb c "-"%char then strip_dashes s' else s
  | EmptyString => EmptyString
  end.

Fixpoint dashes_to_underscores (s : string) : string :=
  match s with
  | String c s' =>
      String (if Ascii.eqb c "-"%char then "_"%char else c)
             (dashes_to_underscores s')
  | EmptyString => EmptyString
  end.

Definition arg_dest (a : argument) : string :=
  dashes_to_underscores (strip_dashes (arg_flag a)).

(** The value an argument has when the command line does not give it:
    its default, [False] for a [store_true] flag without one, [None]
    otherwise. *)
Definition effective_default (a : argument) : value :=
  match arg_default a, arg_action_of a with
  | Some v, _ => v
  | None, StoreTrue => VBool false
  | None, Store => VNone
  end.

(** The two conflict handlers of argparse: ['error'], the default, and
    ['resolve']. *)
Inductive handler : Type := ConflictError | ConflictResolve.

(** A registered action: its [option_strings] (none for a positional),
    its destination and the keyword arguments it was registered with. *)
Record action : Type := Action {
  act_flags : list string;
  act_dest : string;
  act_argument : argument
}.

(** The parser. argparse keeps every option string at one action; the
    list of actions stands for [_actions] and, through [act_flags], for
    the index [_option_string_actions]. *)
Record parser : Type := Parser {
  prefix_chars : string;
  conflict_handler : handler;
  actions : list action
}.

Definition with_actions (ap : parser) (acts : list action) : parser :=
  {| prefix_chars := prefix_chars ap;
     conflict_handler := conflict_handler ap;
     actions := acts |}.

(** Every option string belongs to one action, once. *)
Definition well_formed (ap : parser) : Prop :=
  NoDup (flat_map act_flags (actions ap)).

Fixpoint char_in (c : ascii) (chars : string) : bool :=
  match chars with
  | String c' r => Ascii.eqb c c' || char_in c r
  | EmptyString => false
  end.

(** [s.lstrip(chars)]. *)
Fixpoint lstrip (chars s : string) : string :=
  match s with
  | String c s' => if char_in c chars then lstrip chars s' else s
  | EmptyString => EmptyString
  end.

Definition answers (flag : string) (a : action) : bool :=
  existsb (String.eqb flag) (act_flags a).

(** [flag in ap._option_string_actions]. *)
Definition registered (ap : parser) (flag : string) : bool :=
  existsb (answers flag) (actions ap).

Definition ArgumentError (a : string) : exn := Raise "ArgumentError" a.

(** [l.remove(x)] on a list that holds [x]. *)
Fixpoint remove_first (x : string) (l : list string) : list string :=
  match l with
  | [] => []
  | y :: r => if String.eqb x y then r else y :: remove_first x r
  end.

(** The ['resolve'] handler: the action that holds the option string
    loses it, and is removed when no option string is left to it. *)
Fixpoint resolve (flag : string) (acts : list action) : list action :=
  match acts with
  | [] => []
  | a :: r =>
      if answers flag a then
        match remove_first flag (act_flags a) with
        | [] => r
        | f :: fs => Action (f :: fs) (act_dest a) (act_argument a) :: r
        end
      else a :: resolve flag r
  end.

(** The action of an optional argument with one option string. *)
Definition optional_action (ap : parser) (a : argument) : action :=
  {| act_flags := [arg_flag a];
     act_dest := dashes_to_underscores (lstrip (prefix_chars ap) (arg_flag a));
     act_argument := a |}.

(** The same under the default prefix character. *)
Definition new_action (a : argument) : action :=
  {| act_flags := [arg_flag a]; act_dest := arg_dest a; act_argument := a |}.

(** Registration of an optional argument: a destination has to be left
    after the prefix characters; an option string that is registered
    already goes to the conflict handler; the new action is appended. A
    call that raises leaves the parser as it was. *)
Definition add_optional (ap : parser) (a : argument) : parser * result unit :=
  match lstrip (prefix_chars ap) (arg_flag a) with
  | EmptyString => (ap, Err (ValueError "dest= is required"))
  | String _ _ =>
      if registered ap (arg_flag a) then
        match conflict_handler ap with
        | ConflictError => (ap, Err (ArgumentError (arg_flag a)))
        | ConflictResolve =>
            (with_actions ap
               (resolve (arg_flag a) (actions ap) ++ [optional_action ap a]),
             Ok tt)
        end
      else (with_actions ap (actions ap ++ [optional_action ap a]), Ok tt)
  end.

Section ArgumentParser.

(** What argparse answers when the one string of a call does not start
    with a prefix character, so that the call declares a positional:
    which declarations it refuses differs between its versions. *)
Variable positional_raises : argument -> option exn.

Definition add_positional (ap : parser) (a : argument) : parser * result unit :=
  match positional_raises a with
  | Some e => (ap, Err e)
  | None =>
      (with_actions ap
         (actions ap ++
          [{| act_flags := []; act_dest := arg_flag a; act_argument := a |}]),
       Ok tt)
  end.

(** [ap.add_argument(flag, ...)]: an optional when [flag[0]] is a prefix
    character of the parser. *)
Definition add_argument (ap : parser) (a : argument) : parser * result unit :=
  match arg_flag a with
  | EmptyString => (ap, Err (IndexError "string index out of range"))
  | String c _ =>
      if char_in c (prefix_chars ap) then add_optional ap a
      else add_positional ap a
  end.

(** One statement of [add_model_specific_args]: it runs unless an
    earlier one has raised. *)
Definition then_add (st : parser * result unit) (a : argument)
  : parser * result unit :=
  match snd st with
  | Ok _ => add_argument (fst st) a
  | Err _ => st
  end.

End ArgumentParser.

(** The ten registrations of lines 71-80, in order. *)
Definition model_arguments : list argument :=
  [ Argument "--bert_type" AsGiven Store (Some (VStr "bert-base-uncased")) None
      "BERT model";
    Argument "--bert_dim" AsInt Store (Some (VInt 768)) None
      "BERT output dimension";
    Argument "--dropout" AsFloat Store (Some (VFloat (1 # 10))) None
      "Dropout percentage";
    Argument "--lr" AsFloat Store (Some (VFloat (3 # 100000))) None
      "Learning rate";
    Argument "--loss_margin" AsFloat Store (Some (VFloat (2 # 10))) None
      "Margin for pairwise loss";
    Argument "--batch_size" AsInt Store (Some (VInt 32)) None
      "Batch size";
    Argument "--warmup_steps" AsInt Store (Some (VInt 1000)) None
      "Number of warmup steps";
    Argument "--freeze_bert" AsGiven StoreTrue None None
      "Do not update any weights of BERT (only train the classification layer)";
    Argument "--training_mode" AsGiven Store (Some (VStr "pairwise"))
      (Some ["pointwise"; "pairwise"]) "Training mode";
    Argument "--num_workers" AsInt Store (Some (VInt 16)) None
      "Number of DataLoader workers" ].

(** [BertRanker.add_model_specific_args]: the registrations one after the
    other on the same parser; the first exception ends it, and the
    parser keeps what was registered before. *)
Definition add_model_specific_args (positional_raises : argument -> option exn)
    (ap : parser) : parser * result unit :=
  fold_left (then_add positional_raises) model_arguments (ap, Ok tt).

(** The actions of a parser after the ['resolve'] handler has been asked
    for each option string of a list of arguments in turn. *)
Definition resolve_all (args : list argument) (acts : list action) : list action :=
  fold_left (fun acts a => resolve (arg_flag a) acts) args acts.

(** An option string of the default prefix with a name behind it. *)
Definition dashed (a : argument) : bool :=
  match arg_flag a with
  | String c _ =>
      Ascii.eqb c "-"%char &&
      match strip_dashes (arg_flag a) with EmptyString => false | _ => true end
  | EmptyString => false
  end.

(** A parser that an earlier declaration has given two of the model's
    option strings, the first under a second name as well. *)
Definition taken_parser (h : handler) : parser :=
  {| prefix_chars := "-";
     conflict_handler := h;
     actions :=
       [ {| act_flags := ["-d"; "--dropout"]; act_dest := "dropout";
            act_argument := Argument "--dropout" AsFloat Store None None "Dropout" |};
         {| act_flags := ["--lr"]; act_dest := "lr";
            act_argument := Argument "--lr" AsFloat Store None None "Rate" |} ] |}.

Definition empty_parser : parser :=
  {| prefix_chars := "-"; conflict_handler := ConflictError; actions := [] |}.

(** The bundle of a parse that was given no argument: every destination
    with its default. *)
Definition default_namespace (ap : list argument) : gmap string value :=
  list_to_map (map (fun a => (arg_dest a, effective_default a)) ap).

(** A value the parser can store for an argument: the default, the
    constant of a flag, one of the choices, or a converted string. *)
Definition storable (a : argument) (v : value) : Prop :=
  v = effective_default a \/
  match arg_action_of a with
  | StoreTrue => v = VBool true
  | Store =>
      match arg_choices a with
      | Some cs => exists c, c ∈ cs /\ v = VStr c
      | None =>
          match arg_type_of a with
          | AsGiven => exists t, v = VStr t
          | AsInt => exists z, v = VInt z
          | AsFloat => exists q, v = VFloat q
          end
      end
  end.

(** A bundle as a parse returns it: every registered destination holds a
    storable value. *)
Definition parsed_by (ap : list argument) (h : gmap string value) : Prop :=
  forall a, a ∈ ap -> exists v, h !! arg_dest a = Some v /\ storable a v.

(** ** Vocabulary of the further statements *)

Definition is_harness_event (e : event) : bool :=
  match e with EvBaseRankerInit _ _ _ _ _ _ _ => true | _ => false end.

Definition is_optimizer_event (e : event) : bool :=
  match e with EvAdamW _ _ | EvSchedule _ _ => true | _ => false end.

(** What the collaborator answers to a logged call: the exception it
    raises, or [None] when it returns. *)
Definition raised_by (env : collaborators) (ev : event) : option exn :=
  match ev with
  | EvPointwiseTrainDataset a b c => PointwiseTrainDataset_raises env a b c
  | EvPairwiseTrainDataset a b c => PairwiseTrainDataset_raises env a b c
  | EvValTestDataset a b c => ValTestDataset_raises env a b c
  | EvBaseRankerInit h tr va te lm bs nw =>
      BaseRanker_raises env h tr va te lm bs nw
  | EvFromPretrained bt =>
      match from_pretrained env bt with Err e => Some e | Ok _ => None end
  | EvAdamW ps lr => AdamW_raises env ps lr
  | EvSchedule opt ws => schedule_raises env opt ws
  end.

(** A log and an outcome in which no exception of a collaborator is
    lost: every call but the last has returned, and when the last one
    raised, the outcome is that exception. *)
Definition propagating {A} (env : collaborators) (c : M A) : Prop :=
  Forall (fun ev => raised_by env ev = None) (log c) \/
  exists l ev e,
    log c = l ++ [ev] /\
    Forall (fun ev' => raised_by env ev' = None) l /\
    raised_by env ev = Some e /\ outcome c = Err e.

(** The training dataset that the bundle asks for. *)
Definition expected_train_ds (h : gmap string value) : option dataset :=
  if py_eq_str (get h "training_mode") "pointwise" then
    Some (Dataset Pointwise (get h "data_file") (get h "train_file_pointwise")
            (get h "bert_type"))
  else if py_eq_str (get h "training_mode") "pairwise" then
    Some (Dataset Pairwise (get h "data_file") (get h "train_file_pairwise")
            (get h "bert_type"))
  else None.

(** The evaluation dataset that the bundle asks for under the key [k]. *)
Definition expected_eval_ds (h : gmap string value) (k : string) : option dataset :=
  if is_not_None (get h k) then
    Some (Dataset ValTest (get h "data_file") (get h k) (get h "bert_type"))
  else None.

(** Collaborators like the example ones, except that the registry does
    not know the encoder. *)
Definition unresolved_env : collaborators :=
  {| PointwiseTrainDataset_raises := PointwiseTrainDataset_raises example_env;
     PairwiseTrainDataset_raises := PairwiseTrainDataset_raises example_env;
     ValTestDataset_raises := ValTestDataset_raises example_env;
     BaseRanker_raises := BaseRanker_raises example_env;
     from_pretrained := fun bt => Err (Raise "OSError" "no such model");
     bert_call := bert_call example_env;
     weight_init := weight_init example_env;
     bias_init := bias_init example_env;
     bernoulli := bernoulli example_env;
     AdamW_raises := AdamW_raises example_env;
     schedule_raises := schedule_raises example_env;
     linear_kernel := linear_kernel example_env;
     scale_kept := scale_kept example_env;
     max_numel := max_numel example_env |}.

(** Collaborators like the example ones, except that the optimizer
    rejects every call. *)
Definition rejecting_optimizer_env : collaborators :=
  {| PointwiseTrainDataset_raises := PointwiseTrainDataset_raises example_env;
     PairwiseTrainDataset_raises := PairwiseTrainDataset_raises example_env;
     ValTestDataset_raises := ValTestDataset_raises example_env;
     BaseRanker_raises := BaseRanker_raises example_env;
     from_pretrained := from_pretrained example_env;
     bert_call := bert_call example_env;
     weight_init := weight_init example_env;
     bias_init := bias_init example_env;
     bernoulli := bernoulli example_env;
     AdamW_raises := fun _ _ => Some (ValueError "Invalid learning rate");
     schedule_raises := schedule_raises example_env;
     linear_kernel := linear_kernel example_env;
     scale_kept := scale_kept example_env;
     max_numel := max_numel example_env |}.

(** Collaborators like the example ones, except that the registry hands
    out the encoder with every parameter frozen. *)
Definition frozen_registry_env : collaborators :=
  {| PointwiseTrainDataset_raises := PointwiseTrainDataset_raises example_env;
     PairwiseTrainDataset_raises := PairwiseTrainDataset_raises example_env;
     ValTestDataset_raises := ValTestDataset_raises example_env;
     BaseRanker_raises := BaseRanker_raises example_env;
     from_pretrained := fun _ => Ok (map (set_requires_grad false) example_encoder);
     bert_call := bert_call example_env;
     weight_init := weight_init example_env;
     bias_init := bias_init example_env;
     bernoulli := bernoulli example_env;
     AdamW_raises := AdamW_raises example_env;
     schedule_raises := schedule_raises example_env;
     linear_kernel := linear_kernel example_env;
     scale_kept := scale_kept example_env;
     max_numel := max_numel example_env |}.

(** Collaborators like the example ones, except that the encoder answers
    every batch with the given hidden states. *)
Definition env_with_output (hidden : tensor) : collaborators :=
  {| PointwiseTrainDataset_raises := PointwiseTrainDataset_raises example_env;
     PairwiseTrainDataset_raises := PairwiseTrainDataset_raises example_env;
     ValTestDataset_raises := ValTestDataset_raises example_env;
     BaseRanker_raises := BaseRanker_raises example_env;
     from_pretrained := from_pretrained example_env;
     bert_call := fun _ _ g _ =>
       (Ok {| last_hidden_state := hidden; pooler_output := hidden |}, g);
     weight_init := weight_init example_env;
     bias_init := bias_init example_env;
     bernoulli := bernoulli example_env;
     AdamW_raises := AdamW_raises example_env;
     schedule_raises := schedule_raises example_env;
     linear_kernel := linear_kernel example_env;
     scale_kept := scale_kept example_env;
     max_numel := max_numel example_env |}.

(** The hidden state of example [b] at sequence position 0, in a tensor
    of shape (B, S, D). *)
Definition cls_vector (t : tensor) (S D b : nat) : list Q :=
  firstn D (skipn (b * S * D) (t_data t)).

(** The bundle of a command line that names only the data file and the
    pairwise training file: the defaults of the model's arguments and
    the two paths. *)
Definition default_bundle (data_file train_file : value) : gmap string value :=
  <["data_file" := data_file]>
    (<["train_file_pairwise" := train_file]> (default_namespace model_arguments)).

(** A dataset construction or an encoder load whose arguments are the
    bundle's own values under the keys of the selected branch. *)
Definition from_bundle (h : gmap string value) (e : event) : Prop :=
  match e with
  | EvPointwiseTrainDataset a b c =>
      get h "training_mode" = VStr "pointwise" /\
      h !! "data_file" = Some a /\ h !! "train_file_pointwise" = Some b /\
      h !! "bert_type" = Some c
  | EvPairwiseTrainDataset a b c =>
      get h "training_mode" = VStr "pairwise" /\
      h !! "data_file" = Some a /\ h !! "train_file_pairwise" = Some b /\
      h !! "bert_type" = Some c
  | EvValTestDataset a s c =>
      h !! "data_file" = Some a /\ h !! "bert_type" = Some c /\ s <> VNone /\
      (h !! "val_file" = Some s \/ h !! "test_file" = Some s)
  | EvFromPretrained c => h !! "bert_type" = Some c
  | EvBaseRankerInit h' _ _ _ _ _ _ => h' = h
  | EvAdamW _ _ | EvSchedule _ _ => False
  end.

(** A computation whose KeyErrors, as long as every collaborator it
    called has returned, are for keys in [K] only. *)
Definition key_errors_within {A} (K : string -> Prop) (env : collaborators)
    (c : M A) : Prop :=
  forall k,
    outcome c = Err (KeyError k) ->
    Forall (fun ev => raised_by env ev = None) (log c) ->
    K k.

(** The keys of the data paths, which no argument of the model
    registers. *)
Definition is_path_key (k : string) : Prop :=
  k = "data_file" \/ k = "train_file_pointwise" \/ k = "train_file_pairwise".

(** The reading of C10 as it is written, for a bundle without a required
    key: construction ends in a key-lookup error. *)
Definition fails_with_KeyError (env : collaborators) (h : gmap string value)
  : Prop :=
  exists k, outcome (init env h) = Err (KeyError k).

(** Collaborators like the example ones, except that the pointwise
    training dataset does not find its file. *)
Definition missing_file_env : collaborators :=
  {| PointwiseTrainDataset_raises :=
       fun _ _ _ => Some (Raise "FileNotFoundError" "train.tsv");
     PairwiseTrainDataset_raises := PairwiseTrainDataset_raises example_env;
     ValTestDataset_raises := ValTestDataset_raises example_env;
     BaseRanker_raises := BaseRanker_raises example_env;
     from_pretrained := from_pretrained example_env;
     bert_call := bert_call example_env;
     weight_init := weight_init example_env;
     bias_init := bias_init example_env;
     bernoulli := bernoulli example_env;
     AdamW_raises := AdamW_raises example_env;
     schedule_raises := schedule_raises example_env;
     linear_kernel := linear_kernel example_env;
     scale_kept := scale_kept example_env;
     max_numel := max_numel example_env |}.

(** * Properties *)

(** ** Laws of the log/exception computations *)

Lemma bind_ret {A B} (a : A) (k : A -> M B) : bind (ret a) k = k a.
Proof. unfold bind, ret. destruct (k a); reflexivity. Qed.

Lemma bind_raise {A B} (e : exn) (k : A -> M B) : bind (raise e) k = raise e.
Proof. reflexivity. Qed.

Lemma log_bind {A B} (c : M A) (k : A -> M B) :
  log (bind c k) =
  log c ++ match outcome c with Ok a => log (k a) | Err _ => [] end.
Proof.
  destruct c as [l [a | e]]; unfold bind, log, outcome; simpl.
  - destruct (k a); reflexivity.
  - rewrite app_nil_r. reflexivity.
Qed.

Lemma outcome_bind {A B} (c : M A) (k : A -> M B) :
  outcome (bind c k) =
  match outcome c with Ok a => outcome (k a) | Err e => Err e end.
Proof.
  destruct c as [l [a | e]]; unfold bind, outcome; simpl; [|reflexivity].
  destruct (k a); reflexivity.
Qed.

Lemma outcome_bind_call {A B} ev (r : result A) (k : A -> M B) :
  outcome (bind (call ev r) k) =
  match r with Ok a => outcome (k a) | Err e => Err e end.
Proof. rewrite outcome_bind. reflexivity. Qed.

Lemma log_bind_call {A B} ev (r : result A) (k : A -> M B) :
  log (bind (call ev r) k) =
  ev :: match r with Ok a => log (k a) | Err _ => [] end.
Proof. rewrite log_bind. destruct r; reflexivity. Qed.

Lemma M_eta {A} (c : M A) : c = (log c, outcome c).
Proof. destruct c; reflexivity. Qed.

Lemma getitem_Some h k v : h !! k = Some v -> getitem h k = ret v.
Proof. unfold getitem. intros ->. reflexivity. Qed.

Lemma getitem_None h k : h !! k = None -> getitem h k = raise (KeyError k).
Proof. unfold getitem. intros ->. reflexivity. Qed.

Lemma get_Some h k v : h !! k = Some v -> get h k = v.
Proof. unfold get. intros ->. reflexivity. Qed.

Lemma get_None h k : h !! k = None -> get h k = VNone.
Proof. unfold get. intros ->. reflexivity. Qed.

(** Every event of a sequence satisfies [P] when those of its two parts
    do. *)
Lemma Forall_log_bind {A B} (P : event -> Prop) (c : M A) (k : A -> M B) :
  Forall P (log c) ->
  (forall a, outcome c = Ok a -> Forall P (log (k a))) ->
  Forall P (log (bind c k)).
Proof.
  intros Hc Hk. rewrite log_bind. apply Forall_app. split; [exact Hc|].
  destruct (outcome c) eqn:E; [apply Hk; reflexivity | constructor].
Qed.

Lemma Forall_log_getitem_bind {B} (P : event -> Prop) h key (k : value -> M B) :
  (forall v, h !! key = Some v -> Forall P (log (k v))) ->
  Forall P (log (bind (getitem h key) k)).
Proof.
  intros Hk. unfold getitem. destruct (h !! key) as [v|].
  - rewrite bind_ret. apply Hk. reflexivity.
  - constructor.
Qed.

(** ** The constructor of the linear layer *)

Lemma new_Linear_cases env v n :
  match linear_width env v n with
  | Some w => new_Linear env v n = ret (make_linear env w n)
  | None =>
      exists msg, new_Linear env v n = raise (TypeError msg) \/
                  new_Linear env v n = raise (RuntimeError msg)
  end.
Proof.
  unfold linear_width, new_Linear.
  destruct (as_size v) as [d|]; [|eexists; left; reflexivity].
  destruct (Z.ltb_spec d (- 2 ^ 63)); simpl.
  { replace (Z.leb 0 d) with false by (symmetry; apply Z.leb_gt; lia).
    simpl. eexists; left; reflexivity. }
  destruct (Z.leb_spec (2 ^ 63) d); simpl.
  { replace (Z.ltb d (2 ^ 63)) with false by (symmetry; apply Z.ltb_ge; lia).
    rewrite andb_false_r. simpl. eexists; left; reflexivity. }
  destruct (Z.ltb_spec d 0).
  { replace (Z.leb 0 d) with false by (symmetry; apply Z.leb_gt; lia).
    simpl. eexists; right; reflexivity. }
  replace (Z.leb 0 d) with true by (symmetry; apply Z.leb_le; lia).
  replace (Z.ltb d (2 ^ 63)) with true by (symmetry; apply Z.ltb_lt; lia).
  simpl.
  destruct (Z.ltb_spec (max_numel env) (d * Z.of_nat n)).
  - replace (Z.leb (d * Z.of_nat n) (max_numel env)) with false
      by (symmetry; apply Z.leb_gt; lia).
    eexists; right; reflexivity.
  - replace (Z.leb (d * Z.of_nat n) (max_numel env)) with true
      by (symmetry; apply Z.leb_le; lia).
    reflexivity.
Qed.

Lemma new_Linear_accepts env v n w :
  linear_width env v n = Some w ->
  new_Linear env v n = ret (make_linear env w n).
Proof. intros E. pose proof (new_Linear_cases env v n) as H. rewrite E in H. exact H. Qed.

Lemma new_Linear_Ok_inv env v n l :
  outcome (new_Linear env v n) = Ok l ->
  exists w, linear_width env v n = Some w /\ l = make_linear env w n.
Proof.
  pose proof (new_Linear_cases env v n) as H.
  destruct (linear_width env v n) as [w|].
  - rewrite H. intros [= <-]. eauto.
  - destruct H as (msg & [-> | ->]); discriminate.
Qed.

Lemma new_Linear_log env v n : log (new_Linear env v n) = [].
Proof.
  pose proof (new_Linear_cases env v n) as H.
  destruct (linear_width env v n) as [w|].
  - rewrite H. reflexivity.
  - destruct H as (msg & [-> | ->]); reflexivity.
Qed.

Lemma new_Linear_no_KeyError env v n k :
  outcome (new_Linear env v n) <> Err (KeyError k).
Proof.
  pose proof (new_Linear_cases env v n) as H.
  destruct (linear_width env v n) as [w|].
  - rewrite H. discriminate.
  - destruct H as (msg & [-> | ->]); discriminate.
Qed.

Lemma linear_width_VInt env d n w :
  linear_width env (VInt d) n = Some w -> w = Z.to_nat d /\ 0 <= d.
Proof.
  unfold linear_width. simpl.
  destruct (Z.leb_spec 0 d); simpl; [|discriminate].
  destruct (_ && _); [|discriminate]. intros [= <-]. auto.
Qed.

(** ** Construction: what is called, and in which order *)

Section ConstructionFacts.

Variable env : collaborators.
Variable h : gmap string value.

Lemma build_train_ds_pointwise a b c :
  h !! "training_mode" = Some (VStr "pointwise") ->
  h !! "data_file" = Some a ->
  h !! "train_file_pointwise" = Some b ->
  h !! "bert_type" = Some c ->
  build_train_ds env h =
  bind (PointwiseTrainDataset env a b c) (fun d => ret (Some d)).
Proof.
  intros Hm Ha Hb Hc. unfold build_train_ds.
  rewrite (get_Some _ _ _ Hm). simpl.
  rewrite (getitem_Some _ _ _ Ha), bind_ret.
  rewrite (getitem_Some _ _ _ Hb), bind_ret.
  rewrite (getitem_Some _ _ _ Hc), bind_ret. reflexivity.
Qed.

Lemma build_train_ds_pairwise a b c :
  h !! "training_mode" = Some (VStr "pairwise") ->
  h !! "data_file" = Some a ->
  h !! "train_file_pairwise" = Some b ->
  h !! "bert_type" = Some c ->
  build_train_ds env h =
  bind (PairwiseTrainDataset env a b c) (fun d => ret (Some d)).
Proof.
  intros Hm Ha Hb Hc. unfold build_train_ds.
  rewrite (get_Some _ _ _ Hm). simpl.
  rewrite (getitem_Some _ _ _ Ha), bind_ret.
  rewrite (getitem_Some _ _ _ Hb), bind_ret.
  rewrite (getitem_Some _ _ _ Hc), bind_ret. reflexivity.
Qed.

Lemma build_train_ds_unsupported :
  py_eq_str (get h "training_mode") "pointwise" = false ->
  py_eq_str (get h "training_mode") "pairwise" = false ->
  build_train_ds env h = ret None.
Proof. intros H1 H2. unfold build_train_ds. rewrite H1, H2. reflexivity. Qed.

Lemma build_eval_ds_omitted k :
  h !! k = None -> build_eval_ds env h k = ret None.
Proof. intros Hk. unfold build_eval_ds. rewrite (get_None _ _ Hk). reflexivity. Qed.

(** The events of the evaluation-dataset step are calls of the
    validation/test constructor on the value stored under the key. *)
Lemma build_eval_ds_log k :
  Forall (fun e => exists a c, e = EvValTestDataset a (get h k) c /\
                               is_not_None (get h k) = true)
         (log (build_eval_ds env h k)).
Proof.
  unfold build_eval_ds. destruct (is_not_None (get h k)) eqn:Hn; [|constructor].
  apply Forall_log_getitem_bind; intros a Ha.
  apply Forall_log_getitem_bind; intros b Hb.
  apply Forall_log_getitem_bind; intros c Hc.
  rewrite log_bind. simpl. constructor.
  - exists a, c. rewrite (get_Some _ _ _ Hb). auto.
  - destruct (returning _ _); constructor.
Qed.

Lemma build_train_ds_log :
  Forall (fun e => is_pointwise_event e = true \/ is_pairwise_event e = true)
         (log (build_train_ds env h)).
Proof.
  unfold build_train_ds.
  destruct (py_eq_str _ "pointwise"); [|destruct (py_eq_str _ "pairwise")];
    [| |constructor].
  - do 3 (apply Forall_log_getitem_bind; intros ? ?).
    rewrite log_bind. simpl. constructor; [left; reflexivity|].
    destruct (returning _ _); constructor.
  - do 3 (apply Forall_log_getitem_bind; intros ? ?).
    rewrite log_bind. simpl. constructor; [right; reflexivity|].
    destruct (returning _ _); constructor.
Qed.

Lemma build_datasets_log :
  log (build_datasets env h) =
  log (build_train_ds env h) ++
  match outcome (build_train_ds env h) with
  | Err _ => []
  | Ok _ =>
      log (build_eval_ds env h "val_file") ++
      match outcome (build_eval_ds env h "val_file") with
      | Err _ => []
      | Ok _ => log (build_eval_ds env h "test_file")
      end
  end.
Proof.
  unfold build_datasets. rewrite log_bind. f_equal.
  destruct (outcome (build_train_ds env h)); [|reflexivity].
  rewrite log_bind. f_equal.
  destruct (outcome (build_eval_ds env h "val_file")); [|reflexivity].
  rewrite log_bind.
  destruct (outcome (build_eval_ds env h "test_file")); simpl;
    rewrite app_nil_r; reflexivity.
Qed.

Lemma build_datasets_outcome tr va te :
  outcome (build_datasets env h) = Ok (tr, va, te) ->
  outcome (build_train_ds env h) = Ok tr /\
  outcome (build_eval_ds env h "val_file") = Ok va /\
  outcome (build_eval_ds env h "test_file") = Ok te.
Proof.
  unfold build_datasets. rewrite outcome_bind.
  destruct (outcome (build_train_ds env h)); [|discriminate].
  rewrite outcome_bind.
  destruct (outcome (build_eval_ds env h "val_file")); [|discriminate].
  rewrite outcome_bind.
  destruct (outcome (build_eval_ds env h "test_file")); [|discriminate].
  simpl. intros [= -> -> ->]. auto.
Qed.

Lemma build_datasets_events :
  Forall (fun e => is_dataset_event e = true) (log (build_datasets env h)).
Proof.
  rewrite build_datasets_log. apply Forall_app. split.
  - eapply Forall_impl; [apply build_train_ds_log|].
    intros [] [H|H]; simpl in *; congruence.
  - destruct (outcome (build_train_ds env h)) as [tr|]; [|constructor].
    apply Forall_app. split.
    + eapply Forall_impl; [apply build_eval_ds_log|].
      intros e (x & y & -> & _). reflexivity.
    + destruct (outcome (build_eval_ds env h "val_file")) as [va|]; [|constructor].
      eapply Forall_impl; [apply build_eval_ds_log|].
      intros e (x & y & -> & _). reflexivity.
Qed.

(** After the datasets: one harness call, then one encoder load. *)
Lemma finish_init_log tr va te :
  Forall (fun e =>
            (exists lm bs,
               e = EvBaseRankerInit h tr va te lm bs (get h "num_workers") /\
               h !! "loss_margin" = Some lm /\ h !! "batch_size" = Some bs) \/
            (exists bt, e = EvFromPretrained bt /\ h !! "bert_type" = Some bt))
         (log (finish_init env h tr va te)).
Proof.
  unfold finish_init.
  apply Forall_log_getitem_bind; intros lm Hlm.
  apply Forall_log_getitem_bind; intros bs Hbs.
  apply Forall_log_bind.
  { simpl. constructor; [|constructor]. left. exists lm, bs. auto. }
  intros _ _.
  apply Forall_log_getitem_bind; intros bt Hbt.
  apply Forall_log_bind.
  { simpl. constructor; [|constructor]. right. exists bt. auto. }
  intros enc _.
  apply Forall_log_getitem_bind; intros dp _.
  apply Forall_log_bind.
  { unfold Dropout. destruct (as_number dp); [|constructor].
    destruct (_ && _); constructor. }
  intros p _.
  apply Forall_log_getitem_bind; intros bd _.
  apply Forall_log_bind.
  { rewrite new_Linear_log. constructor. }
  intros cls _.
  apply Forall_log_bind; [|intros ? _; constructor].
  clear. induction enc as [|p ps IH]; simpl; [constructor|].
  apply Forall_log_getitem_bind; intros v _.
  apply Forall_log_bind; [exact IH | intros ? _; constructor].
Qed.

Lemma init_log :
  log (init env h) =
  log (build_datasets env h) ++
  match outcome (build_datasets env h) with
  | Ok (tr, va, te) => log (finish_init env h tr va te)
  | Err _ => []
  end.
Proof.
  unfold init. rewrite log_bind. f_equal.
  destruct (outcome (build_datasets env h)) as [[[tr va] te]|]; reflexivity.
Qed.

(** The harness is called with the bundle itself, the three handles the
    dataset step returned, the two looked-up values and
    [hparams.get('num_workers')]. *)
Lemma harness_event_inv h' tr va te lm bs nw :
  EvBaseRankerInit h' tr va te lm bs nw ∈ log (init env h) ->
  h' = h /\ outcome (build_datasets env h) = Ok (tr, va, te) /\
  h !! "loss_margin" = Some lm /\ h !! "batch_size" = Some bs /\
  nw = get h "num_workers".
Proof.
  rewrite init_log. intros Hin. apply elem_of_app in Hin as [Hin|Hin].
  - pose proof build_datasets_events as Hev.
    rewrite Forall_forall in Hev. apply Hev in Hin. discriminate.
  - destruct (outcome (build_datasets env h)) as [[[tr' va'] te']|];
      [|inversion Hin].
    pose proof (finish_init_log tr' va' te') as Hev.
    rewrite Forall_forall in Hev. apply Hev in Hin.
    destruct Hin as [(lm' & bs' & E & Hlm & Hbs)|(bt & E & _)]; [|discriminate].
    injection E as -> -> -> -> -> -> ->. auto.
Qed.

(** Dataset events of a construction are those of the dataset step. *)
Lemma dataset_event_inv e :
  e ∈ log (init env h) -> is_dataset_event e = true ->
  e ∈ log (build_datasets env h).
Proof.
  rewrite init_log. intros Hin He.
  apply elem_of_app in Hin as [Hin|Hin]; [exact Hin|].
  destruct (outcome (build_datasets env h)) as [[[tr va] te]|]; [|inversion Hin].
  pose proof (finish_init_log tr va te) as Hev.
  rewrite Forall_forall in Hev. apply Hev in Hin.
  destruct Hin as [(lm & bs & -> & _)|(bt & -> & _)]; discriminate.
Qed.

End ConstructionFacts.

(** ** Construction: when it returns, and what it returns *)

Lemma has_key_Some h k : has_key h k = true -> exists v, h !! k = Some v.
Proof. unfold has_key. destruct (h !! k) as [v|]; [eauto|discriminate]. Qed.

Lemma freeze_loop_present h v ps :
  h !! "freeze_bert" = Some v ->
  freeze_loop h ps = ret (map (set_requires_grad (negb (truthy v))) ps).
Proof.
  intros Hv. induction ps as [|p ps IH]; simpl; [reflexivity|].
  rewrite (getitem_Some _ _ _ Hv), bind_ret, IH, bind_ret. reflexivity.
Qed.

Section ConstructionResult.

Variable env : collaborators.
Variable h : gmap string value.

Lemma build_eval_ds_total k :
  (forall a b c, ValTestDataset_raises env a b c = None) ->
  (if is_not_None (get h k) then has_key h "data_file" && has_key h "bert_type"
   else true) = true ->
  is_Ok (outcome (build_eval_ds env h k)) = true.
Proof.
  intros Hq Hk. unfold build_eval_ds.
  destruct (is_not_None (get h k)) eqn:Hn; [|reflexivity].
  apply andb_prop in Hk as [Ha Hc].
  apply has_key_Some in Ha as [a Ha]. apply has_key_Some in Hc as [c Hc].
  assert (exists b, h !! k = Some b) as [b Hb].
  { unfold get in Hn. destruct (h !! k); [eauto|discriminate]. }
  rewrite (getitem_Some _ _ _ Ha), bind_ret.
  rewrite (getitem_Some _ _ _ Hb), bind_ret.
  rewrite (getitem_Some _ _ _ Hc), bind_ret.
  unfold ValTestDataset, call, bind. rewrite Hq. reflexivity.
Qed.

Lemma build_datasets_total :
  quiet env -> dataset_keys_ok h = true ->
  is_Ok (outcome (build_datasets env h)) = true.
Proof.
  intros (Hpo & Hpa & Hvt & _) Hk. unfold dataset_keys_ok in Hk.
  apply andb_prop in Hk as [Hk Hte]. apply andb_prop in Hk as [Htr Hva].
  pose proof (build_eval_ds_total "val_file" Hvt Hva) as Eva.
  pose proof (build_eval_ds_total "test_file" Hvt Hte) as Ete.
  assert (is_Ok (outcome (build_train_ds env h)) = true) as Etr.
  { unfold build_train_ds.
    destruct (py_eq_str _ "pointwise"); [|destruct (py_eq_str _ "pairwise")];
      [| |reflexivity].
    - apply andb_prop in Htr as [Htr Hc]. apply andb_prop in Htr as [Ha Hb].
      apply has_key_Some in Ha as [a Ha]. apply has_key_Some in Hb as [b Hb].
      apply has_key_Some in Hc as [c Hc].
      rewrite (getitem_Some _ _ _ Ha), bind_ret.
      rewrite (getitem_Some _ _ _ Hb), bind_ret.
      rewrite (getitem_Some _ _ _ Hc), bind_ret.
      unfold PointwiseTrainDataset, call, bind. rewrite Hpo. reflexivity.
    - apply andb_prop in Htr as [Htr Hc]. apply andb_prop in Htr as [Ha Hb].
      apply has_key_Some in Ha as [a Ha]. apply has_key_Some in Hb as [b Hb].
      apply has_key_Some in Hc as [c Hc].
      rewrite (getitem_Some _ _ _ Ha), bind_ret.
      rewrite (getitem_Some _ _ _ Hb), bind_ret.
      rewrite (getitem_Some _ _ _ Hc), bind_ret.
      unfold PairwiseTrainDataset, call, bind. rewrite Hpa. reflexivity. }
  unfold build_datasets. rewrite outcome_bind.
  destruct (outcome (build_train_ds env h)); [|discriminate].
  rewrite outcome_bind.
  destruct (outcome (build_eval_ds env h "val_file")); [|discriminate].
  rewrite outcome_bind.
  destruct (outcome (build_eval_ds env h "test_file")); [|discriminate].
  reflexivity.
Qed.

Lemma finish_init_total tr va te :
  quiet env -> head_keys_ok env h = true ->
  is_Ok (outcome (finish_init env h tr va te)) = true.
Proof.
  intros (_ & _ & _ & Hba & Hfp) Hk. unfold head_keys_ok in Hk.
  apply andb_prop in Hk as [Hk Hbd]. apply andb_prop in Hk as [Hk Hdp].
  apply andb_prop in Hk as [Hk Hfb]. apply andb_prop in Hk as [Hk Hbt].
  apply andb_prop in Hk as [Hlm Hbs].
  apply has_key_Some in Hlm as [lm Hlm]. apply has_key_Some in Hbs as [bs Hbs].
  apply has_key_Some in Hbt as [bt Hbt]. apply has_key_Some in Hfb as [fb Hfb].
  destruct (h !! "dropout") as [dp|] eqn:Edp; [|discriminate].
  destruct (as_number dp) as [q|] eqn:Eq; [|discriminate].
  destruct (h !! "bert_dim") as [bd|] eqn:Ebd; [|discriminate].
  destruct (linear_width env bd 1) as [w|] eqn:Ew; [|discriminate].
  unfold finish_init.
  rewrite (getitem_Some _ _ _ Hlm), bind_ret.
  rewrite (getitem_Some _ _ _ Hbs), bind_ret.
  unfold BaseRanker_init. rewrite outcome_bind_call, Hba. unfold returning.
  rewrite (getitem_Some _ _ _ Hbt), bind_ret.
  unfold BertModel_from_pretrained. rewrite outcome_bind_call.
  specialize (Hfp bt).
  destruct (from_pretrained env bt) as [enc|]; [|discriminate].
  rewrite (getitem_Some _ _ _ Edp), bind_ret.
  unfold Dropout. rewrite Eq, Hdp.
  rewrite bind_ret, (getitem_Some _ _ _ Ebd), bind_ret.
  rewrite (new_Linear_accepts _ _ _ _ Ew).
  rewrite bind_ret, (freeze_loop_present _ _ enc Hfb), bind_ret.
  reflexivity.
Qed.

(** A complete bundle and quiet collaborators: construction returns. *)
Lemma init_total :
  quiet env -> complete env h = true -> is_Ok (outcome (init env h)) = true.
Proof.
  intros Hq Hc. apply andb_prop in Hc as [Hd Hh].
  pose proof (build_datasets_total Hq Hd) as E.
  unfold init. rewrite outcome_bind.
  destruct (outcome (build_datasets env h)) as [[[tr va] te]|]; [|discriminate].
  apply finish_init_total; assumption.
Qed.

End ConstructionResult.

(** What a returned ranker is made of. *)
Lemma init_Ok_inv env h m :
  outcome (init env h) = Ok m ->
  exists tr va te bt enc dp d w,
    outcome (build_datasets env h) = Ok (tr, va, te) /\
    h !! "bert_type" = Some bt /\ from_pretrained env bt = Ok enc /\
    h !! "dropout" = Some dp /\ as_number dp = Some (dropout m) /\
    h !! "bert_dim" = Some d /\ linear_width env d 1 = Some w /\
    outcome (freeze_loop h enc) = Ok (bert m) /\
    hparams m = h /\
    classification m = make_linear env w 1 /\
    training m = true.
Proof.
  unfold init. rewrite outcome_bind.
  destruct (outcome (build_datasets env h)) as [[[tr va] te]|]; [|discriminate].
  unfold finish_init, getitem.
  destruct (h !! "loss_margin") as [lm|]; [rewrite bind_ret|discriminate].
  destruct (h !! "batch_size") as [bs|]; [rewrite bind_ret|discriminate].
  unfold BaseRanker_init. rewrite outcome_bind_call.
  destruct (returning _ _); [|discriminate].
  destruct (h !! "bert_type") as [bt|]; [rewrite bind_ret|discriminate].
  unfold BertModel_from_pretrained. rewrite outcome_bind_call.
  destruct (from_pretrained env bt) as [enc|] eqn:Eenc; [|discriminate].
  destruct (h !! "dropout") as [dp|]; [rewrite bind_ret|discriminate].
  unfold Dropout.
  destruct (as_number dp) as [q|] eqn:Eq; [|discriminate].
  destruct (_ && _); [rewrite bind_ret|discriminate].
  destruct (h !! "bert_dim") as [bd|]; [rewrite bind_ret|discriminate].
  rewrite outcome_bind.
  destruct (outcome (new_Linear env bd 1)) as [cls|] eqn:Ecls; [|discriminate].
  apply new_Linear_Ok_inv in Ecls as (w & Ew & ->).
  rewrite outcome_bind.
  destruct (outcome (freeze_loop h enc)) as [enc'|] eqn:Efl; [|discriminate].
  intros [= <-]. simpl.
  exists tr, va, te, bt, enc, dp, bd, w. repeat split; auto.
Qed.

Lemma freeze_loop_outcome h v ps qs :
  h !! "freeze_bert" = Some v ->
  outcome (freeze_loop h ps) = Ok qs ->
  qs = map (set_requires_grad (negb (truthy v))) ps.
Proof.
  intros Hv. rewrite (freeze_loop_present _ _ _ Hv). intros [= <-]. reflexivity.
Qed.

(** ** Parameters: encoder and head never share a qualified name *)

Lemma encoder_head_disjoint m p :
  p ∈ encoder_parameters m -> p ∈ head_parameters m -> False.
Proof.
  unfold encoder_parameters, head_parameters.
  intros He Hh.
  apply list_elem_of_fmap in He as (x & -> & _).
  apply list_elem_of_fmap in Hh as (y & E & _).
  apply (f_equal p_name) in E. simpl in E. discriminate.
Qed.

Lemma filter_all {A} (f : A -> bool) l :
  Forall (fun x => f x = true) l -> List.filter f l = l.
Proof.
  induction 1 as [|x l Hx _ IH]; simpl; [reflexivity|].
  rewrite Hx, IH. reflexivity.
Qed.

Lemma filter_none {A} (f : A -> bool) l :
  Forall (fun x => f x = false) l -> List.filter f l = [].
Proof.
  induction 1 as [|x l Hx _ IH]; simpl; [reflexivity|].
  rewrite Hx, IH. reflexivity.
Qed.

Lemma param_count_app ps qs :
  param_count (ps ++ qs) = (param_count ps + param_count qs)%nat.
Proof.
  induction ps as [|p ps IH]; simpl; [reflexivity|]. rewrite IH. lia.
Qed.

(** The parameters that reach the optimizer, by the truth value of the
    freeze flag. *)
Lemma params_with_grad_spec env h m v :
  outcome (init env h) = Ok m ->
  h !! "freeze_bert" = Some v ->
  params_with_grad m =
  (if truthy v then [] else encoder_parameters m) ++ head_parameters m.
Proof.
  intros Hm Hv.
  destruct (init_Ok_inv _ _ _ Hm)
    as (tr & va & te & bt & enc & dp & d & w & _ & _ & _ & _ & _ & _ & _ & Hfl & _ & Hcls & _).
  apply (freeze_loop_outcome _ _ _ _ Hv) in Hfl.
  unfold params_with_grad, parameters. rewrite List.filter_app. f_equal.
  - unfold encoder_parameters. rewrite Hfl. destruct (truthy v); simpl.
    + apply filter_none. rewrite Forall_forall. intros p Hp.
      apply list_elem_of_fmap in Hp as (x & -> & Hx).
      apply list_elem_of_fmap in Hx as (y & -> & _). reflexivity.
    + apply filter_all. rewrite Forall_forall. intros p Hp.
      apply list_elem_of_fmap in Hp as (x & -> & Hx).
      apply list_elem_of_fmap in Hx as (y & -> & _). reflexivity.
  - unfold head_parameters. rewrite Hcls. reflexivity.
Qed.

Lemma configure_optimizers_log env m :
  Forall (fun e =>
            (exists lr, e = EvAdamW (params_with_grad m) lr) \/
            (exists opt ws, e = EvSchedule opt ws))
         (log (configure_optimizers env m)).
Proof.
  unfold configure_optimizers.
  apply Forall_log_getitem_bind; intros lr _.
  unfold AdamW. rewrite log_bind_call. constructor; [left; eauto|].
  destruct (returning _ _) as [opt|]; [|constructor].
  apply Forall_log_getitem_bind; intros ws _.
  unfold get_constant_schedule_with_warmup. rewrite log_bind_call.
  constructor; [right; eauto|].
  destruct (returning _ _); constructor.
Qed.

Lemma AdamW_event_inv env m ps lr :
  EvAdamW ps lr ∈ log (configure_optimizers env m) -> ps = params_with_grad m.
Proof.
  intros Hin. pose proof (configure_optimizers_log env m) as Hev.
  rewrite Forall_forall in Hev. apply Hev in Hin.
  destruct Hin as [(lr' & E)|(opt & ws & E)]; [|discriminate].
  injection E as -> _. reflexivity.
Qed.

Lemma example_env_quiet : quiet example_env.
Proof. repeat split. Defined.

Lemma py_eq_str_false v s : v <> VStr s -> py_eq_str v s = false.
Proof.
  destruct v as [| | | |t]; simpl; try reflexivity.
  intros Hne. apply String.eqb_neq. congruence.
Qed.

(** ** Construction: reaching the harness and the registry *)

Lemma Forall_never_nil {A} (l : list A) : Forall (fun _ => False) l -> l = [].
Proof. destruct 1; [reflexivity|contradiction]. Qed.

(** Nothing is called once the encoder is loaded. *)
Lemma after_load_silent env h (enc : list param) tr va te :
  log (bind (getitem h "dropout") (fun dp =>
       bind (Dropout dp) (fun p =>
       bind (getitem h "bert_dim") (fun bd =>
       bind (new_Linear env bd 1) (fun cls =>
       bind (freeze_loop h enc) (fun enc' =>
       ret {| hparams := h; train_ds := tr; val_ds := va; test_ds := te;
              bert := enc'; dropout := p; classification := cls;
              training := true |})))))) = [].
Proof.
  apply Forall_never_nil.
  apply Forall_log_getitem_bind; intros dp _.
  apply Forall_log_bind.
  { unfold Dropout. destruct (as_number dp); [|constructor].
    destruct (_ && _); constructor. }
  intros p _.
  apply Forall_log_getitem_bind; intros bd _.
  apply Forall_log_bind.
  { rewrite new_Linear_log. constructor. }
  intros cls _.
  apply Forall_log_bind; [|intros ? _; constructor].
  induction enc as [|p0 ps IH]; simpl; [constructor|].
  apply Forall_log_getitem_bind; intros v _.
  apply Forall_log_bind; [exact IH | intros ? _; constructor].
Qed.

Lemma init_after_datasets env h tr va te :
  outcome (build_datasets env h) = Ok (tr, va, te) ->
  init env h =
  (log (build_datasets env h) ++ log (finish_init env h tr va te),
   outcome (finish_init env h tr va te)).
Proof.
  intros Hds. rewrite (M_eta (init env h)). f_equal.
  - rewrite init_log, Hds. reflexivity.
  - unfold init. rewrite outcome_bind, Hds. reflexivity.
Qed.

Lemma init_datasets_failed env h e :
  outcome (build_datasets env h) = Err e -> outcome (init env h) = Err e.
Proof. intros Hds. unfold init. rewrite outcome_bind, Hds. reflexivity. Qed.

Lemma build_datasets_from_parts env h tr va te :
  outcome (build_train_ds env h) = Ok tr ->
  outcome (build_eval_ds env h "val_file") = Ok va ->
  outcome (build_eval_ds env h "test_file") = Ok te ->
  outcome (build_datasets env h) = Ok (tr, va, te).
Proof.
  intros Htr Hva Hte. unfold build_datasets.
  rewrite outcome_bind, Htr, outcome_bind, Hva, outcome_bind, Hte. reflexivity.
Qed.

(** With both keys present the first thing after the dataset step is the
    call of the harness initialiser. *)
Lemma finish_init_reaches_harness env h tr va te lm bs :
  h !! "loss_margin" = Some lm -> h !! "batch_size" = Some bs ->
  exists rest,
    log (finish_init env h tr va te) =
    EvBaseRankerInit h tr va te lm bs (get h "num_workers") :: rest.
Proof.
  intros Hlm Hbs. unfold finish_init.
  rewrite (getitem_Some _ _ _ Hlm), bind_ret, (getitem_Some _ _ _ Hbs), bind_ret.
  unfold BaseRanker_init. rewrite log_bind_call. eexists. reflexivity.
Qed.

(** When the harness initialiser returns and [bert_type] is present, the
    encoder is loaded, and nothing is called after that. *)
Lemma finish_init_reaches_registry env h tr va te lm bs bt :
  h !! "loss_margin" = Some lm -> h !! "batch_size" = Some bs ->
  BaseRanker_raises env h tr va te lm bs (get h "num_workers") = None ->
  h !! "bert_type" = Some bt ->
  log (finish_init env h tr va te) =
  [EvBaseRankerInit h tr va te lm bs (get h "num_workers"); EvFromPretrained bt].
Proof.
  intros Hlm Hbs Hba Hbt. unfold finish_init.
  rewrite (getitem_Some _ _ _ Hlm), bind_ret, (getitem_Some _ _ _ Hbs), bind_ret.
  unfold BaseRanker_init. rewrite log_bind_call, Hba. unfold returning.
  rewrite (getitem_Some _ _ _ Hbt), bind_ret.
  unfold BertModel_from_pretrained. rewrite log_bind_call.
  destruct (from_pretrained env bt) as [enc|]; [|reflexivity].
  rewrite after_load_silent. reflexivity.
Qed.

Lemma init_reaches_harness env h tr va te lm bs :
  outcome (build_datasets env h) = Ok (tr, va, te) ->
  h !! "loss_margin" = Some lm -> h !! "batch_size" = Some bs ->
  EvBaseRankerInit h tr va te lm bs (get h "num_workers") ∈ log (init env h).
Proof.
  intros Hds Hlm Hbs. rewrite init_log, Hds.
  destruct (finish_init_reaches_harness env h tr va te lm bs Hlm Hbs) as (rest & ->).
  apply elem_of_app. right. apply list_elem_of_here.
Qed.

Lemma init_reaches_registry env h tr va te lm bs bt :
  outcome (build_datasets env h) = Ok (tr, va, te) ->
  h !! "loss_margin" = Some lm -> h !! "batch_size" = Some bs ->
  BaseRanker_raises env h tr va te lm bs (get h "num_workers") = None ->
  h !! "bert_type" = Some bt ->
  EvFromPretrained bt ∈ log (init env h).
Proof.
  intros Hds Hlm Hbs Hba Hbt. rewrite init_log, Hds.
  rewrite (finish_init_reaches_registry env h tr va te lm bs bt Hlm Hbs Hba Hbt).
  apply elem_of_app. right. apply list_elem_of_further, list_elem_of_here.
Qed.

(** The call that an evaluation file other than [None] gives rise to. *)
Lemma build_eval_ds_log_given env h k a c s :
  h !! "data_file" = Some a -> h !! "bert_type" = Some c ->
  h !! k = Some s -> s <> VNone ->
  log (build_eval_ds env h k) = [EvValTestDataset a s c].
Proof.
  intros Ha Hc Hk Hs. unfold build_eval_ds. rewrite (get_Some _ _ _ Hk).
  assert (is_not_None s = true) as -> by (destruct s; try reflexivity; contradiction).
  rewrite (getitem_Some _ _ _ Ha), bind_ret, (getitem_Some _ _ _ Hk), bind_ret,
    (getitem_Some _ _ _ Hc), bind_ret.
  unfold ValTestDataset. rewrite log_bind_call.
  destruct (returning _ _); reflexivity.
Qed.

(** When no dataset constructor raises, the dataset step can only end in
    the KeyError of one of its lookups. *)
Lemma build_datasets_quiet_error env h e :
  quiet env -> outcome (build_datasets env h) = Err e ->
  exists k, e = KeyError k.
Proof.
  intros (Hpo & Hpa & Hvt & _).
  assert (forall k e', outcome (build_eval_ds env h k) = Err e' ->
                       exists key, e' = KeyError key) as Hev.
  { intros k e'. unfold build_eval_ds, getitem.
    destruct (is_not_None (get h k)); [|discriminate].
    destruct (h !! "data_file"); [rewrite bind_ret|intros [= <-]; eauto].
    destruct (h !! k); [rewrite bind_ret|intros [= <-]; eauto].
    destruct (h !! "bert_type"); [rewrite bind_ret|intros [= <-]; eauto].
    unfold ValTestDataset. rewrite outcome_bind_call, Hvt. discriminate. }
  assert (forall e', outcome (build_train_ds env h) = Err e' ->
                     exists key, e' = KeyError key) as Htr.
  { intros e'. unfold build_train_ds, getitem.
    destruct (py_eq_str _ "pointwise"); [|destruct (py_eq_str _ "pairwise")];
      [| |discriminate].
    - destruct (h !! "data_file"); [rewrite bind_ret|intros [= <-]; eauto].
      destruct (h !! "train_file_pointwise"); [rewrite bind_ret|intros [= <-]; eauto].
      destruct (h !! "bert_type"); [rewrite bind_ret|intros [= <-]; eauto].
      unfold PointwiseTrainDataset. rewrite outcome_bind_call, Hpo. discriminate.
    - destruct (h !! "data_file"); [rewrite bind_ret|intros [= <-]; eauto].
      destruct (h !! "train_file_pairwise"); [rewrite bind_ret|intros [= <-]; eauto].
      destruct (h !! "bert_type"); [rewrite bind_ret|intros [= <-]; eauto].
      unfold PairwiseTrainDataset. rewrite outcome_bind_call, Hpa. discriminate. }
  unfold build_datasets. rewrite outcome_bind.
  destruct (outcome (build_train_ds env h)) as [tr|e1] eqn:E1;
    [|intros [= <-]; eauto].
  rewrite outcome_bind.
  destruct (outcome (build_eval_ds env h "val_file")) as [va|e2] eqn:E2;
    [|intros [= <-]; eauto].
  rewrite outcome_bind.
  destruct (outcome (build_eval_ds env h "test_file")) as [te|e3] eqn:E3;
    [discriminate|intros [= <-]; eauto].
Qed.

(** ** Claims about construction *)

(** C1, as written, fails: with [training_mode = "listwise"] and a
    validation file, construction returns a ranker, after constructing
    the validation dataset and loading the encoder. *)
Lemma C1_listwise_is_not_rejected :
  listwise_bundle !! "training_mode" = Some (VStr "listwise") /\
  is_Ok (outcome (init example_env listwise_bundle)) = true /\
  existsb is_dataset_event (log (init example_env listwise_bundle)) = true /\
  existsb is_from_pretrained_event (log (init example_env listwise_bundle)) = true /\
  ~ rejected_before_loading example_env listwise_bundle.
Proof.
  split; [vm_compute; reflexivity|].
  split; [vm_compute; reflexivity|].
  split; [vm_compute; reflexivity|].
  split; [vm_compute; reflexivity|].
  intros [(e & He & _) _]. vm_compute in He. discriminate.
Qed.

(** C1, amended: for every bundle whose [training_mode] is set to a value
    other than "pointwise" or "pairwise", the mode raises no error.  The
    training step constructs nothing and returns [None]; a validation
    and a test dataset named in the bundle are still constructed; once
    the dataset step has returned and [loss_margin] and [batch_size] are
    present, the harness is called with [None] as its training dataset;
    once the harness has returned and [bert_type] is present, the
    encoder is loaded; and construction returns whenever the bundle is
    complete and no collaborator raises. *)
Theorem C1_unsupported_mode_is_passed_on env h v :
  h !! "training_mode" = Some v ->
  v <> VStr "pointwise" -> v <> VStr "pairwise" ->
  build_train_ds env h = ret None /\
  Forall (fun e => is_pointwise_event e = false /\ is_pairwise_event e = false)
         (log (init env h)) /\
  (forall h' tr va te lm bs nw,
      EvBaseRankerInit h' tr va te lm bs nw ∈ log (init env h) -> tr = None) /\
  (forall a c s,
      h !! "data_file" = Some a -> h !! "bert_type" = Some c ->
      h !! "val_file" = Some s -> s <> VNone ->
      EvValTestDataset a s c ∈ log (init env h)) /\
  (forall a c s va,
      h !! "data_file" = Some a -> h !! "bert_type" = Some c ->
      outcome (build_eval_ds env h "val_file") = Ok va ->
      h !! "test_file" = Some s -> s <> VNone ->
      EvValTestDataset a s c ∈ log (init env h)) /\
  (forall va te lm bs,
      outcome (build_eval_ds env h "val_file") = Ok va ->
      outcome (build_eval_ds env h "test_file") = Ok te ->
      h !! "loss_margin" = Some lm -> h !! "batch_size" = Some bs ->
      EvBaseRankerInit h None va te lm bs (get h "num_workers") ∈ log (init env h) /\
      (forall bt,
          BaseRanker_raises env h None va te lm bs (get h "num_workers") = None ->
          h !! "bert_type" = Some bt ->
          EvFromPretrained bt ∈ log (init env h))) /\
  (quiet env -> complete env h = true -> is_Ok (outcome (init env h)) = true).
Proof.
  intros Hm H1 H2.
  assert (build_train_ds env h = ret None) as Htr.
  { apply build_train_ds_unsupported; rewrite (get_Some _ _ _ Hm);
      apply py_eq_str_false; assumption. }
  split; [exact Htr|]. split; [|split; [|split; [|split; [|split]]]].
  - rewrite Forall_forall. intros e Hin.
    destruct (is_dataset_event e) eqn:He.
    + apply dataset_event_inv in Hin; [|exact He].
      rewrite build_datasets_log, Htr in Hin. simpl in Hin.
      assert (is_valtest_event e = true) as Hvt.
      { apply elem_of_app in Hin as [Hin|Hin].
        - pose proof (build_eval_ds_log env h "val_file") as Hev.
          rewrite Forall_forall in Hev.
          destruct (Hev _ Hin) as (a & c & -> & _). reflexivity.
        - destruct (outcome (build_eval_ds env h "val_file")) as [va|];
            [|inversion Hin].
          pose proof (build_eval_ds_log env h "test_file") as Hev.
          rewrite Forall_forall in Hev.
          destruct (Hev _ Hin) as (a & c & -> & _). reflexivity. }
      destruct e; simpl in *; try discriminate; auto.
    + destruct e; simpl in *; try discriminate; auto.
  - intros h' tr va te lm bs nw Hin.
    apply harness_event_inv in Hin as (_ & Hds & _).
    apply build_datasets_outcome in Hds as (Hds & _).
    rewrite Htr in Hds. simpl in Hds. congruence.
  - intros a c s Ha Hc Hs Hne.
    rewrite init_log, build_datasets_log, Htr. simpl.
    rewrite (build_eval_ds_log_given env h _ a c s Ha Hc Hs Hne).
    apply list_elem_of_here.
  - intros a c s va Ha Hc Hva Hs Hne.
    rewrite init_log, build_datasets_log, Htr. simpl. rewrite Hva.
    rewrite (build_eval_ds_log_given env h _ a c s Ha Hc Hs Hne).
    apply elem_of_app. left. apply elem_of_app. right. apply list_elem_of_here.
  - intros va te lm bs Hva Hte Hlm Hbs.
    assert (outcome (build_datasets env h) = Ok (None, va, te)) as Hds.
    { apply build_datasets_from_parts; [rewrite Htr; reflexivity|exact Hva|exact Hte]. }
    split.
    + apply (init_reaches_harness env h None va te lm bs Hds Hlm Hbs).
    + intros bt Hba Hbt.
      apply (init_reaches_registry env h None va te lm bs bt Hds Hlm Hbs Hba Hbt).
  - apply init_total.
Qed.

Lemma C1_unsupported_mode_witness :
  build_train_ds example_env listwise_bundle = ret None /\
  EvValTestDataset (VStr "data.jsonl") (VStr "val.tsv") (VStr "bert-base-uncased")
    ∈ log (init example_env listwise_bundle) /\
  EvBaseRankerInit listwise_bundle None
    (Some (Dataset ValTest (VStr "data.jsonl") (VStr "val.tsv")
             (VStr "bert-base-uncased")))
    None (VFloat (2 # 10)) (VInt 32) (get listwise_bundle "num_workers")
    ∈ log (init example_env listwise_bundle) /\
  EvFromPretrained (VStr "bert-base-uncased") ∈ log (init example_env listwise_bundle) /\
  is_Ok (outcome (init example_env listwise_bundle)) = true.
Proof.
  destruct (C1_unsupported_mode_is_passed_on example_env listwise_bundle
              (VStr "listwise")) as (H1 & _ & _ & H4 & _ & H6 & H7).
  - vm_compute; reflexivity.
  - discriminate.
  - discriminate.
  - split; [exact H1|]. split.
    { apply H4; try (vm_compute; reflexivity). discriminate. }
    destruct (H6 (Some (Dataset ValTest (VStr "data.jsonl") (VStr "val.tsv")
                          (VStr "bert-base-uncased")))
                 None (VFloat (2 # 10)) (VInt 32)) as [H6a H6b];
      try (vm_compute; reflexivity).
    split; [exact H6a|]. split.
    { apply H6b; vm_compute; reflexivity. }
    apply H7; [exact example_env_quiet|vm_compute; reflexivity].
Defined.

(** C2, as written, fails: in pointwise mode without the key
    [train_file_pointwise], construction ends in the KeyError of the
    dictionary lookup. *)
Lemma C2_missing_path_is_a_KeyError :
  no_train_file_bundle !! "training_mode" = Some (VStr "pointwise") /\
  no_train_file_bundle !! "train_file_pointwise" = None /\
  init example_env no_train_file_bundle =
    ([], Err (KeyError "train_file_pointwise")) /\
  is_ConfigurationError (KeyError "train_file_pointwise") = false /\
  ~ fails_with_ConfigurationError example_env no_train_file_bundle.
Proof.
  split; [vm_compute; reflexivity|].
  split; [vm_compute; reflexivity|].
  split; [vm_compute; reflexivity|].
  split; [vm_compute; reflexivity|].
  intros (e & He & Hc). vm_compute in He. injection He as <-. discriminate.
Qed.

(** C2, amended: in pointwise mode with [data_file] present and the key
    [train_file_pointwise] absent, construction fails with the KeyError
    for [train_file_pointwise] before any collaborator is called; in
    pairwise mode likewise with [train_file_pairwise]. *)
Theorem C2_missing_training_path_raises_KeyError env h a :
  h !! "data_file" = Some a ->
  (h !! "training_mode" = Some (VStr "pointwise") ->
   h !! "train_file_pointwise" = None ->
   init env h = ([], Err (KeyError "train_file_pointwise"))) /\
  (h !! "training_mode" = Some (VStr "pairwise") ->
   h !! "train_file_pairwise" = None ->
   init env h = ([], Err (KeyError "train_file_pairwise"))).
Proof.
  intros Ha. split; intros Hm Hp.
  - unfold init, build_datasets, build_train_ds.
    rewrite (get_Some _ _ _ Hm). simpl.
    rewrite (getitem_Some _ _ _ Ha), bind_ret, (getitem_None _ _ Hp).
    reflexivity.
  - unfold init, build_datasets, build_train_ds.
    rewrite (get_Some _ _ _ Hm). simpl.
    rewrite (getitem_Some _ _ _ Ha), bind_ret, (getitem_None _ _ Hp).
    reflexivity.
Qed.

Lemma C2_missing_training_path_witness :
  init example_env no_train_file_bundle =
    ([], Err (KeyError "train_file_pointwise")) /\
  init example_env (delete "train_file_pairwise" pairwise_bundle) =
    ([], Err (KeyError "train_file_pairwise")).
Proof.
  split.
  - apply (C2_missing_training_path_raises_KeyError example_env
             no_train_file_bundle (VStr "data.jsonl"));
      vm_compute; reflexivity.
  - apply (C2_missing_training_path_raises_KeyError example_env
             (delete "train_file_pairwise" pairwise_bundle) (VStr "data.jsonl"));
      vm_compute; reflexivity.
Defined.

(** The log of a construction starts with the events of the training
    step; whatever follows is no training-dataset construction. *)
Lemma init_log_split env h :
  exists rest,
    log (init env h) = log (build_train_ds env h) ++ rest /\
    Forall (fun e => is_pointwise_event e = false /\ is_pairwise_event e = false)
           rest.
Proof.
  rewrite init_log, build_datasets_log, <- app_assoc.
  eexists. split; [reflexivity|].
  assert (forall k,
             Forall (fun e => is_pointwise_event e = false /\
                              is_pairwise_event e = false)
                    (log (build_eval_ds env h k))) as Hev.
  { intros k. eapply Forall_impl; [apply build_eval_ds_log|].
    intros e (x & y & -> & _). auto. }
  apply Forall_app. split.
  - destruct (outcome (build_train_ds env h)) as [tr|]; [|constructor].
    apply Forall_app. split; [apply Hev|].
    destruct (outcome (build_eval_ds env h "val_file")) as [va|];
      [apply Hev|constructor].
  - destruct (outcome (build_datasets env h)) as [[[tr va] te]|]; [|constructor].
    eapply Forall_impl; [apply finish_init_log|].
    intros e [(lm & bs & -> & _)|(bt & -> & _)]; auto.
Qed.

(** C3: with [data_file] and [bert_type] present, a bundle in pointwise
    mode with a pointwise training path makes construction call the
    pointwise training-dataset constructor, first and on these values,
    and never the pairwise one (nor the pointwise one a second time); a
    bundle in pairwise mode with a pairwise training path symmetrically. *)
Theorem C3_training_dataset_constructor_selected env h a c :
  h !! "data_file" = Some a ->
  h !! "bert_type" = Some c ->
  (forall b,
      h !! "training_mode" = Some (VStr "pointwise") ->
      h !! "train_file_pointwise" = Some b ->
      exists rest,
        log (init env h) = EvPointwiseTrainDataset a b c :: rest /\
        Forall (fun e => is_pointwise_event e = false /\
                         is_pairwise_event e = false) rest) /\
  (forall b,
      h !! "training_mode" = Some (VStr "pairwise") ->
      h !! "train_file_pairwise" = Some b ->
      exists rest,
        log (init env h) = EvPairwiseTrainDataset a b c :: rest /\
        Forall (fun e => is_pointwise_event e = false /\
                         is_pairwise_event e = false) rest).
Proof.
  intros Ha Hc. split; intros b Hm Hb.
  - destruct (init_log_split env h) as (rest & -> & Hrest).
    rewrite (build_train_ds_pointwise env h a b c Hm Ha Hb Hc).
    unfold PointwiseTrainDataset. rewrite log_bind_call.
    exists rest. split; [|exact Hrest].
    destruct (returning _ _); reflexivity.
  - destruct (init_log_split env h) as (rest & -> & Hrest).
    rewrite (build_train_ds_pairwise env h a b c Hm Ha Hb Hc).
    unfold PairwiseTrainDataset. rewrite log_bind_call.
    exists rest. split; [|exact Hrest].
    destruct (returning _ _); reflexivity.
Qed.

Lemma C3_training_dataset_constructor_witness :
  (exists rest,
      log (init example_env example_bundle) =
      EvPointwiseTrainDataset (VStr "data.jsonl") (VStr "train.tsv")
        (VStr "bert-base-uncased") :: rest /\
      Forall (fun e => is_pointwise_event e = false /\
                       is_pairwise_event e = false) rest) /\
  (exists rest,
      log (init example_env pairwise_bundle) =
      EvPairwiseTrainDataset (VStr "data.jsonl") (VStr "pairs.tsv")
        (VStr "bert-base-uncased") :: rest /\
      Forall (fun e => is_pointwise_event e = false /\
                       is_pairwise_event e = false) rest).
Proof.
  split.
  - apply (C3_training_dataset_constructor_selected example_env example_bundle
             (VStr "data.jsonl") (VStr "bert-base-uncased"));
      vm_compute; reflexivity.
  - apply (C3_training_dataset_constructor_selected example_env pairwise_bundle
             (VStr "data.jsonl") (VStr "bert-base-uncased"));
      vm_compute; reflexivity.
Defined.

(** C8: when [val_file] is omitted, the validation step constructs
    nothing and raises nothing; once the other two steps have returned
    and [loss_margin] and [batch_size] are present, the harness is
    called with [None] as its validation dataset, and no call of the
    harness carries another one; every validation/test constructor call
    in the log is the one for [test_file]; and construction returns
    whenever the bundle is otherwise complete and no collaborator raises.
    The same holds for [test_file] and the test dataset. *)
Theorem C8_omitted_eval_file_builds_no_dataset env h :
  (h !! "val_file" = None ->
   build_eval_ds env h "val_file" = ret None /\
   (forall tr te lm bs,
       outcome (build_train_ds env h) = Ok tr ->
       outcome (build_eval_ds env h "test_file") = Ok te ->
       h !! "loss_margin" = Some lm -> h !! "batch_size" = Some bs ->
       EvBaseRankerInit h tr None te lm bs (get h "num_workers")
         ∈ log (init env h)) /\
   (forall h' tr va te lm bs nw,
       EvBaseRankerInit h' tr va te lm bs nw ∈ log (init env h) -> va = None) /\
   (forall a s c,
       EvValTestDataset a s c ∈ log (init env h) -> h !! "test_file" = Some s) /\
   (quiet env -> complete env h = true -> is_Ok (outcome (init env h)) = true)) /\
  (h !! "test_file" = None ->
   build_eval_ds env h "test_file" = ret None /\
   (forall tr va lm bs,
       outcome (build_train_ds env h) = Ok tr ->
       outcome (build_eval_ds env h "val_file") = Ok va ->
       h !! "loss_margin" = Some lm -> h !! "batch_size" = Some bs ->
       EvBaseRankerInit h tr va None lm bs (get h "num_workers")
         ∈ log (init env h)) /\
   (forall h' tr va te lm bs nw,
       EvBaseRankerInit h' tr va te lm bs nw ∈ log (init env h) -> te = None) /\
   (forall a s c,
       EvValTestDataset a s c ∈ log (init env h) -> h !! "val_file" = Some s) /\
   (quiet env -> complete env h = true -> is_Ok (outcome (init env h)) = true)).
Proof.
  assert (forall k a s c,
             EvValTestDataset a s c ∈ log (build_eval_ds env h k) ->
             h !! k = Some s) as Hsrc.
  { intros k a s c Hin.
    pose proof (build_eval_ds_log env h k) as Hev.
    rewrite Forall_forall in Hev.
    destruct (Hev _ Hin) as (x & y & E & Hn). injection E as _ -> _.
    unfold get in *. destruct (h !! k); [reflexivity|discriminate]. }
  assert (forall a s c,
             EvValTestDataset a s c ∈ log (init env h) ->
             EvValTestDataset a s c ∈ log (build_eval_ds env h "val_file") \/
             EvValTestDataset a s c ∈ log (build_eval_ds env h "test_file"))
    as Hwhere.
  { intros a s c Hin. apply dataset_event_inv in Hin; [|reflexivity].
    rewrite build_datasets_log in Hin.
    apply elem_of_app in Hin as [Hin|Hin].
    - pose proof (build_train_ds_log env h) as Hev.
      rewrite Forall_forall in Hev. destruct (Hev _ Hin); discriminate.
    - destruct (outcome (build_train_ds env h)) as [tr|]; [|inversion Hin].
      apply elem_of_app in Hin as [Hin|Hin]; [left; exact Hin|].
      destruct (outcome (build_eval_ds env h "val_file")) as [va|];
        [right; exact Hin|inversion Hin]. }
  split; intros Hk; pose proof (build_eval_ds_omitted env h _ Hk) as Hnone.
  - split; [exact Hnone|]. split; [|split; [|split]].
    + intros tr te lm bs Htr Hte Hlm Hbs.
      apply init_reaches_harness; [|exact Hlm|exact Hbs].
      apply build_datasets_from_parts; [exact Htr|rewrite Hnone; reflexivity|exact Hte].
    + intros h' tr va te lm bs nw Hin.
      apply harness_event_inv in Hin as (_ & Hds & _).
      apply build_datasets_outcome in Hds as (_ & Hva & _).
      rewrite Hnone in Hva. simpl in Hva. congruence.
    + intros a s c Hin. destruct (Hwhere _ _ _ Hin) as [Hin'|Hin'].
      * rewrite Hnone in Hin'. inversion Hin'.
      * eapply Hsrc; exact Hin'.
    + apply init_total.
  - split; [exact Hnone|]. split; [|split; [|split]].
    + intros tr va lm bs Htr Hva Hlm Hbs.
      apply init_reaches_harness; [|exact Hlm|exact Hbs].
      apply build_datasets_from_parts; [exact Htr|exact Hva|rewrite Hnone; reflexivity].
    + intros h' tr va te lm bs nw Hin.
      apply harness_event_inv in Hin as (_ & Hds & _).
      apply build_datasets_outcome in Hds as (_ & _ & Hte).
      rewrite Hnone in Hte. simpl in Hte. congruence.
    + intros a s c Hin. destruct (Hwhere _ _ _ Hin) as [Hin'|Hin'].
      * eapply Hsrc; exact Hin'.
      * rewrite Hnone in Hin'. inversion Hin'.
    + apply init_total.
Qed.

Lemma C8_omitted_eval_file_witness :
  (build_eval_ds example_env example_bundle "val_file" = ret None /\
   EvBaseRankerInit example_bundle
     (Some (Dataset Pointwise (VStr "data.jsonl") (VStr "train.tsv")
              (VStr "bert-base-uncased")))
     None None (VFloat (2 # 10)) (VInt 32) (get example_bundle "num_workers")
     ∈ log (init example_env example_bundle) /\
   is_Ok (outcome (init example_env example_bundle)) = true) /\
  (build_eval_ds example_env listwise_bundle "test_file" = ret None /\
   EvBaseRankerInit listwise_bundle None
     (Some (Dataset ValTest (VStr "data.jsonl") (VStr "val.tsv")
              (VStr "bert-base-uncased")))
     None (VFloat (2 # 10)) (VInt 32) (get listwise_bundle "num_workers")
     ∈ log (init example_env listwise_bundle) /\
   is_Ok (outcome (init example_env listwise_bundle)) = true).
Proof.
  split.
  - destruct (proj1 (C8_omitted_eval_file_builds_no_dataset
                       example_env example_bundle)) as (H1 & H2 & _ & _ & H5).
    + vm_compute; reflexivity.
    + split; [exact H1|]. split.
      * apply H2; vm_compute; reflexivity.
      * apply H5; [exact example_env_quiet|vm_compute; reflexivity].
  - destruct (proj2 (C8_omitted_eval_file_builds_no_dataset
                       example_env listwise_bundle)) as (H1 & H2 & _ & _ & H5).
    + vm_compute; reflexivity.
    + split; [exact H1|]. split.
      * apply H2; vm_compute; reflexivity.
      * apply H5; [exact example_env_quiet|vm_compute; reflexivity].
Defined.

(** C10, as written, fails: without [loss_margin] and with a pointwise
    training dataset that does not find its file, construction ends in
    the exception of the dataset constructor, which is raised before
    [loss_margin] is looked up, and not in a key-lookup error. *)
Lemma C10_dataset_exception_comes_first :
  delete "loss_margin" example_bundle !! "loss_margin" = None /\
  init missing_file_env (delete "loss_margin" example_bundle) =
    ([EvPointwiseTrainDataset (VStr "data.jsonl") (VStr "train.tsv")
        (VStr "bert-base-uncased")],
     Err (Raise "FileNotFoundError" "train.tsv")) /\
  ~ fails_with_KeyError missing_file_env (delete "loss_margin" example_bundle).
Proof.
  split; [vm_compute; reflexivity|].
  split; [vm_compute; reflexivity|].
  intros (k & Hk). vm_compute in Hk. discriminate.
Qed.

(** C10, amended: omitting [num_workers] is no error: once the dataset
    step has returned and [loss_margin] and [batch_size] are present,
    the harness is called with [None] as worker count, and construction
    returns for a complete bundle and collaborators that do not raise.
    Without [loss_margin], or without [batch_size], construction never
    returns, in any training mode: it ends in the exception of the
    dataset step if that step raises, and otherwise in the KeyError of
    the missing key, before the harness is called; when no collaborator
    raises, it always ends in a KeyError.  Without [data_file], a bundle
    that has a dataset built (training mode pointwise or pairwise, or a
    validation or test file) ends in the KeyError for [data_file] before
    any collaborator is called. *)
Theorem C10_optional_and_required_keys env h :
  (h !! "num_workers" = None ->
   (forall tr va te lm bs,
       outcome (build_datasets env h) = Ok (tr, va, te) ->
       h !! "loss_margin" = Some lm -> h !! "batch_size" = Some bs ->
       EvBaseRankerInit h tr va te lm bs VNone ∈ log (init env h)) /\
   (forall h' tr va te lm bs nw,
       EvBaseRankerInit h' tr va te lm bs nw ∈ log (init env h) -> nw = VNone) /\
   (quiet env -> complete env h = true -> is_Ok (outcome (init env h)) = true)) /\
  (h !! "loss_margin" = None ->
   is_Ok (outcome (init env h)) = false /\
   (forall ds, outcome (build_datasets env h) = Ok ds ->
               init env h =
               (log (build_datasets env h), Err (KeyError "loss_margin"))) /\
   (forall e, outcome (build_datasets env h) = Err e ->
              init env h = (log (build_datasets env h), Err e)) /\
   (quiet env -> fails_with_KeyError env h)) /\
  (h !! "batch_size" = None ->
   is_Ok (outcome (init env h)) = false /\
   (forall ds, outcome (build_datasets env h) = Ok ds ->
               exists k, (k = "loss_margin" \/ k = "batch_size") /\
                         init env h =
                         (log (build_datasets env h), Err (KeyError k))) /\
   (forall ds lm, outcome (build_datasets env h) = Ok ds ->
                  h !! "loss_margin" = Some lm ->
                  init env h =
                  (log (build_datasets env h), Err (KeyError "batch_size"))) /\
   (forall e, outcome (build_datasets env h) = Err e ->
              init env h = (log (build_datasets env h), Err e)) /\
   (quiet env -> fails_with_KeyError env h)) /\
  (h !! "data_file" = None ->
   py_eq_str (get h "training_mode") "pointwise" = true \/
   py_eq_str (get h "training_mode") "pairwise" = true \/
   is_not_None (get h "val_file") = true \/
   is_not_None (get h "test_file") = true ->
   init env h = ([], Err (KeyError "data_file"))).
Proof.
  assert (forall e, outcome (build_datasets env h) = Err e ->
                    init env h = (log (build_datasets env h), Err e)) as Hfail.
  { intros e Hds. rewrite (M_eta (init env h)), init_log, Hds, app_nil_r.
    rewrite (init_datasets_failed _ _ _ Hds). reflexivity. }
  split; [|split; [|split]].
  - intros Hnw. split; [|split; [|apply init_total]].
    + intros tr va te lm bs Hds Hlm Hbs.
      rewrite <- (get_None _ _ Hnw).
      apply (init_reaches_harness env h tr va te lm bs Hds Hlm Hbs).
    + intros h' tr va te lm bs nw Hin.
      apply harness_event_inv in Hin as (_ & _ & _ & _ & ->).
      apply get_None. exact Hnw.
  - intros Hlm.
    assert (forall tr va te,
               finish_init env h tr va te = raise (KeyError "loss_margin")) as Hfin.
    { intros. unfold finish_init. rewrite (getitem_None _ _ Hlm). reflexivity. }
    assert (forall ds, outcome (build_datasets env h) = Ok ds ->
                       init env h =
                       (log (build_datasets env h), Err (KeyError "loss_margin")))
      as Hkey.
    { intros [[tr va] te] Hds.
      rewrite (init_after_datasets _ _ _ _ _ Hds), Hfin. simpl.
      rewrite app_nil_r. reflexivity. }
    split; [|split; [exact Hkey|split; [exact Hfail|]]].
    + destruct (outcome (build_datasets env h)) as [ds|e] eqn:Hds.
      * rewrite (Hkey ds eq_refl). reflexivity.
      * rewrite (init_datasets_failed _ _ _ Hds). reflexivity.
    + intros Hq. unfold fails_with_KeyError.
      destruct (outcome (build_datasets env h)) as [ds|e] eqn:Hds.
      * exists "loss_margin". rewrite (Hkey ds eq_refl). reflexivity.
      * destruct (build_datasets_quiet_error env h e Hq Hds) as (k & ->).
        exists k. apply init_datasets_failed. exact Hds.
  - intros Hbs.
    assert (forall tr va te,
               finish_init env h tr va te =
               raise (KeyError (if has_key h "loss_margin"
                                then "batch_size" else "loss_margin"))) as Hfin.
    { intros. unfold finish_init, getitem, has_key.
      destruct (h !! "loss_margin"); [|reflexivity].
      rewrite bind_ret, Hbs. reflexivity. }
    assert (forall ds, outcome (build_datasets env h) = Ok ds ->
                       init env h =
                       (log (build_datasets env h),
                        Err (KeyError (if has_key h "loss_margin"
                                       then "batch_size" else "loss_margin"))))
      as Hkey.
    { intros [[tr va] te] Hds.
      rewrite (init_after_datasets _ _ _ _ _ Hds), Hfin. simpl.
      rewrite app_nil_r. reflexivity. }
    split; [|split; [|split; [|split; [exact Hfail|]]]].
    + destruct (outcome (build_datasets env h)) as [ds|e] eqn:Hds.
      * rewrite (Hkey ds eq_refl). reflexivity.
      * rewrite (init_datasets_failed _ _ _ Hds). reflexivity.
    + intros ds Hds. rewrite (Hkey ds Hds).
      eexists. split; [|reflexivity].
      destruct (has_key h "loss_margin"); auto.
    + intros ds lm Hds Hlm. rewrite (Hkey ds Hds).
      unfold has_key. rewrite Hlm. reflexivity.
    + intros Hq. unfold fails_with_KeyError.
      destruct (outcome (build_datasets env h)) as [ds|e] eqn:Hds.
      * eexists. rewrite (Hkey ds eq_refl). reflexivity.
      * destruct (build_datasets_quiet_error env h e Hq Hds) as (k & ->).
        exists k. apply init_datasets_failed. exact Hds.
  - intros Hdf Hbuilt.
    unfold init, build_datasets, build_train_ds, build_eval_ds.
    destruct (py_eq_str (get h "training_mode") "pointwise");
      [rewrite (getitem_None _ _ Hdf); reflexivity|].
    destruct (py_eq_str (get h "training_mode") "pairwise");
      [rewrite (getitem_None _ _ Hdf); reflexivity|].
    rewrite bind_ret.
    destruct (is_not_None (get h "val_file"));
      [rewrite (getitem_None _ _ Hdf); reflexivity|].
    rewrite bind_ret.
    destruct (is_not_None (get h "test_file"));
      [rewrite (getitem_None _ _ Hdf); reflexivity|].
    destruct Hbuilt as [?|[?|[?|?]]]; discriminate.
Qed.

Lemma C10_optional_and_required_keys_witness :
  (EvBaseRankerInit example_bundle
     (Some (Dataset Pointwise (VStr "data.jsonl") (VStr "train.tsv")
              (VStr "bert-base-uncased")))
     None None (VFloat (2 # 10)) (VInt 32) VNone
     ∈ log (init example_env example_bundle) /\
   is_Ok (outcome (init example_env example_bundle)) = true) /\
  (init example_env (delete "loss_margin" example_bundle) =
     (log (build_datasets example_env (delete "loss_margin" example_bundle)),
      Err (KeyError "loss_margin")) /\
   fails_with_KeyError example_env (delete "loss_margin" example_bundle)) /\
  init example_env (delete "batch_size" example_bundle) =
    (log (build_datasets example_env (delete "batch_size" example_bundle)),
     Err (KeyError "batch_size")) /\
  init example_env (delete "data_file" example_bundle) =
    ([], Err (KeyError "data_file")).
Proof.
  split; [|split; [|split]].
  - destruct (C10_optional_and_required_keys example_env example_bundle)
      as (H & _).
    destruct H as (H1 & _ & H3); [vm_compute; reflexivity|].
    split.
    + apply H1; vm_compute; reflexivity.
    + apply H3; [exact example_env_quiet|vm_compute; reflexivity].
  - destruct (C10_optional_and_required_keys example_env
                (delete "loss_margin" example_bundle)) as (_ & H & _).
    destruct H as (_ & H2 & _ & H4); [vm_compute; reflexivity|].
    split.
    + eapply H2. vm_compute. reflexivity.
    + apply H4. exact example_env_quiet.
  - destruct (C10_optional_and_required_keys example_env
                (delete "batch_size" example_bundle)) as (_ & _ & H & _).
    destruct H as (_ & _ & H & _); [vm_compute; reflexivity|].
    eapply H; vm_compute; reflexivity.
  - destruct (C10_optional_and_required_keys example_env
                (delete "data_file" example_bundle)) as (_ & _ & _ & H).
    apply H; [vm_compute; reflexivity|left; vm_compute; reflexivity].
Defined.

(** ** Claims about the optimizer *)

Lemma head_parameters_kept env h m :
  outcome (init env h) = Ok m ->
  Forall (fun p => p_requires_grad p = true) (head_parameters m) /\
  params_with_grad m =
  List.filter p_requires_grad (encoder_parameters m) ++ head_parameters m.
Proof.
  intros Hm.
  destruct (init_Ok_inv _ _ _ Hm)
    as (tr & va & te & bt & enc & dp & d & w & _ & _ & _ & _ & _ & _ & _ & _ & _ & Hcls & _).
  assert (Forall (fun p => p_requires_grad p = true) (head_parameters m)) as Hh.
  { unfold head_parameters. rewrite Hcls. repeat constructor. }
  split; [exact Hh|].
  unfold params_with_grad, parameters.
  rewrite List.filter_app, (filter_all _ _ Hh). reflexivity.
Qed.

Lemma AdamW_called env m lr :
  hparams m !! "lr" = Some lr ->
  EvAdamW (params_with_grad m) lr ∈ log (configure_optimizers env m).
Proof.
  intros Hlr. unfold configure_optimizers.
  rewrite (getitem_Some _ _ _ Hlr), bind_ret.
  unfold AdamW. rewrite log_bind_call. apply list_elem_of_here.
Qed.

(** C4: for a ranker constructed from a bundle with [freeze_bert = true],
    the parameters that [configure_optimizers] hands to the optimizer are
    exactly those of the classification head, none of them is an encoder
    parameter, and their count is the head's; with [freeze_bert = false]
    they are the encoder's parameters followed by the head's, and their
    count is the sum of both. *)
Theorem C4_optimizer_parameter_set env h m :
  outcome (init env h) = Ok m ->
  (h !! "freeze_bert" = Some (VBool true) ->
   params_with_grad m = head_parameters m /\
   Forall (fun p => p ∉ encoder_parameters m) (params_with_grad m) /\
   length (params_with_grad m) = length (head_parameters m) /\
   param_count (params_with_grad m) = param_count (head_parameters m) /\
   (forall ps lr, EvAdamW ps lr ∈ log (configure_optimizers env m) ->
                  ps = head_parameters m) /\
   (forall lr, h !! "lr" = Some lr ->
               EvAdamW (head_parameters m) lr ∈ log (configure_optimizers env m))) /\
  (h !! "freeze_bert" = Some (VBool false) ->
   params_with_grad m = encoder_parameters m ++ head_parameters m /\
   length (params_with_grad m) =
     (length (encoder_parameters m) + length (head_parameters m))%nat /\
   param_count (params_with_grad m) =
     (param_count (encoder_parameters m) + param_count (head_parameters m))%nat /\
   (forall ps lr, EvAdamW ps lr ∈ log (configure_optimizers env m) ->
                  ps = encoder_parameters m ++ head_parameters m) /\
   (forall lr, h !! "lr" = Some lr ->
               EvAdamW (encoder_parameters m ++ head_parameters m) lr
                 ∈ log (configure_optimizers env m))).
Proof.
  intros Hm.
  assert (hparams m = h) as Hh.
  { destruct (init_Ok_inv _ _ _ Hm)
      as (tr & va & te & bt & enc & dp & d & w & _ & _ & _ & _ & _ & _ & _ & _ & E & _).
    exact E. }
  split; intros Hf; pose proof (params_with_grad_spec _ _ _ _ Hm Hf) as E;
    simpl in E.
  - split; [exact E|]. split; [|split; [|split; [|split]]].
    + rewrite E, Forall_forall. intros p Hp Hq.
      exact (encoder_head_disjoint m p Hq Hp).
    + rewrite E. reflexivity.
    + rewrite E. reflexivity.
    + intros ps lr Hin. rewrite (AdamW_event_inv _ _ _ _ Hin). exact E.
    + intros lr Hlr. rewrite <- E. apply AdamW_called. rewrite Hh. exact Hlr.
  - split; [exact E|]. split; [|split; [|split]].
    + rewrite E. apply length_app.
    + rewrite E. apply param_count_app.
    + intros ps lr Hin. rewrite (AdamW_event_inv _ _ _ _ Hin). exact E.
    + intros lr Hlr. rewrite <- E. apply AdamW_called. rewrite Hh. exact Hlr.
Qed.

Lemma constructed_frozen :
  outcome (init example_env frozen_bundle) = Ok (constructed example_env frozen_bundle).
Proof. vm_compute. reflexivity. Defined.

Lemma constructed_example :
  outcome (init example_env example_bundle) = Ok (constructed example_env example_bundle).
Proof. vm_compute. reflexivity. Defined.

Lemma C4_optimizer_parameter_set_witness :
  params_with_grad (constructed example_env frozen_bundle) =
    head_parameters (constructed example_env frozen_bundle) /\
  params_with_grad (constructed example_env example_bundle) =
    encoder_parameters (constructed example_env example_bundle) ++
    head_parameters (constructed example_env example_bundle).
Proof.
  split.
  - apply (C4_optimizer_parameter_set example_env frozen_bundle _
             constructed_frozen).
    vm_compute; reflexivity.
  - apply (C4_optimizer_parameter_set example_env example_bundle _
             constructed_example).
    vm_compute; reflexivity.
Defined.

(** C9: whatever the bundle says about [freeze_bert], the head of a
    constructed ranker is the freshly made linear layer, untouched by the
    freeze loop; its two parameters are trainable, both pass the filter
    of [configure_optimizers], and the optimizer is never called on an
    empty parameter list. *)
Theorem C9_head_stays_trainable env h m :
  outcome (init env h) = Ok m ->
  (exists bd w, h !! "bert_dim" = Some bd /\ linear_width env bd 1 = Some w /\
                classification m = make_linear env w 1) /\
  Forall (fun p => p_requires_grad p = true) (head_parameters m) /\
  (forall p, p ∈ head_parameters m -> p ∈ params_with_grad m) /\
  params_with_grad m <> [] /\
  (forall ps lr, EvAdamW ps lr ∈ log (configure_optimizers env m) -> ps <> []).
Proof.
  intros Hm.
  destruct (head_parameters_kept _ _ _ Hm) as [Hh E].
  assert (params_with_grad m <> []) as Hne.
  { rewrite E. unfold head_parameters, linear_parameters. simpl.
    intros Hnil. apply app_eq_nil in Hnil as [_ Hnil]. discriminate. }
  split; [|split; [|split; [|split]]].
  - destruct (init_Ok_inv _ _ _ Hm)
      as (tr & va & te & bt & enc & dp & d & w & _ & _ & _ & _ & _ & Hbd & Hw & _ & _ & Hcls & _).
    exists d, w. auto.
  - exact Hh.
  - intros p Hp. rewrite E. apply elem_of_app. right. exact Hp.
  - exact Hne.
  - intros ps lr Hin. rewrite (AdamW_event_inv _ _ _ _ Hin). exact Hne.
Qed.

Lemma C9_head_stays_trainable_witness :
  Forall (fun p => p_requires_grad p = true)
         (head_parameters (constructed example_env frozen_bundle)) /\
  params_with_grad (constructed example_env frozen_bundle) <> [].
Proof.
  destruct (C9_head_stays_trainable example_env frozen_bundle _
              constructed_frozen) as (_ & H2 & _ & H4 & _).
  split; assumption.
Defined.

(** C7: whenever [configure_optimizers] returns, it returns one
    optimizer and one scheduler descriptor whose interval is "step", and
    it has called the optimizer and the schedule factory at most once
    each; it does return, with the optimizer over the trainable
    parameters at the configured learning rate and the schedule over
    that optimizer with the configured warmup, whenever [lr] and
    [warmup_steps] are present and neither factory raises. *)
Theorem C7_one_optimizer_one_step_scheduler env m :
  (forall l opts scheds,
      configure_optimizers env m = (l, Ok (opts, scheds)) ->
      exists opt sched,
        opts = [opt] /\
        scheds = [{| sd_scheduler := sched; sd_interval := "step" |}] /\
        l = [EvAdamW (opt_params opt) (opt_lr opt);
             EvSchedule opt (sched_warmup_steps sched)]) /\
  (forall lr ws,
      hparams m !! "lr" = Some lr ->
      hparams m !! "warmup_steps" = Some ws ->
      AdamW_raises env (params_with_grad m) lr = None ->
      schedule_raises env (Optimizer (params_with_grad m) lr) ws = None ->
      configure_optimizers env m =
      ([EvAdamW (params_with_grad m) lr;
        EvSchedule (Optimizer (params_with_grad m) lr) ws],
       Ok ([Optimizer (params_with_grad m) lr],
           [{| sd_scheduler := Scheduler (Optimizer (params_with_grad m) lr) ws;
               sd_interval := "step" |}]))).
Proof.
  split.
  - intros l opts scheds. unfold configure_optimizers, getitem.
    destruct (hparams m !! "lr") as [lr|]; [rewrite bind_ret|discriminate].
    unfold AdamW, call, returning.
    destruct (AdamW_raises env _ lr); [discriminate|].
    unfold bind at 1.
    destruct (hparams m !! "warmup_steps") as [ws|];
      [rewrite bind_ret|discriminate].
    unfold get_constant_schedule_with_warmup, call, returning.
    destruct (schedule_raises env _ ws); [discriminate|].
    simpl. intros [= <- <- <-]. eexists _, _. repeat split.
  - intros lr ws Hlr Hws HA HS. unfold configure_optimizers.
    rewrite (getitem_Some _ _ _ Hlr), bind_ret.
    unfold AdamW, call. rewrite HA. unfold returning, bind at 1.
    rewrite (getitem_Some _ _ _ Hws), bind_ret.
    unfold get_constant_schedule_with_warmup, call. rewrite HS.
    reflexivity.
Qed.

Lemma C7_one_optimizer_one_step_scheduler_witness :
  exists opt sched l,
    configure_optimizers example_env (constructed example_env example_bundle) =
    (l, Ok ([opt], [{| sd_scheduler := sched; sd_interval := "step" |}])).
Proof.
  eexists _, _, _.
  apply (proj2 (C7_one_optimizer_one_step_scheduler example_env
                  (constructed example_env example_bundle))
           (VFloat (3 # 100000)) (VInt 1000));
    vm_compute; reflexivity.
Defined.

(** ** Claims about the forward pass *)

Section ForwardFacts.

Variable env : collaborators.

Lemma select_first_shape t b s rest :
  t_shape t = b :: s :: rest -> (1 <= s)%nat ->
  exists cls_out, select_first t = Ok cls_out /\ t_shape cls_out = b :: rest.
Proof.
  intros Hsh Hs. unfold select_first. rewrite Hsh.
  destruct (Nat.eqb_spec s 0) as [->|_]; [lia|].
  eexists. split; reflexivity.
Qed.

Lemma dropout_forward_shape p train g x :
  t_shape (fst (dropout_forward env p train g x)) = t_shape x.
Proof.
  unfold dropout_forward.
  destruct (_ || _); [reflexivity|].
  destruct (Qeq_bool p 1); [reflexivity|].
  destruct (bernoulli env g _ _). reflexivity.
Qed.

Lemma dropout_forward_eval p g x :
  dropout_forward env p false g x = (x, g).
Proof.
  unfold dropout_forward. simpl. rewrite orb_true_r. reflexivity.
Qed.

Lemma length_flat_map_const {A B} (f : A -> list B) n l :
  (forall a, length (f a) = n) -> length (flat_map f l) = (length l * n)%nat.
Proof.
  intros Hf. induction l as [|a l IH]; simpl; [reflexivity|].
  rewrite length_app, Hf, IH. reflexivity.
Qed.

Lemma linear_forward_rows l x b :
  t_shape x = [b; in_features l] ->
  exists scores,
    linear_forward env l x = Ok scores /\
    t_shape scores = [b; out_features l] /\
    length (t_data scores) = (b * out_features l)%nat.
Proof.
  intros Hsh. unfold linear_forward. rewrite Hsh. simpl.
  rewrite Nat.eqb_refl. eexists. split; [reflexivity|]. split; [reflexivity|].
  simpl.
  rewrite (length_flat_map_const _ (out_features l)).
  - rewrite length_seq. lia.
  - intros r. rewrite length_map, length_seq. reflexivity.
Qed.

(** C5: for a ranker constructed from a bundle with [bert_dim = D], in
    either mode, a batch whose encoder output has shape (B, seq_len, D)
    with at least the sequence-start position makes [forward] return a
    score tensor of shape (B, 1) holding B scalars. *)
Theorem C5_forward_score_shape h m (train : bool) g batch out g1 B S D :
  outcome (init env h) = Ok m ->
  h !! "bert_dim" = Some (VInt D) ->
  bert_call env (bert m) train g batch = (Ok out, g1) ->
  t_shape (last_hidden_state out) = [B; S; Z.to_nat D] ->
  (1 <= S)%nat ->
  exists scores g2,
    forward env (set_training train m) g batch = (Ok scores, g2) /\
    t_shape scores = [B; 1%nat] /\
    length (t_data scores) = B.
Proof.
  intros Hm Hbd Hcall Hsh HS.
  destruct (init_Ok_inv _ _ _ Hm)
    as (tr & va & te & bt & enc & dp & d & w & _ & _ & _ & _ & _ & Hbd' & Hw & _ & _ & Hcls & _).
  rewrite Hbd in Hbd'. injection Hbd' as <-.
  apply linear_width_VInt in Hw as [-> _].
  destruct (select_first_shape _ _ _ _ Hsh HS) as (cls_out & Hsel & Hcsh).
  unfold forward. simpl. rewrite Hcall, Hsel.
  pose proof (dropout_forward_shape (dropout m) train g1 cls_out) as Hdsh.
  destruct (dropout_forward env (dropout m) train g1 cls_out) as [dropped g2].
  simpl in Hdsh. rewrite Hcsh in Hdsh.
  destruct (linear_forward_rows (classification m) dropped B) as (scores & Hlin & Hs1 & Hs2).
  { rewrite Hdsh, Hcls. reflexivity. }
  exists scores, g2. rewrite Hcls in Hs1, Hs2. simpl in Hs1, Hs2.
  split; [rewrite Hlin; reflexivity|]. split; [exact Hs1|]. lia.
Qed.

(** C6, amended: in evaluation mode, over an encoder without randomness
    outside training, [forward] is a function of the batch and the
    current parameters alone: it returns the same scores from every
    generator state and leaves the generator state as it is, so a second
    call returns what the first one returned. *)
Theorem C6_forward_pure_in_eval m g batch :
  deterministic_in_eval env ->
  training m = false ->
  snd (forward env m g batch) = g /\
  (forall g', fst (forward env m g' batch) = fst (forward env m g batch)) /\
  fst (forward env m (snd (forward env m g batch)) batch) =
  fst (forward env m g batch).
Proof.
  intros Hdet Hev.
  assert (forall g0, forward env m g0 batch = (fst (forward env m 0 batch), g0)) as E.
  { intros g0. unfold forward. rewrite Hev, (Hdet _ g0).
    destruct (fst (bert_call env (bert m) false 0 batch)) as [out|e] eqn:Hout.
    - rewrite (Hdet _ 0), Hout. simpl.
      destruct (select_first (last_hidden_state out)); [|reflexivity].
      rewrite !dropout_forward_eval. reflexivity.
    - rewrite (Hdet _ 0), Hout. reflexivity. }
  split; [rewrite E; reflexivity|]. split.
  - intros g'. rewrite (E g'), (E g). reflexivity.
  - rewrite (E (snd _)), (E g). reflexivity.
Qed.

End ForwardFacts.

Lemma example_env_deterministic_in_eval : deterministic_in_eval example_env.
Proof. intros ps g [|ids batch]; reflexivity. Defined.

Lemma C5_forward_score_shape_witness :
  exists scores g2,
    forward example_env (set_training true (constructed example_env example_bundle))
      1 example_batch = (Ok scores, g2) /\
    t_shape scores = [1%nat; 1%nat] /\
    length (t_data scores) = 1%nat.
Proof.
  eapply (C5_forward_score_shape example_env example_bundle _ true 1
            example_batch _ _ 1%nat 2%nat 2 constructed_example).
  - vm_compute; reflexivity.
  - vm_compute; reflexivity.
  - vm_compute; reflexivity.
  - lia.
Defined.

(** C6, as written, fails: the constructed ranker is in training mode
    with a dropout probability of 1/2, and two calls in a row on the same
    batch, with no parameter changed in between, return the scores 2 and
    8. *)
Lemma C6_forward_depends_on_generator :
  training (constructed example_env example_bundle) = true /\
  forward example_env (constructed example_env example_bundle) 1 example_batch =
    (Ok (Tensor [1; 1]%nat [2%Q]), 2) /\
  forward example_env (constructed example_env example_bundle) 2 example_batch =
    (Ok (Tensor [1; 1]%nat [8%Q]), 3) /\
  ~ forward_repeatable example_env (constructed example_env example_bundle).
Proof.
  split; [vm_compute; reflexivity|].
  split; [vm_compute; reflexivity|].
  split; [vm_compute; reflexivity|].
  intros H. specialize (H 1 example_batch). vm_compute in H. discriminate.
Qed.

Lemma C6_forward_pure_in_eval_witness :
  snd (forward example_env
         (set_training false (constructed example_env example_bundle))
         1 example_batch) = 1 /\
  fst (forward example_env
         (set_training false (constructed example_env example_bundle))
         2 example_batch) =
  fst (forward example_env
         (set_training false (constructed example_env example_bundle))
         1 example_batch).
Proof.
  destruct (C6_forward_pure_in_eval example_env
              (set_training false (constructed example_env example_bundle))
              1 example_batch example_env_deterministic_in_eval eq_refl)
    as (H1 & H2 & _).
  split; [exact H1|apply H2].
Defined.

(** * Further properties of the module *)

(** ** Exceptions of collaborators are never swallowed *)

Section Propagation.

Variable env : collaborators.

Lemma propagating_silent {A} (c : M A) : log c = [] -> propagating env c.
Proof. intros E. left. rewrite E. constructor. Qed.

Lemma propagating_getitem h k : propagating env (getitem h k).
Proof. apply propagating_silent. unfold getitem. destruct (h !! k); reflexivity. Qed.

Lemma propagating_call {A} ev (r : option exn) (a : A) :
  raised_by env ev = r -> propagating env (call ev (returning r a)).
Proof.
  intros Hr. destruct r as [e|]; simpl.
  - right. exists [], ev, e. simpl. repeat split; auto.
  - left. simpl. constructor; [exact Hr|constructor].
Qed.

Lemma propagating_bind {A B} (c : M A) (k : A -> M B) :
  propagating env c ->
  (forall a, outcome c = Ok a -> propagating env (k a)) ->
  propagating env (bind c k).
Proof.
  destruct c as [l [a|e]]; intros Hc Hk.
  - assert (Forall (fun ev => raised_by env ev = None) l) as Hl.
    { destruct Hc as [Hc|(l0 & ev & e & _ & _ & _ & Ho)]; [exact Hc|discriminate]. }
    specialize (Hk a eq_refl). unfold bind. destruct (k a) as [l' r'].
    destruct Hk as [Hk|(l0 & ev & e & El & Hl0 & Hev & Ho)].
    + left. simpl in *. apply Forall_app. auto.
    + right. simpl in *. subst l'. exists (l ++ l0), ev, e.
      rewrite app_assoc. repeat split; auto. apply Forall_app. auto.
  - destruct Hc as [Hc|(l0 & ev & e0 & El & Hl0 & Hev & Ho)].
    + left. exact Hc.
    + right. exists l0, ev, e0. simpl in *. injection Ho as ->. auto.
Qed.

Lemma propagating_build_eval_ds h k : propagating env (build_eval_ds env h k).
Proof.
  unfold build_eval_ds. destruct (is_not_None (get h k)); [|left; constructor].
  repeat (apply propagating_bind; [apply propagating_getitem|intros ? _]).
  apply propagating_bind; [|intros ? _; left; constructor].
  apply propagating_call. reflexivity.
Qed.

Lemma propagating_build_train_ds h : propagating env (build_train_ds env h).
Proof.
  unfold build_train_ds.
  destruct (py_eq_str _ "pointwise"); [|destruct (py_eq_str _ "pairwise")];
    [| |left; constructor].
  - repeat (apply propagating_bind; [apply propagating_getitem|intros ? _]).
    apply propagating_bind; [|intros ? _; left; constructor].
    apply propagating_call. reflexivity.
  - repeat (apply propagating_bind; [apply propagating_getitem|intros ? _]).
    apply propagating_bind; [|intros ? _; left; constructor].
    apply propagating_call. reflexivity.
Qed.

Lemma propagating_freeze_loop h ps : propagating env (freeze_loop h ps).
Proof.
  induction ps as [|p ps IH]; simpl; [left; constructor|].
  apply propagating_bind; [apply propagating_getitem|intros v _].
  apply propagating_bind; [exact IH|intros ? _; left; constructor].
Qed.

Lemma propagating_init h : propagating env (init env h).
Proof.
  unfold init. apply propagating_bind.
  { unfold build_datasets.
    apply propagating_bind; [apply propagating_build_train_ds|intros tr _].
    apply propagating_bind; [apply propagating_build_eval_ds|intros va _].
    apply propagating_bind; [apply propagating_build_eval_ds|intros te _].
    left. constructor. }
  intros [[tr va] te] _. unfold finish_init.
  apply propagating_bind; [apply propagating_getitem|intros lm _].
  apply propagating_bind; [apply propagating_getitem|intros bs _].
  apply propagating_bind; [apply propagating_call; reflexivity|intros _ _].
  apply propagating_bind; [apply propagating_getitem|intros bt _].
  apply propagating_bind.
  { unfold BertModel_from_pretrained.
    destruct (from_pretrained env bt) as [enc|e] eqn:E.
    - left. simpl. constructor; [simpl; rewrite E; reflexivity|constructor].
    - right. exists [], (EvFromPretrained bt), e. simpl. rewrite E.
      repeat split; auto. }
  intros enc _.
  apply propagating_bind; [apply propagating_getitem|intros dp _].
  apply propagating_bind.
  { apply propagating_silent. unfold Dropout.
    destruct (as_number dp); [|reflexivity]. destruct (_ && _); reflexivity. }
  intros p _.
  apply propagating_bind; [apply propagating_getitem|intros bd _].
  apply propagating_bind.
  { apply propagating_silent. apply new_Linear_log. }
  intros cls _.
  apply propagating_bind; [apply propagating_freeze_loop|intros ? _].
  left. constructor.
Qed.

Lemma propagating_configure_optimizers m :
  propagating env (configure_optimizers env m).
Proof.
  unfold configure_optimizers.
  apply propagating_bind; [apply propagating_getitem|intros lr _].
  apply propagating_bind; [apply propagating_call; reflexivity|intros opt _].
  apply propagating_bind; [apply propagating_getitem|intros ws _].
  apply propagating_bind; [|intros ? _; left; constructor].
  unfold get_constant_schedule_with_warmup.
  destruct (schedule_raises env opt ws) as [e|] eqn:E.
  - right. exists [], (EvSchedule opt ws), e. simpl. rewrite E. repeat split; auto.
  - left. simpl. constructor; [exact E|constructor].
Qed.

(** What [propagating] gives for a call that raised. *)
Lemma propagating_raised {A} (c : M A) ev e :
  propagating env c -> ev ∈ log c -> raised_by env ev = Some e ->
  outcome c = Err e /\ last (log c) = Some ev.
Proof.
  intros [Hall|(l & ev' & e' & El & Hl & Hev' & Ho)] Hin Hev.
  - rewrite Forall_forall in Hall. rewrite (Hall _ Hin) in Hev. discriminate.
  - rewrite El in Hin. apply elem_of_app in Hin as [Hin|Hin].
    + rewrite Forall_forall in Hl. rewrite (Hl _ Hin) in Hev. discriminate.
    + apply list_elem_of_singleton in Hin. subst ev'.
      rewrite Hev in Hev'. injection Hev' as <-.
      split; [exact Ho|]. rewrite El. apply last_snoc.
Qed.

(** X1: when a collaborator called during construction raises, the
    construction ends in that very exception and the raising call is the
    last one made; when construction returns, every call it made has
    returned. *)
Theorem X1_construction_propagates_exceptions h :
  (forall ev e,
      ev ∈ log (init env h) -> raised_by env ev = Some e ->
      outcome (init env h) = Err e /\ last (log (init env h)) = Some ev) /\
  (forall m,
      outcome (init env h) = Ok m ->
      Forall (fun ev => raised_by env ev = None) (log (init env h))).
Proof.
  split.
  - intros ev e. apply propagating_raised, propagating_init.
  - intros m Hm.
    destruct (propagating_init h) as [Hall|(l & ev & e & _ & _ & _ & Ho)];
      [exact Hall|congruence].
Qed.

(** X2: when the optimizer or the schedule factory raises,
    [configure_optimizers] ends in that very exception and the raising
    call is the last one made; in particular the schedule factory is not
    called after the optimizer has raised. *)
Theorem X2_configure_optimizers_propagates_exceptions m :
  (forall ev e,
      ev ∈ log (configure_optimizers env m) -> raised_by env ev = Some e ->
      outcome (configure_optimizers env m) = Err e /\
      last (log (configure_optimizers env m)) = Some ev) /\
  (forall lr e,
      hparams m !! "lr" = Some lr ->
      AdamW_raises env (params_with_grad m) lr = Some e ->
      configure_optimizers env m = ([EvAdamW (params_with_grad m) lr], Err e)).
Proof.
  split.
  - intros ev e. apply propagating_raised, propagating_configure_optimizers.
  - intros lr e Hlr HA. unfold configure_optimizers.
    rewrite (getitem_Some _ _ _ Hlr), bind_ret.
    unfold AdamW, call. rewrite HA. reflexivity.
Qed.

End Propagation.

Lemma X1_construction_propagates_exceptions_witness :
  outcome (init unresolved_env example_bundle) =
    Err (Raise "OSError" "no such model") /\
  last (log (init unresolved_env example_bundle)) =
    Some (EvFromPretrained (VStr "bert-base-uncased")).
Proof.
  apply (proj1 (X1_construction_propagates_exceptions unresolved_env example_bundle)).
  - vm_compute. apply list_elem_of_further, list_elem_of_further, list_elem_of_here.
  - vm_compute; reflexivity.
Defined.

Lemma X2_configure_optimizers_propagates_exceptions_witness :
  configure_optimizers rejecting_optimizer_env
    (constructed rejecting_optimizer_env example_bundle) =
  ([EvAdamW (params_with_grad (constructed rejecting_optimizer_env example_bundle))
      (VFloat (3 # 100000))],
   Err (ValueError "Invalid learning rate")).
Proof.
  apply (proj2 (X2_configure_optimizers_propagates_exceptions
                  rejecting_optimizer_env
                  (constructed rejecting_optimizer_env example_bundle))).
  - vm_compute; reflexivity.
  - reflexivity.
Defined.

(** ** Construction: order and arguments of the calls *)

Section ConstructionCalls.

Variable env : collaborators.
Variable h : gmap string value.

Lemma py_eq_str_true v s : py_eq_str v s = true -> v = VStr s.
Proof.
  destruct v as [| | | |t]; simpl; try discriminate.
  intros E. apply String.eqb_eq in E. congruence.
Qed.

Lemma is_not_None_ne v : is_not_None v = true -> v <> VNone.
Proof. destruct v; simpl; congruence. Qed.

Lemma get_present k :
  is_not_None (get h k) = true -> h !! k = Some (get h k).
Proof. unfold get. destruct (h !! k); simpl; [reflexivity|discriminate]. Qed.

Lemma build_train_ds_calls :
  (length (log (build_train_ds env h)) <= 1)%nat /\
  Forall (fun e => (is_pointwise_event e = true \/ is_pairwise_event e = true) /\
                   from_bundle h e)
         (log (build_train_ds env h)).
Proof.
  unfold build_train_ds.
  destruct (py_eq_str _ "pointwise") eqn:E1;
    [|destruct (py_eq_str _ "pairwise") eqn:E2];
    [| |split; [simpl; lia|constructor]].
  - apply py_eq_str_true in E1. unfold getitem.
    destruct (h !! "data_file") as [a|] eqn:Ha; [rewrite bind_ret|split; [simpl; lia|constructor]].
    destruct (h !! "train_file_pointwise") as [b|] eqn:Hb;
      [rewrite bind_ret|split; [simpl; lia|constructor]].
    destruct (h !! "bert_type") as [c|] eqn:Hc;
      [rewrite bind_ret|split; [simpl; lia|constructor]].
    unfold PointwiseTrainDataset. rewrite log_bind_call.
    destruct (returning _ _); simpl; (split; [lia|]);
      (constructor; [|constructor]); simpl; auto.
  - apply py_eq_str_true in E2. unfold getitem.
    destruct (h !! "data_file") as [a|] eqn:Ha; [rewrite bind_ret|split; [simpl; lia|constructor]].
    destruct (h !! "train_file_pairwise") as [b|] eqn:Hb;
      [rewrite bind_ret|split; [simpl; lia|constructor]].
    destruct (h !! "bert_type") as [c|] eqn:Hc;
      [rewrite bind_ret|split; [simpl; lia|constructor]].
    unfold PairwiseTrainDataset. rewrite log_bind_call.
    destruct (returning _ _); simpl; (split; [lia|]);
      (constructor; [|constructor]); simpl; auto.
Qed.

Lemma build_eval_ds_calls k :
  (length (log (build_eval_ds env h k)) <= 1)%nat /\
  Forall (fun e => exists a c,
              e = EvValTestDataset a (get h k) c /\
              h !! "data_file" = Some a /\ h !! "bert_type" = Some c /\
              h !! k = Some (get h k) /\ get h k <> VNone)
         (log (build_eval_ds env h k)).
Proof.
  unfold build_eval_ds.
  destruct (is_not_None (get h k)) eqn:Hn; [|split; [simpl; lia|constructor]].
  pose proof (get_present _ Hn) as Hk. apply is_not_None_ne in Hn.
  unfold getitem.
  destruct (h !! "data_file") as [a|] eqn:Ha;
    [rewrite bind_ret|split; [simpl; lia|constructor]].
  rewrite Hk, bind_ret.
  destruct (h !! "bert_type") as [c|] eqn:Hc;
    [rewrite bind_ret|split; [simpl; lia|constructor]].
  unfold ValTestDataset. rewrite log_bind_call.
  destruct (returning _ _); simpl; (split; [lia|]);
    (constructor; [|constructor]); exists a, c; auto.
Qed.

Lemma finish_init_calls tr va te :
  exists ha en,
    log (finish_init env h tr va te) = ha ++ en /\
    (length ha <= 1)%nat /\ Forall (fun e => is_harness_event e = true) ha /\
    (length en <= 1)%nat /\ Forall (fun e => is_from_pretrained_event e = true) en.
Proof.
  unfold finish_init, getitem.
  destruct (h !! "loss_margin") as [lm|];
    [rewrite bind_ret|exists [], []; simpl; repeat split; auto; lia].
  destruct (h !! "batch_size") as [bs|];
    [rewrite bind_ret|exists [], []; simpl; repeat split; auto; lia].
  unfold BaseRanker_init. rewrite log_bind_call.
  eexists [_].
  destruct (returning _ _) as [[]|];
    [|exists []; simpl; repeat split; auto; lia].
  destruct (h !! "bert_type") as [bt|];
    [rewrite bind_ret|exists []; simpl; repeat split; auto; lia].
  unfold BertModel_from_pretrained. rewrite log_bind_call.
  exists [EvFromPretrained bt].
  destruct (from_pretrained env bt) as [enc|].
  - pose proof (after_load_silent env h enc tr va te) as Hs. unfold getitem in Hs.
    rewrite Hs. simpl. repeat split; auto.
  - simpl. repeat split; auto.
Qed.

(** X3: construction calls its collaborators in one fixed order and each
    at most once per use: the training dataset constructor (at most one
    call), the validation/test constructor (at most two), the harness
    initialiser (at most one), the encoder registry (at most one); it
    never calls the optimizer or the schedule factory. *)
Theorem X3_construction_call_order :
  exists tr ev ha en,
    log (init env h) = tr ++ ev ++ ha ++ en /\
    (length tr <= 1)%nat /\
    Forall (fun e => is_pointwise_event e = true \/ is_pairwise_event e = true) tr /\
    (length ev <= 2)%nat /\ Forall (fun e => is_valtest_event e = true) ev /\
    (length ha <= 1)%nat /\ Forall (fun e => is_harness_event e = true) ha /\
    (length en <= 1)%nat /\ Forall (fun e => is_from_pretrained_event e = true) en.
Proof.
  rewrite init_log, build_datasets_log, <- app_assoc.
  destruct build_train_ds_calls as [Ltr Ftr].
  destruct (build_eval_ds_calls "val_file") as [Lva Fva].
  destruct (build_eval_ds_calls "test_file") as [Lte Fte].
  assert (forall k, Forall (fun e => is_valtest_event e = true)
                           (log (build_eval_ds env h k))) as Hvt.
  { intros k. destruct (build_eval_ds_calls k) as [_ F].
    eapply Forall_impl; [exact F|]. intros e (a & c & -> & _). reflexivity. }
  exists (log (build_train_ds env h)).
  eexists.
  assert (exists ha en,
             match outcome (build_datasets env h) with
             | Ok (tr, va, te) => log (finish_init env h tr va te)
             | Err _ => []
             end = ha ++ en /\
             (length ha <= 1)%nat /\ Forall (fun e => is_harness_event e = true) ha /\
             (length en <= 1)%nat /\
             Forall (fun e => is_from_pretrained_event e = true) en)
    as (ha & en & -> & Hha).
  { destruct (outcome (build_datasets env h)) as [[[tr va] te]|].
    - apply finish_init_calls.
    - exists [], []. simpl. repeat split; auto; lia. }
  exists ha, en. split; [reflexivity|].
  split; [exact Ltr|]. split.
  { eapply Forall_impl; [exact Ftr|]. intros e [H _]. exact H. }
  split; [|split; [|exact Hha]].
  - destruct (outcome (build_train_ds env h)); [|simpl; lia].
    rewrite length_app.
    destruct (outcome (build_eval_ds env h "val_file")); simpl; lia.
  - destruct (outcome (build_train_ds env h)); [|constructor].
    apply Forall_app. split; [apply Hvt|].
    destruct (outcome (build_eval_ds env h "val_file")); [apply Hvt|constructor].
Qed.

(** X4: every dataset construction and the encoder load are made on the
    bundle's own values: the training constructor of the bundle's mode
    on [data_file], the training file of that mode and [bert_type]; the
    validation/test constructor on [data_file], a [val_file] or
    [test_file] other than [None] and [bert_type]; the registry on
    [bert_type].  All of them receive the same encoder identifier. *)
Theorem X4_calls_take_bundle_values :
  Forall (from_bundle h) (log (init env h)).
Proof.
  rewrite init_log, build_datasets_log, <- app_assoc.
  destruct build_train_ds_calls as [_ Ftr].
  assert (forall k, k = "val_file" \/ k = "test_file" ->
                    Forall (from_bundle h) (log (build_eval_ds env h k))) as Hvt.
  { intros k Hk. destruct (build_eval_ds_calls k) as [_ F].
    eapply Forall_impl; [exact F|].
    intros e (a & c & -> & Ha & Hc & Hs & Hn). simpl.
    repeat split; auto. destruct Hk as [->| ->]; auto. }
  apply Forall_app. split.
  { eapply Forall_impl; [exact Ftr|]. intros e [_ H]. exact H. }
  apply Forall_app. split.
  - destruct (outcome (build_train_ds env h)); [|constructor].
    apply Forall_app. split; [apply Hvt; auto|].
    destruct (outcome (build_eval_ds env h "val_file")); [apply Hvt; auto|constructor].
  - destruct (outcome (build_datasets env h)) as [[[tr va] te]|]; [|constructor].
    eapply Forall_impl; [apply finish_init_log|].
    intros e [(lm & bs & -> & _)|(bt & -> & Hbt)]; simpl; auto.
Qed.

Lemma build_train_ds_returns tr :
  outcome (build_train_ds env h) = Ok tr -> tr = expected_train_ds h.
Proof.
  unfold build_train_ds, expected_train_ds, getitem.
  destruct (py_eq_str _ "pointwise"); [|destruct (py_eq_str _ "pairwise")].
  - destruct (h !! "data_file") as [a|] eqn:Ha; [rewrite bind_ret|discriminate].
    destruct (h !! "train_file_pointwise") as [b|] eqn:Hb;
      [rewrite bind_ret|discriminate].
    destruct (h !! "bert_type") as [c|] eqn:Hc; [rewrite bind_ret|discriminate].
    unfold PointwiseTrainDataset. rewrite outcome_bind_call.
    destruct (returning _ _) as [d|] eqn:Hd; [|discriminate].
    unfold returning in Hd. destruct (PointwiseTrainDataset_raises _ _ _ _);
      [discriminate|]. injection Hd as <-.
    rewrite (get_Some _ _ _ Ha), (get_Some _ _ _ Hb), (get_Some _ _ _ Hc).
    simpl. congruence.
  - destruct (h !! "data_file") as [a|] eqn:Ha; [rewrite bind_ret|discriminate].
    destruct (h !! "train_file_pairwise") as [b|] eqn:Hb;
      [rewrite bind_ret|discriminate].
    destruct (h !! "bert_type") as [c|] eqn:Hc; [rewrite bind_ret|discriminate].
    unfold PairwiseTrainDataset. rewrite outcome_bind_call.
    destruct (returning _ _) as [d|] eqn:Hd; [|discriminate].
    unfold returning in Hd. destruct (PairwiseTrainDataset_raises _ _ _ _);
      [discriminate|]. injection Hd as <-.
    rewrite (get_Some _ _ _ Ha), (get_Some _ _ _ Hb), (get_Some _ _ _ Hc).
    simpl. congruence.
  - simpl. congruence.
Qed.

Lemma build_eval_ds_returns k d :
  outcome (build_eval_ds env h k) = Ok d -> d = expected_eval_ds h k.
Proof.
  unfold build_eval_ds, expected_eval_ds.
  destruct (is_not_None (get h k)) eqn:Hn; [|simpl; congruence].
  unfold getitem.
  destruct (h !! "data_file") as [a|] eqn:Ha; [rewrite bind_ret|discriminate].
  rewrite (get_present _ Hn), bind_ret.
  destruct (h !! "bert_type") as [c|] eqn:Hc; [rewrite bind_ret|discriminate].
  unfold ValTestDataset. rewrite outcome_bind_call.
  destruct (returning _ _) as [x|] eqn:Hd; [|discriminate].
  unfold returning in Hd. destruct (ValTestDataset_raises _ _ _ _);
    [discriminate|]. injection Hd as <-.
  rewrite (get_Some _ _ _ Ha), (get_Some _ _ _ Hc).
  simpl. congruence.
Qed.

(** X5: whenever the harness initialiser is called, it receives the
    bundle itself, the training dataset of the bundle's mode ([None] for
    any other mode), a validation and a test dataset exactly for a
    [val_file] and a [test_file] other than [None], the bundle's
    [loss_margin] and [batch_size], and [hparams.get('num_workers')]. *)
Theorem X5_harness_arguments h' tr va te lm bs nw :
  EvBaseRankerInit h' tr va te lm bs nw ∈ log (init env h) ->
  h' = h /\
  tr = expected_train_ds h /\
  va = expected_eval_ds h "val_file" /\
  te = expected_eval_ds h "test_file" /\
  h !! "loss_margin" = Some lm /\ h !! "batch_size" = Some bs /\
  nw = get h "num_workers".
Proof.
  intros Hin. apply harness_event_inv in Hin as (-> & Hds & Hlm & Hbs & ->).
  apply build_datasets_outcome in Hds as (Htr & Hva & Hte).
  apply build_train_ds_returns in Htr.
  apply build_eval_ds_returns in Hva. apply build_eval_ds_returns in Hte.
  auto 10.
Qed.

End ConstructionCalls.

Lemma X5_harness_arguments_witness :
  None = expected_train_ds listwise_bundle /\
  Some (Dataset ValTest (VStr "data.jsonl") (VStr "val.tsv")
          (VStr "bert-base-uncased")) = expected_eval_ds listwise_bundle "val_file" /\
  VNone = get listwise_bundle "num_workers".
Proof.
  destruct (X5_harness_arguments example_env listwise_bundle listwise_bundle
              None
              (Some (Dataset ValTest (VStr "data.jsonl") (VStr "val.tsv")
                       (VStr "bert-base-uncased")))
              None (VFloat (2 # 10)) (VInt 32) VNone)
    as (_ & H1 & H2 & _ & _ & _ & H3).
  - vm_compute. apply list_elem_of_further, list_elem_of_here.
  - auto.
Defined.

(** ** Construction: the freeze loop and the head *)

Lemma freeze_loop_absent h ps :
  h !! "freeze_bert" = None ->
  freeze_loop h ps =
  match ps with [] => ret [] | _ :: _ => raise (KeyError "freeze_bert") end.
Proof.
  intros Hf. destruct ps as [|p ps]; simpl; [reflexivity|].
  rewrite (getitem_None _ _ Hf). reflexivity.
Qed.

(** X6: the freeze loop overwrites the [requires_grad] flag of every
    encoder parameter with the negated truth value of [freeze_bert],
    whatever flag the registry handed it out with, and changes nothing
    else: the encoder of the ranker is the loaded one, same names, same
    tensors, same order. *)
Theorem X6_freeze_loop_overwrites_flags env h m v :
  outcome (init env h) = Ok m ->
  h !! "freeze_bert" = Some v ->
  exists bt enc,
    h !! "bert_type" = Some bt /\ from_pretrained env bt = Ok enc /\
    bert m = map (set_requires_grad (negb (truthy v))) enc /\
    map p_name (bert m) = map p_name enc /\
    map p_tensor (bert m) = map p_tensor enc /\
    Forall (fun p => p_requires_grad p = negb (truthy v)) (bert m).
Proof.
  intros Hm Hv.
  destruct (init_Ok_inv _ _ _ Hm)
    as (tr & va & te & bt & enc & dp & d & w & _ & Hbt & Henc & _ & _ & _ & _ & Hfl & _).
  apply (freeze_loop_outcome _ _ _ _ Hv) in Hfl.
  exists bt, enc. rewrite Hfl. repeat split; auto.
  - rewrite map_map. reflexivity.
  - rewrite map_map. reflexivity.
  - rewrite Forall_forall. intros p Hp.
    apply list_elem_of_fmap in Hp as (x & -> & _). reflexivity.
Qed.

Lemma constructed_frozen_registry :
  outcome (init frozen_registry_env example_bundle) =
  Ok (constructed frozen_registry_env example_bundle).
Proof. vm_compute. reflexivity. Defined.

Lemma X6_freeze_loop_overwrites_flags_witness :
  exists bt enc,
    example_bundle !! "bert_type" = Some bt /\
    from_pretrained frozen_registry_env bt = Ok enc /\
    bert (constructed frozen_registry_env example_bundle) =
      map (set_requires_grad (negb (truthy (VBool false)))) enc /\
    map p_name (bert (constructed frozen_registry_env example_bundle)) =
      map p_name enc /\
    map p_tensor (bert (constructed frozen_registry_env example_bundle)) =
      map p_tensor enc /\
    Forall (fun p => p_requires_grad p = negb (truthy (VBool false)))
           (bert (constructed frozen_registry_env example_bundle)).
Proof.
  apply (X6_freeze_loop_overwrites_flags frozen_registry_env example_bundle _
           (VBool false) constructed_frozen_registry).
  vm_compute; reflexivity.
Defined.

(** X7: [freeze_bert] is looked up once per encoder parameter and not at
    all for an encoder without parameters.  A construction without the
    key returns only if the loaded encoder has no parameter; with a
    parameter it never returns, and for a bundle that lacks nothing else
    it ends in the KeyError for [freeze_bert] only after the harness is
    initialised and the encoder is loaded. *)
Theorem X7_missing_freeze_flag env h :
  h !! "freeze_bert" = None ->
  (forall m, outcome (init env h) = Ok m ->
             bert m = [] /\
             exists bt, h !! "bert_type" = Some bt /\ from_pretrained env bt = Ok []) /\
  (forall bt p ps,
      h !! "bert_type" = Some bt -> from_pretrained env bt = Ok (p :: ps) ->
      is_Ok (outcome (init env h)) = false /\
      (quiet env -> complete env (<["freeze_bert" := VBool false]> h) = true ->
       outcome (init env h) = Err (KeyError "freeze_bert") /\
       last (log (init env h)) = Some (EvFromPretrained bt) /\
       existsb is_harness_event (log (init env h)) = true)).
Proof.
  intros Hf. split.
  - intros m Hm.
    destruct (init_Ok_inv _ _ _ Hm)
      as (tr & va & te & bt & enc & dp & d & w & _ & Hbt & Henc & _ & _ & _ & _ & Hfl & _).
    rewrite (freeze_loop_absent _ _ Hf) in Hfl.
    destruct enc as [|p ps]; cbv [outcome ret raise snd] in Hfl; [|discriminate].
    injection Hfl as <-.
    split; [reflexivity|]. exists bt. auto.
  - intros bt p ps Hbt Henc. split.
    + destruct (outcome (init env h)) as [m|] eqn:Hm; [|reflexivity].
      destruct (init_Ok_inv _ _ _ Hm)
        as (tr & va & te & bt' & enc & dp & d & w & _ & Hbt' & Henc' & _ & _ & _ & _ & Hfl & _).
      rewrite (freeze_loop_absent _ _ Hf) in Hfl.
      rewrite Hbt in Hbt'. injection Hbt' as <-.
      rewrite Henc in Henc'. injection Henc' as <-.
      cbv [outcome raise snd] in Hfl. discriminate.
    + intros Hq Hc.
      assert (forall k, k <> "freeze_bert" ->
                        (<["freeze_bert" := VBool false]> h) !! k = h !! k) as Hne.
      { intros k Hk. apply lookup_insert_ne. congruence. }
      apply andb_prop in Hc as [Hd Hh].
      assert (dataset_keys_ok h = true) as Hd'.
      { revert Hd. unfold dataset_keys_ok, get, has_key.
        rewrite !Hne by discriminate. auto. }
      unfold head_keys_ok, has_key in Hh.
      rewrite (Hne "loss_margin"), (Hne "batch_size"), (Hne "bert_type"),
        (Hne "dropout"), (Hne "bert_dim") in Hh by discriminate.
      apply andb_prop in Hh as [Hh Hbd]. apply andb_prop in Hh as [Hh Hdp].
      apply andb_prop in Hh as [Hh _]. apply andb_prop in Hh as [Hh _].
      apply andb_prop in Hh as [Hlm Hbs].
      destruct (h !! "loss_margin") as [lm|] eqn:Elm; [|discriminate].
      destruct (h !! "batch_size") as [bs|] eqn:Ebs; [|discriminate].
      destruct (h !! "dropout") as [dp|] eqn:Edp; [|discriminate].
      destruct (as_number dp) as [q|] eqn:Eq; [|discriminate].
      destruct (h !! "bert_dim") as [bd|] eqn:Ebd; [|discriminate].
      destruct (linear_width env bd 1) as [w|] eqn:Ew; [|discriminate].
      pose proof (build_datasets_total env h Hq Hd') as Hds.
      destruct (outcome (build_datasets env h)) as [[[tr va] te]|] eqn:Eds;
        [|discriminate].
      rewrite (init_after_datasets _ _ _ _ _ Eds).
      destruct Hq as (_ & _ & _ & Hba & _).
      assert (finish_init env h tr va te =
              ([EvBaseRankerInit h tr va te lm bs (get h "num_workers");
                EvFromPretrained bt], Err (KeyError "freeze_bert"))) as ->.
      { unfold finish_init.
        rewrite (getitem_Some _ _ _ Elm), bind_ret.
        rewrite (getitem_Some _ _ _ Ebs), bind_ret.
        unfold BaseRanker_init, call. rewrite Hba. unfold returning, bind at 1.
        rewrite (getitem_Some _ _ _ Hbt), bind_ret.
        unfold BertModel_from_pretrained, call. rewrite Henc. unfold bind at 1.
        rewrite (getitem_Some _ _ _ Edp), bind_ret.
        unfold Dropout. rewrite Eq, Hdp, bind_ret.
        rewrite (getitem_Some _ _ _ Ebd), bind_ret.
        rewrite (new_Linear_accepts _ _ _ _ Ew), bind_ret.
        rewrite (freeze_loop_absent _ _ Hf). reflexivity. }
      simpl. split; [reflexivity|]. split.
      * rewrite last_app_cons. reflexivity.
      * rewrite existsb_app. simpl. rewrite orb_true_r. reflexivity.
Qed.

Lemma X7_missing_freeze_flag_witness :
  outcome (init example_env (delete "freeze_bert" example_bundle)) =
    Err (KeyError "freeze_bert") /\
  last (log (init example_env (delete "freeze_bert" example_bundle))) =
    Some (EvFromPretrained (VStr "bert-base-uncased")).
Proof.
  destruct (X7_missing_freeze_flag example_env (delete "freeze_bert" example_bundle))
    as [_ H]; [vm_compute; reflexivity|].
  destruct (H (VStr "bert-base-uncased")
              (hd (Param "" (Tensor [] []) true) example_encoder)
              (tl example_encoder)) as [_ H'];
    [vm_compute; reflexivity|reflexivity|].
  destruct H' as (H1 & H2 & _);
    [exact example_env_quiet|vm_compute; reflexivity|].
  split; assumption.
Defined.

Lemma linear_width_inv env v n w :
  linear_width env v n = Some w ->
  exists z, as_size v = Some z /\ 0 <= z < 2 ^ 63 /\
            z * Z.of_nat n <= max_numel env /\ w = Z.to_nat z.
Proof.
  unfold linear_width. destruct (as_size v) as [z|]; [|discriminate].
  destruct (Z.leb_spec 0 z); simpl; [|discriminate].
  destruct (Z.ltb_spec z (2 ^ 63)); simpl; [|discriminate].
  destruct (Z.leb_spec (z * Z.of_nat n) (max_numel env)); [|discriminate].
  intros [= <-]. exists z. repeat split; auto.
Qed.

(** X8: the head of a constructed ranker maps as many inputs as
    [bert_dim] says to one output.  Construction returns only when
    [bert_dim] is a size (an integer, a [bool] counting as 0 or 1) that
    is not negative, fits 64 bits and can be allocated; the weight then
    has shape (1, size) with that many entries, the bias has shape (1)
    with one entry, and together they hold size + 1 trainable scalars. *)
Theorem X8_head_dimensions env h m :
  outcome (init env h) = Ok m ->
  exists bd z,
    h !! "bert_dim" = Some bd /\ as_size bd = Some z /\
    0 <= z < 2 ^ 63 /\ z <= max_numel env /\
    in_features (classification m) = Z.to_nat z /\
    out_features (classification m) = 1%nat /\
    t_shape (p_tensor (weight (classification m))) = [1%nat; Z.to_nat z] /\
    length (t_data (p_tensor (weight (classification m)))) = Z.to_nat z /\
    t_shape (p_tensor (bias (classification m))) = [1%nat] /\
    length (t_data (p_tensor (bias (classification m)))) = 1%nat /\
    param_count (head_parameters m) = (Z.to_nat z + 1)%nat.
Proof.
  intros Hm.
  destruct (init_Ok_inv _ _ _ Hm)
    as (tr & va & te & bt & enc & dp & bd & w & _ & _ & _ & _ & _ & Hbd & Hw & _ & _ & Hcls & _).
  apply linear_width_inv in Hw as (z & Hz & Hrange & Hmem & ->).
  exists bd, z. unfold head_parameters. rewrite Hcls. simpl.
  rewrite length_map, length_seq. repeat split; auto; lia.
Qed.

Lemma X8_head_dimensions_witness :
  exists bd z,
    example_bundle !! "bert_dim" = Some bd /\ as_size bd = Some z /\
    0 <= z < 2 ^ 63 /\ z <= max_numel example_env /\
    in_features (classification (constructed example_env example_bundle)) =
      Z.to_nat z /\
    out_features (classification (constructed example_env example_bundle)) = 1%nat /\
    t_shape (p_tensor (weight (classification (constructed example_env example_bundle)))) =
      [1%nat; Z.to_nat z] /\
    length (t_data (p_tensor (weight (classification
                                         (constructed example_env example_bundle))))) =
      Z.to_nat z /\
    t_shape (p_tensor (bias (classification (constructed example_env example_bundle)))) =
      [1%nat] /\
    length (t_data (p_tensor (bias (classification
                                       (constructed example_env example_bundle))))) =
      1%nat /\
    param_count (head_parameters (constructed example_env example_bundle)) =
      (Z.to_nat z + 1)%nat.
Proof.
  apply (X8_head_dimensions example_env example_bundle _ constructed_example).
Defined.

(** ** The optimizer: missing keys, and what is returned *)

(** X9: [configure_optimizers] looks up [lr] before it calls anything,
    and [warmup_steps] only after the optimizer is built: without [lr]
    it ends in that KeyError with nothing called; without
    [warmup_steps] it ends in that KeyError after the optimizer was
    constructed, and the schedule factory is not called. *)
Theorem X9_configure_optimizers_missing_keys env m :
  (hparams m !! "lr" = None ->
   configure_optimizers env m = ([], Err (KeyError "lr"))) /\
  (forall lr,
      hparams m !! "lr" = Some lr ->
      AdamW_raises env (params_with_grad m) lr = None ->
      hparams m !! "warmup_steps" = None ->
      configure_optimizers env m =
      ([EvAdamW (params_with_grad m) lr], Err (KeyError "warmup_steps"))).
Proof.
  split.
  - intros Hlr. unfold configure_optimizers.
    rewrite (getitem_None _ _ Hlr). reflexivity.
  - intros lr Hlr HA Hws. unfold configure_optimizers.
    rewrite (getitem_Some _ _ _ Hlr), bind_ret.
    unfold AdamW, call. rewrite HA. unfold returning, bind at 1.
    rewrite (getitem_None _ _ Hws). reflexivity.
Qed.

Lemma X9_configure_optimizers_missing_keys_witness :
  configure_optimizers example_env
    (constructed example_env (delete "lr" example_bundle)) =
    ([], Err (KeyError "lr")) /\
  configure_optimizers example_env
    (constructed example_env (delete "warmup_steps" example_bundle)) =
    ([EvAdamW (params_with_grad
                 (constructed example_env (delete "warmup_steps" example_bundle)))
        (VFloat (3 # 100000))],
     Err (KeyError "warmup_steps")).
Proof.
  split.
  - apply (proj1 (X9_configure_optimizers_missing_keys example_env
                    (constructed example_env (delete "lr" example_bundle)))).
    vm_compute; reflexivity.
  - apply (proj2 (X9_configure_optimizers_missing_keys example_env
                    (constructed example_env (delete "warmup_steps" example_bundle))));
      vm_compute; reflexivity.
Defined.

(** X10: for a ranker made from a bundle, in either mode, whatever
    [configure_optimizers] returns is tied to that bundle and ranker:
    the optimizer is over the ranker's trainable parameters at the
    bundle's [lr], and the scheduler wraps that very optimizer with the
    bundle's [warmup_steps]. *)
Theorem X10_optimizer_and_scheduler_bound_to_bundle env h m (train : bool) l opts scheds :
  outcome (init env h) = Ok m ->
  configure_optimizers env (set_training train m) = (l, Ok (opts, scheds)) ->
  exists lr ws,
    h !! "lr" = Some lr /\ h !! "warmup_steps" = Some ws /\
    opts = [Optimizer (params_with_grad m) lr] /\
    scheds = [{| sd_scheduler := Scheduler (Optimizer (params_with_grad m) lr) ws;
                 sd_interval := "step" |}].
Proof.
  intros Hm.
  assert (hparams m = h) as Hh.
  { destruct (init_Ok_inv _ _ _ Hm)
      as (tr & va & te & bt & enc & dp & d & w & _ & _ & _ & _ & _ & _ & _ & _ & E & _).
    exact E. }
  unfold configure_optimizers, getitem.
  change (hparams (set_training train m)) with (hparams m). rewrite Hh.
  change (params_with_grad (set_training train m)) with (params_with_grad m).
  destruct (h !! "lr") as [lr|]; [rewrite bind_ret|discriminate].
  unfold AdamW, call, returning.
  destruct (AdamW_raises env _ lr); [discriminate|].
  unfold bind at 1.
  destruct (h !! "warmup_steps") as [ws|]; [rewrite bind_ret|discriminate].
  unfold get_constant_schedule_with_warmup, call, returning.
  destruct (schedule_raises env _ ws); [discriminate|].
  simpl. intros [= <- <- <-]. exists lr, ws. auto.
Qed.

Lemma X10_optimizer_and_scheduler_bound_to_bundle_witness :
  exists lr ws,
    example_bundle !! "lr" = Some lr /\
    example_bundle !! "warmup_steps" = Some ws /\
    [Optimizer (params_with_grad (constructed example_env example_bundle))
       (VFloat (3 # 100000))] =
    [Optimizer (params_with_grad (constructed example_env example_bundle)) lr] /\
    [{| sd_scheduler :=
          Scheduler (Optimizer (params_with_grad (constructed example_env example_bundle))
                       (VFloat (3 # 100000))) (VInt 1000);
        sd_interval := "step" |}] =
    [{| sd_scheduler :=
          Scheduler (Optimizer (params_with_grad (constructed example_env example_bundle))
                       lr) ws;
        sd_interval := "step" |}].
Proof.
  eapply (X10_optimizer_and_scheduler_bound_to_bundle example_env example_bundle
            _ false _ _ _ constructed_example).
  vm_compute. reflexivity.
Defined.

(** ** The forward pass: bounds, widths and what enters a score *)

Lemma chunk_of_flat_map {A} (f : nat -> list A) w n : forall s r,
  (forall i, (s <= i < s + n)%nat -> length (f i) = w) ->
  (r < n)%nat ->
  firstn w (skipn (r * w) (flat_map f (seq s n))) = f (s + r)%nat.
Proof.
  induction n as [|n IH]; intros s r Hlen Hr; [lia|].
  simpl seq. simpl flat_map.
  assert (length (f s) = w) as Hs by (apply Hlen; lia).
  destruct r as [|r].
  - simpl. rewrite Nat.add_0_r. apply take_app_length'. auto.
  - replace (S r * w)%nat with (w + r * w)%nat by lia.
    rewrite drop_app_add' by auto.
    rewrite IH; [f_equal; lia| |lia].
    intros i Hi. apply Hlen. lia.
Qed.

Lemma flat_map_singleton {A B} (f : A -> B) l :
  flat_map (fun a => [f a]) l = map f l.
Proof. induction l as [|a l IH]; simpl; [reflexivity|]. rewrite IH. reflexivity. Qed.

Lemma map_ext_seq {B} (f g : nat -> B) s n :
  (forall i, (s <= i < s + n)%nat -> f i = g i) -> map f (seq s n) = map g (seq s n).
Proof.
  revert s. induction n as [|n IH]; intros s Hfg; simpl; [reflexivity|].
  rewrite Hfg by lia. f_equal. apply IH. intros i Hi. apply Hfg. lia.
Qed.

Lemma flat_map_ext_seq {B} (f g : nat -> list B) s n :
  (forall i, (s <= i < s + n)%nat -> f i = g i) ->
  flat_map f (seq s n) = flat_map g (seq s n).
Proof.
  revert s. induction n as [|n IH]; intros s Hfg; simpl; [reflexivity|].
  rewrite Hfg by lia. f_equal. apply IH. intros i Hi. apply Hfg. lia.
Qed.

Section ForwardFurther.

Variable env : collaborators.

(** X11: [forward] needs the sequence-start position.  When the encoder
    returns hidden states with fewer than two dimensions, or with a
    sequence length of 0, [forward] ends in an IndexError; dropout is not
    reached, so the generator is left where the encoder left it. *)
Theorem X11_forward_needs_start_position m g batch out g1 :
  bert_call env (bert m) (training m) g batch = (Ok out, g1) ->
  match t_shape (last_hidden_state out) with
  | _ :: S _ :: _ => False
  | _ => True
  end ->
  exists msg, forward env m g batch = (Err (IndexError msg), g1).
Proof.
  intros Hcall Hsh. unfold forward. rewrite Hcall. unfold select_first.
  destruct (t_shape (last_hidden_state out)) as [|b [|[|s] rest]];
    try contradiction; eexists; reflexivity.
Qed.

(** X12: construction does not compare [bert_dim] with the encoder;
    the mismatch shows in [forward].  For a ranker made from a bundle
    with [bert_dim = d], hidden states of another width make [forward]
    end in a RuntimeError, in either mode. *)
Theorem X12_forward_width_mismatch h m (train : bool) g batch out g1 B S D d :
  outcome (init env h) = Ok m ->
  h !! "bert_dim" = Some (VInt d) ->
  bert_call env (bert m) train g batch = (Ok out, g1) ->
  t_shape (last_hidden_state out) = [B; S; D] ->
  (1 <= S)%nat ->
  D <> Z.to_nat d ->
  exists msg g2,
    forward env (set_training train m) g batch = (Err (RuntimeError msg), g2).
Proof.
  intros Hm Hbd Hcall Hsh HS HD.
  destruct (init_Ok_inv _ _ _ Hm)
    as (tr & va & te & bt & enc & dp & d' & w & _ & _ & _ & _ & _ & Hbd' & Hw & _ & _ & Hcls & _).
  rewrite Hbd in Hbd'. injection Hbd' as <-.
  apply linear_width_VInt in Hw as [-> _].
  destruct (select_first_shape _ _ _ _ Hsh HS) as (cls_out & Hsel & Hcsh).
  unfold forward. simpl. rewrite Hcall, Hsel.
  pose proof (dropout_forward_shape env (dropout m) train g1 cls_out) as Hdsh.
  destruct (dropout_forward env (dropout m) train g1 cls_out) as [dropped g2].
  simpl in Hdsh. rewrite Hcsh in Hdsh.
  unfold linear_forward. rewrite Hdsh, Hcls. simpl.
  destruct (Nat.eqb_spec D (Z.to_nat d)) as [E|_]; [contradiction|].
  eexists _, _. reflexivity.
Qed.

(** X13: in evaluation mode the score of example [b] is what the
    kernel of the linear layer gives for the hidden state of example [b]
    at sequence position 0, the weight row and the bias of the head.  The
    hidden states at other positions and of other examples of the batch
    do not enter it, and the generator is left where the encoder left
    it. *)
Theorem X13_score_reads_start_position h m g batch out g1 B S d :
  outcome (init env h) = Ok m ->
  h !! "bert_dim" = Some (VInt d) ->
  bert_call env (bert m) false g batch = (Ok out, g1) ->
  t_shape (last_hidden_state out) = [B; S; Z.to_nat d] ->
  length (t_data (last_hidden_state out)) = (B * S * Z.to_nat d)%nat ->
  (1 <= S)%nat ->
  forward env (set_training false m) g batch =
  (Ok (Tensor [B; 1%nat]
         (map (fun b =>
                 linear_kernel env [B; Z.to_nat d] b 0
                   (cls_vector (last_hidden_state out) S (Z.to_nat d) b)
                   (firstn (Z.to_nat d)
                      (t_data (p_tensor (weight (classification m)))))
                   (nth 0 (t_data (p_tensor (bias (classification m)))) 0%Q))
              (seq 0 B))),
   g1).
Proof.
  intros Hm Hbd Hcall Hsh Hlen HS.
  destruct (init_Ok_inv _ _ _ Hm)
    as (tr & va & te & bt & enc & dp & d' & w & _ & _ & _ & _ & _ & Hbd' & Hw & _ & _ & Hcls & _).
  rewrite Hbd in Hbd'. injection Hbd' as <-.
  apply linear_width_VInt in Hw as [-> _].
  set (D := Z.to_nat d) in *. set (hid := last_hidden_state out) in *.
  unfold forward. simpl. rewrite Hcall. fold hid.
  unfold select_first. rewrite Hsh.
  destruct (Nat.eqb_spec S 0) as [->|_]; [lia|].
  rewrite dropout_forward_eval.
  unfold linear_forward. simpl t_shape. simpl rev.
  assert (in_features (classification m) = D) as Hin by (rewrite Hcls; reflexivity).
  assert (out_features (classification m) = 1%nat) as Hout
    by (rewrite Hcls; reflexivity).
  rewrite Hin, Hout, Nat.eqb_refl. simpl rev. simpl app. f_equal. f_equal.
  simpl t_data. simpl numel. rewrite !Nat.mul_1_r.
  f_equal.
  transitivity
    (flat_map (fun b =>
                 [linear_kernel env [B; D] b 0 (cls_vector hid S D b)
                    (firstn D (t_data (p_tensor (weight (classification m)))))
                    (nth 0 (t_data (p_tensor (bias (classification m)))) 0%Q)])
              (seq 0 B)); [|apply flat_map_singleton].
  apply flat_map_ext_seq. intros b Hb. simpl. unfold affine. rewrite Hin. simpl.
  f_equal. f_equal.
  rewrite (chunk_of_flat_map _ D B 0 b); [reflexivity| |lia].
  intros i Hi. rewrite length_take_le; [reflexivity|].
  rewrite length_drop, Hlen, <- !Nat.mul_assoc.
  assert ((1 + i) * (S * D) <= B * (S * D))%nat as H1
    by (apply Nat.mul_le_mono_r; lia).
  assert (1 * D <= S * D)%nat as H2 by (apply Nat.mul_le_mono_r; lia).
  rewrite Nat.mul_add_distr_r in H1. lia.
Qed.

End ForwardFurther.

Lemma constructed_with_output hidden :
  outcome (init (env_with_output hidden) example_bundle) =
  Ok (constructed (env_with_output hidden) example_bundle).
Proof. vm_compute. reflexivity. Defined.

Lemma X11_forward_needs_start_position_witness :
  exists msg,
    forward (env_with_output (Tensor [1; 0; 2]%nat []))
      (constructed (env_with_output (Tensor [1; 0; 2]%nat [])) example_bundle)
      1 example_batch = (Err (IndexError msg), 1).
Proof.
  eapply (X11_forward_needs_start_position
            (env_with_output (Tensor [1; 0; 2]%nat []))
            (constructed (env_with_output (Tensor [1; 0; 2]%nat [])) example_bundle)
            1 example_batch).
  - reflexivity.
  - simpl. exact I.
Defined.

Lemma X12_forward_width_mismatch_witness :
  exists msg g2,
    forward (env_with_output (Tensor [1; 2; 3]%nat [1; 2; 3; 4; 5; 6]%Q))
      (set_training true
         (constructed (env_with_output (Tensor [1; 2; 3]%nat [1; 2; 3; 4; 5; 6]%Q))
            example_bundle))
      1 example_batch = (Err (RuntimeError msg), g2).
Proof.
  eapply (X12_forward_width_mismatch
            (env_with_output (Tensor [1; 2; 3]%nat [1; 2; 3; 4; 5; 6]%Q))
            example_bundle _ true 1 example_batch _ _ 1%nat 2%nat 3%nat 2
            (constructed_with_output _)).
  - vm_compute; reflexivity.
  - reflexivity.
  - reflexivity.
  - lia.
  - vm_compute. lia.
Defined.

Lemma X13_score_reads_start_position_witness :
  forward example_env
    (set_training false (constructed example_env example_bundle))
    1 example_batch =
  (Ok (Tensor [1; 1]%nat
         (map (fun b =>
                 linear_kernel example_env [1%nat; Z.to_nat 2] b 0
                   (cls_vector (Tensor [1; 2; 2]%nat [1; 2; 3; 4]%Q) 2 (Z.to_nat 2) b)
                   (firstn (Z.to_nat 2)
                      (t_data (p_tensor (weight (classification
                         (constructed example_env example_bundle))))))
                   (nth 0 (t_data (p_tensor (bias (classification
                         (constructed example_env example_bundle))))) 0%Q))
              (seq 0 1))),
   1).
Proof.
  apply (X13_score_reads_start_position example_env example_bundle _ 1
           example_batch
           {| last_hidden_state := Tensor [1; 2; 2]%nat [1; 2; 3; 4]%Q;
              pooler_output := Tensor [1; 2]%nat [1; 2]%Q |}
           1 1%nat 2%nat 2 constructed_example).
  - vm_compute; reflexivity.
  - vm_compute; reflexivity.
  - reflexivity.
  - reflexivity.
  - lia.
Defined.

(** ** Evaluation files: presence, not truth value *)

(** X14: a validation or test file counts as given when its value is
    anything but [None].  A key that is present with the value [None]
    behaves like an omitted one; any other value, also an empty string
    or another false value, has the validation/test constructor called
    on it, and for [val_file] that call is part of every construction
    whose training step returned. *)
Theorem X14_eval_file_given_unless_None env h a c :
  h !! "data_file" = Some a ->
  h !! "bert_type" = Some c ->
  (forall k, h !! k = Some VNone -> build_eval_ds env h k = ret None) /\
  (forall k v, h !! k = Some v -> v <> VNone ->
               log (build_eval_ds env h k) = [EvValTestDataset a v c]) /\
  (forall v tr, h !! "val_file" = Some v -> v <> VNone ->
                outcome (build_train_ds env h) = Ok tr ->
                EvValTestDataset a v c ∈ log (init env h)).
Proof.
  intros Ha Hc.
  assert (forall k v, h !! k = Some v -> v <> VNone ->
                      log (build_eval_ds env h k) = [EvValTestDataset a v c]) as Hlog.
  { intros k v Hk Hv. unfold build_eval_ds. rewrite (get_Some _ _ _ Hk).
    assert (is_not_None v = true) as -> by (destruct v; try reflexivity; contradiction).
    rewrite (getitem_Some _ _ _ Ha), bind_ret, (getitem_Some _ _ _ Hk), bind_ret,
      (getitem_Some _ _ _ Hc), bind_ret.
    unfold ValTestDataset. rewrite log_bind_call.
    destruct (returning _ _); reflexivity. }
  split; [|split; [exact Hlog|]].
  - intros k Hk. unfold build_eval_ds. rewrite (get_Some _ _ _ Hk). reflexivity.
  - intros v tr Hv Hne Htr.
    rewrite init_log, build_datasets_log, Htr, (Hlog _ _ Hv Hne).
    apply elem_of_app. left. apply elem_of_app. right. apply list_elem_of_here.
Qed.

Lemma X14_eval_file_given_unless_None_witness :
  build_eval_ds example_env (<["val_file" := VNone]> example_bundle) "val_file" =
    ret None /\
  log (build_eval_ds example_env
         (<["val_file" := VStr EmptyString]> example_bundle) "val_file") =
    [EvValTestDataset (VStr "data.jsonl") (VStr EmptyString)
       (VStr "bert-base-uncased")].
Proof.
  split.
  - apply (X14_eval_file_given_unless_None example_env
             (<["val_file" := VNone]> example_bundle)
             (VStr "data.jsonl") (VStr "bert-base-uncased"));
      vm_compute; reflexivity.
  - apply (X14_eval_file_given_unless_None example_env
             (<["val_file" := VStr EmptyString]> example_bundle)
             (VStr "data.jsonl") (VStr "bert-base-uncased"));
      try (vm_compute; reflexivity).
    discriminate.
Defined.

(** ** The command line *)

Lemma with_actions_same ap : with_actions ap (actions ap) = ap.
Proof. destruct ap; reflexivity. Qed.

Lemma with_actions_twice ap acts acts' :
  with_actions (with_actions ap acts) acts' = with_actions ap acts'.
Proof. reflexivity. Qed.

Lemma lstrip_dash s : lstrip "-" s = strip_dashes s.
Proof.
  induction s as [|c s IH]; [reflexivity|].
  simpl. rewrite orb_false_r, IH. reflexivity.
Qed.

Lemma registered_snoc ap acts a flag :
  registered (with_actions ap (acts ++ [new_action a])) flag =
  existsb (answers flag) acts || String.eqb flag (arg_flag a).
Proof.
  unfold registered. simpl. rewrite existsb_app. simpl.
  unfold answers at 2. simpl. rewrite !orb_false_r. reflexivity.
Qed.

(** Under the default prefix character a dashed option string is
    registered as an optional, with the three cases of the conflict
    check. *)
Lemma add_argument_dashed pr ap a :
  prefix_chars ap = "-" -> dashed a = true ->
  add_argument pr ap a =
  if registered ap (arg_flag a) then
    match conflict_handler ap with
    | ConflictError => (ap, Err (ArgumentError (arg_flag a)))
    | ConflictResolve =>
        (with_actions ap (resolve (arg_flag a) (actions ap) ++ [new_action a]),
         Ok tt)
    end
  else (with_actions ap (actions ap ++ [new_action a]), Ok tt).
Proof.
  intros Hp Hd. unfold add_argument, add_optional, optional_action, dashed in *.
  rewrite Hp. destruct (arg_flag a) as [|c s] eqn:Hf; [discriminate|].
  apply andb_prop in Hd as [Hc Hs]. apply Ascii.eqb_eq in Hc. subst c.
  change (char_in "-" "-") with true. cbv beta iota.
  rewrite lstrip_dash.
  unfold new_action, arg_dest. rewrite Hf.
  destruct (strip_dashes (String "-" s)); [discriminate|reflexivity].
Qed.

Lemma then_add_Err pr (args : list argument) ap e :
  fold_left (then_add pr) args (ap, Err e) = (ap, Err e).
Proof. induction args as [|a args IH]; simpl; [reflexivity|exact IH]. Qed.

Lemma resolve_unregistered flag acts :
  existsb (answers flag) acts = false -> resolve flag acts = acts.
Proof.
  induction acts as [|a r IH]; [reflexivity|]. simpl.
  intros H. apply orb_false_elim in H as [Ha Hr].
  rewrite Ha, IH by exact Hr. reflexivity.
Qed.

Lemma resolve_snoc flag acts a :
  String.eqb flag (arg_flag a) = false ->
  resolve flag (acts ++ [new_action a]) = resolve flag acts ++ [new_action a].
Proof.
  intros Hne. induction acts as [|x r IH]; simpl.
  - unfold answers. simpl. rewrite Hne. reflexivity.
  - destruct (answers flag x).
    + destruct (remove_first flag (act_flags x)); reflexivity.
    + rewrite IH. reflexivity.
Qed.

Lemma resolve_all_snoc (args : list argument) : forall acts a,
  arg_flag a ∉ map arg_flag args ->
  resolve_all args (acts ++ [new_action a]) = resolve_all args acts ++ [new_action a].
Proof.
  induction args as [|x args IH]; intros acts a Hnotin; [reflexivity|].
  unfold resolve_all in *. simpl.
  rewrite resolve_snoc.
  - apply IH. intros Hin. apply Hnotin. simpl. apply list_elem_of_further. exact Hin.
  - apply String.eqb_neq. intros E. apply Hnotin. simpl. rewrite E.
    apply list_elem_of_here.
Qed.

Lemma distinct_flag (args : list argument) a a' :
  arg_flag a ∉ map arg_flag args -> a' ∈ args ->
  String.eqb (arg_flag a') (arg_flag a) = false.
Proof.
  intros Hnotin Hin. apply String.eqb_neq. intros E. apply Hnotin.
  rewrite <- E. apply list_elem_of_fmap. exists a'. auto.
Qed.

(** Registering arguments with distinct option strings on a parser that
    knows none of them appends them, whatever the conflict handler. *)
Lemma then_add_fresh pr (args : list argument) : forall ap,
  prefix_chars ap = "-" ->
  Forall (fun a => dashed a = true) args ->
  NoDup (map arg_flag args) ->
  (forall a, a ∈ args -> registered ap (arg_flag a) = false) ->
  fold_left (then_add pr) args (ap, Ok tt) =
  (with_actions ap (actions ap ++ map new_action args), Ok tt).
Proof.
  induction args as [|a args IH]; intros ap Hp Hd Hnd Hfresh; simpl.
  - rewrite app_nil_r, with_actions_same. reflexivity.
  - apply Forall_cons in Hd as [Ha Hd].
    simpl in Hnd. apply NoDup_cons in Hnd as [Hnotin Hnd].
    unfold then_add at 2. simpl fst. simpl snd. cbv iota.
    rewrite (add_argument_dashed pr ap a Hp Ha).
    rewrite (Hfresh a) by apply list_elem_of_here.
    rewrite IH; [|exact Hp|exact Hd|exact Hnd|].
    + rewrite with_actions_twice. simpl actions. rewrite <- app_assoc. reflexivity.
    + intros a' Ha'. rewrite registered_snoc.
      change (existsb (answers (arg_flag a')) (actions ap))
        with (registered ap (arg_flag a')).
      rewrite Hfresh by (apply list_elem_of_further; exact Ha').
      simpl. exact (distinct_flag args a a' Hnotin Ha').
Qed.

(** Under the ['error'] handler the registrations stop at the first
    argument whose option string is registered; those before it stay. *)
Lemma then_add_conflict pr (args : list argument) : forall ap a,
  prefix_chars ap = "-" -> conflict_handler ap = ConflictError ->
  Forall (fun a => dashed a = true) args ->
  NoDup (map arg_flag args) ->
  a ∈ args -> registered ap (arg_flag a) = true ->
  exists before x after,
    args = before ++ x :: after /\
    registered ap (arg_flag x) = true /\
    (forall y, y ∈ before -> registered ap (arg_flag y) = false) /\
    fold_left (then_add pr) args (ap, Ok tt) =
    (with_actions ap (actions ap ++ map new_action before),
     Err (ArgumentError (arg_flag x))).
Proof.
  induction args as [|x args IH]; intros ap a Hp Hc Hd Hnd Hin Hreg;
    [inversion Hin|].
  apply Forall_cons in Hd as [Hx Hd].
  simpl in Hnd. apply NoDup_cons in Hnd as [Hnotin Hnd].
  simpl. unfold then_add at 2. simpl fst. simpl snd. cbv iota.
  rewrite (add_argument_dashed pr ap x Hp Hx), Hc.
  destruct (registered ap (arg_flag x)) eqn:Hrx.
  - exists [], x, args. split; [reflexivity|]. split; [exact Hrx|].
    split; [intros y Hy; inversion Hy|].
    rewrite then_add_Err. simpl. rewrite app_nil_r, with_actions_same. reflexivity.
  - apply elem_of_cons in Hin as [->|Hin]; [congruence|].
    destruct (IH (with_actions ap (actions ap ++ [new_action x])) a)
      as (before & x' & after & Heq & Hrx' & Hbefore & E);
      [exact Hp|exact Hc|exact Hd|exact Hnd|exact Hin| |].
    { rewrite registered_snoc.
      change (existsb (answers (arg_flag a)) (actions ap))
        with (registered ap (arg_flag a)).
      rewrite Hreg. reflexivity. }
    assert (forall y, y ∈ args ->
              registered (with_actions ap (actions ap ++ [new_action x])) (arg_flag y) =
              registered ap (arg_flag y)) as Hsame.
    { intros y Hy. rewrite registered_snoc.
      rewrite (distinct_flag args x y Hnotin Hy), orb_false_r. reflexivity. }
    exists (x :: before), x', after.
    split; [rewrite Heq; reflexivity|].
    split.
    { rewrite <- Hsame; [exact Hrx'|]. rewrite Heq. apply elem_of_app. right.
      apply list_elem_of_here. }
    split.
    { intros y Hy. apply elem_of_cons in Hy as [->|Hy]; [exact Hrx|].
      rewrite <- Hsame; [apply Hbefore; exact Hy|].
      rewrite Heq. apply elem_of_app. left. exact Hy. }
    rewrite E, with_actions_twice. simpl actions. simpl map.
    rewrite <- app_assoc. reflexivity.
Qed.

(** Under the ['resolve'] handler no registration raises: each option
    string is taken from the action that held it and the new actions
    are appended. *)
Lemma then_add_resolve pr (args : list argument) : forall ap,
  prefix_chars ap = "-" -> conflict_handler ap = ConflictResolve ->
  Forall (fun a => dashed a = true) args ->
  NoDup (map arg_flag args) ->
  fold_left (then_add pr) args (ap, Ok tt) =
  (with_actions ap (resolve_all args (actions ap) ++ map new_action args), Ok tt).
Proof.
  induction args as [|x args IH]; intros ap Hp Hc Hd Hnd; simpl.
  - rewrite app_nil_r, with_actions_same. reflexivity.
  - apply Forall_cons in Hd as [Hx Hd].
    simpl in Hnd. apply NoDup_cons in Hnd as [Hnotin Hnd].
    unfold then_add at 2. simpl fst. simpl snd. cbv iota.
    rewrite (add_argument_dashed pr ap x Hp Hx), Hc.
    assert ((if registered ap (arg_flag x)
             then (with_actions ap (resolve (arg_flag x) (actions ap) ++ [new_action x]),
                   Ok tt)
             else (with_actions ap (actions ap ++ [new_action x]), Ok tt)) =
            (with_actions ap (resolve (arg_flag x) (actions ap) ++ [new_action x]),
             Ok tt)) as ->.
    { destruct (registered ap (arg_flag x)) eqn:Hrx; [reflexivity|].
      rewrite (resolve_unregistered _ _ Hrx). reflexivity. }
    rewrite IH; [|exact Hp|exact Hc|exact Hd|exact Hnd].
    rewrite with_actions_twice. simpl actions.
    rewrite (resolve_all_snoc args _ x Hnotin), <- app_assoc. reflexivity.
Qed.

Lemma model_flags_distinct : NoDup (map arg_flag model_arguments).
Proof. apply (bool_decide_unpack _). vm_compute. exact I. Qed.

Lemma model_flags_dashed : Forall (fun a => dashed a = true) model_arguments.
Proof. repeat constructor. Qed.

(** X15: on a well-formed parser with the default prefix character,
    [add_model_specific_args] appends its ten actions, in the order of
    the source, behind those the parser has, provided none of the ten
    option strings is registered. If one is registered, the outcome
    depends on the conflict handler of the parser. Under ['error'] the
    call raises an ArgumentError at the first of the ten, in source
    order, that is registered, and the parser keeps the actions of
    those before it; so a second call on a parser that a first call has
    filled raises at [--bert_type] and changes nothing. Under
    ['resolve'] the call never raises: every one of the ten option
    strings is taken from the action that held it, and the ten actions
    are appended. *)
Theorem X15_add_model_specific_args_registers pr ap :
  prefix_chars ap = "-" -> well_formed ap ->
  ((forall a, a ∈ model_arguments -> registered ap (arg_flag a) = false) ->
   add_model_specific_args pr ap =
   (with_actions ap (actions ap ++ map new_action model_arguments), Ok tt)) /\
  (conflict_handler ap = ConflictError ->
   forall a, a ∈ model_arguments -> registered ap (arg_flag a) = true ->
   exists before x after,
     model_arguments = before ++ x :: after /\
     registered ap (arg_flag x) = true /\
     (forall y, y ∈ before -> registered ap (arg_flag y) = false) /\
     add_model_specific_args pr ap =
     (with_actions ap (actions ap ++ map new_action before),
      Err (ArgumentError (arg_flag x)))) /\
  (conflict_handler ap = ConflictError ->
   forall ap', add_model_specific_args pr ap = (ap', Ok tt) ->
               add_model_specific_args pr ap' =
               (ap', Err (ArgumentError "--bert_type"))) /\
  (conflict_handler ap = ConflictResolve ->
   add_model_specific_args pr ap =
   (with_actions ap
      (resolve_all model_arguments (actions ap) ++ map new_action model_arguments),
    Ok tt)).
Proof.
  intros Hp _. split; [|split; [|split]].
  - intros Hfresh.
    apply then_add_fresh;
      [exact Hp|exact model_flags_dashed|exact model_flags_distinct|exact Hfresh].
  - intros Hc a Hin Hreg.
    exact (then_add_conflict pr model_arguments ap a Hp Hc model_flags_dashed
             model_flags_distinct Hin Hreg).
  - intros Hc ap' Hok.
    assert (forall a, a ∈ model_arguments -> registered ap (arg_flag a) = false)
      as Hfresh.
    { intros a Hin. destruct (registered ap (arg_flag a)) eqn:Hreg; [|reflexivity].
      destruct (then_add_conflict pr model_arguments ap a Hp Hc model_flags_dashed
                  model_flags_distinct Hin Hreg) as (? & ? & ? & _ & _ & _ & E).
      unfold add_model_specific_args in Hok. rewrite E in Hok. discriminate. }
    pose proof (then_add_fresh pr model_arguments ap Hp model_flags_dashed
                  model_flags_distinct Hfresh) as E.
    unfold add_model_specific_args in Hok. rewrite E in Hok. injection Hok as <-.
    destruct (then_add_conflict pr model_arguments
                (with_actions ap (actions ap ++ map new_action model_arguments))
                (Argument "--bert_type" AsGiven Store
                   (Some (VStr "bert-base-uncased")) None "BERT model"))
      as (before & x & after & Heq & _ & Hbefore & E');
      [exact Hp|exact Hc|exact model_flags_dashed|exact model_flags_distinct
      |apply list_elem_of_here| |].
    { unfold registered. simpl actions. rewrite existsb_app.
      apply orb_true_intro. right. reflexivity. }
    destruct before as [|y before].
    + injection Heq as <- _. unfold add_model_specific_args.
      refine (eq_trans E' _).
      simpl map. rewrite app_nil_r, with_actions_same. reflexivity.
    + exfalso. injection Heq as <- _.
      specialize (Hbefore _ (list_elem_of_here _ _)).
      unfold registered in Hbefore. simpl actions in Hbefore.
      rewrite existsb_app in Hbefore.
      apply orb_false_elim in Hbefore as [_ Hb]. discriminate Hb.
  - intros Hc.
    apply then_add_resolve;
      [exact Hp|exact Hc|exact model_flags_dashed|exact model_flags_distinct].
Qed.

Lemma X15_add_model_specific_args_registers_witness :
  add_model_specific_args (fun _ => None) empty_parser =
    (with_actions empty_parser (map new_action model_arguments), Ok tt) /\
  (exists before x after,
     model_arguments = before ++ x :: after /\
     registered (taken_parser ConflictError) (arg_flag x) = true /\
     (forall y, y ∈ before ->
                registered (taken_parser ConflictError) (arg_flag y) = false) /\
     add_model_specific_args (fun _ => None) (taken_parser ConflictError) =
     (with_actions (taken_parser ConflictError)
        (actions (taken_parser ConflictError) ++ map new_action before),
      Err (ArgumentError (arg_flag x)))) /\
  add_model_specific_args (fun _ => None)
      (with_actions empty_parser (map new_action model_arguments)) =
    (with_actions empty_parser (map new_action model_arguments),
     Err (ArgumentError "--bert_type")) /\
  add_model_specific_args (fun _ => None) (taken_parser ConflictResolve) =
    (with_actions (taken_parser ConflictResolve)
       (resolve_all model_arguments (actions (taken_parser ConflictResolve)) ++
        map new_action model_arguments),
     Ok tt).
Proof.
  assert (forall h, well_formed (taken_parser h)) as Hwf.
  { intros h. unfold well_formed. apply (bool_decide_unpack _). vm_compute. exact I. }
  assert (well_formed empty_parser) as Hwf0 by apply NoDup_nil_2.
  split; [|split; [|split]].
  - apply (proj1 (X15_add_model_specific_args_registers (fun _ => None) empty_parser
                    eq_refl Hwf0)).
    intros a _. reflexivity.
  - apply (proj1 (proj2 (X15_add_model_specific_args_registers (fun _ => None)
                           (taken_parser ConflictError) eq_refl (Hwf _)))
             eq_refl
             (Argument "--lr" AsFloat Store (Some (VFloat (3 # 100000))) None
                "Learning rate")).
    + vm_compute. do 3 apply list_elem_of_further. apply list_elem_of_here.
    + reflexivity.
  - apply (proj1 (proj2 (proj2 (X15_add_model_specific_args_registers (fun _ => None)
                                  empty_parser eq_refl Hwf0)))
             eq_refl).
    reflexivity.
  - apply (proj2 (proj2 (proj2 (X15_add_model_specific_args_registers (fun _ => None)
                                  (taken_parser ConflictResolve) eq_refl (Hwf _))))).
    reflexivity.
Defined.

Lemma parsed_lookup h n a :
  parsed_by model_arguments h -> model_arguments !! n = Some a ->
  exists v, h !! arg_dest a = Some v /\ storable a v.
Proof.
  intros Hp Hn. apply Hp. eapply list_elem_of_lookup_2. exact Hn.
Qed.

Ltac stored_key h Hp n key :=
  let v := fresh "v" in
  let Hv := fresh "Hv" in
  let Hs := fresh "Hs" in
  let t := fresh "t" in
  destruct (parsed_lookup h n _ Hp eq_refl) as (v & Hv & Hs);
  change (h !! key = Some v) in Hv;
  destruct Hs as [->|(t & ->)]; eexists; exact Hv.

(** X16: a bundle that holds, for every argument of the model, a value
    the parser can store (the default, a choice, the flag's constant, a
    converted string) has each key the model reads outside the data
    paths, with the registered type; its [training_mode] is "pointwise"
    or "pairwise", so construction always asks for a training dataset,
    and its [freeze_bert] is a boolean. *)
Theorem X16_parsed_bundle_has_typed_keys h :
  parsed_by model_arguments h ->
  (exists c, h !! "training_mode" = Some (VStr c) /\
             (c = "pointwise" \/ c = "pairwise")) /\
  expected_train_ds h <> None /\
  (exists b, h !! "freeze_bert" = Some (VBool b)) /\
  (exists s, h !! "bert_type" = Some (VStr s)) /\
  (exists d, h !! "bert_dim" = Some (VInt d)) /\
  (exists q, h !! "dropout" = Some (VFloat q)) /\
  (exists q, h !! "lr" = Some (VFloat q)) /\
  (exists q, h !! "loss_margin" = Some (VFloat q)) /\
  (exists z, h !! "batch_size" = Some (VInt z)) /\
  (exists z, h !! "warmup_steps" = Some (VInt z)) /\
  (exists z, h !! "num_workers" = Some (VInt z)).
Proof.
  intros Hp.
  assert (exists c, h !! "training_mode" = Some (VStr c) /\
                    (c = "pointwise" \/ c = "pairwise")) as Hmode.
  { destruct (parsed_lookup h 8 _ Hp eq_refl) as (v & Hv & [->|(c & Hc & ->)]).
    - exists "pairwise". auto.
    - exists c. split; [exact Hv|].
      apply elem_of_cons in Hc as [->|Hc]; [auto|].
      apply list_elem_of_singleton in Hc. auto. }
  split; [exact Hmode|]. split.
  { destruct Hmode as (c & Hc & [->| ->]); unfold expected_train_ds;
      rewrite (get_Some _ _ _ Hc); simpl; discriminate. }
  split.
  { destruct (parsed_lookup h 7 _ Hp eq_refl) as (v & Hv & Hs).
    change (h !! "freeze_bert" = Some v) in Hv.
    destruct Hs as [->| ->]; eexists; exact Hv. }
  split; [stored_key h Hp 0%nat "bert_type"|].
  split; [stored_key h Hp 1%nat "bert_dim"|].
  split; [stored_key h Hp 2%nat "dropout"|].
  split; [stored_key h Hp 3%nat "lr"|].
  split; [stored_key h Hp 4%nat "loss_margin"|].
  split; [stored_key h Hp 5%nat "batch_size"|].
  split; [stored_key h Hp 6%nat "warmup_steps"|].
  stored_key h Hp 9%nat "num_workers".
Qed.

Lemma default_namespace_parsed :
  parsed_by model_arguments (default_namespace model_arguments).
Proof.
  intros a Ha. exists (effective_default a). split; [|left; reflexivity].
  unfold model_arguments in Ha.
  repeat (apply elem_of_cons in Ha as [->|Ha]; [vm_compute; reflexivity|]).
  inversion Ha.
Defined.

Lemma X16_parsed_bundle_has_typed_keys_witness :
  (exists c, default_namespace model_arguments !! "training_mode" = Some (VStr c) /\
             (c = "pointwise" \/ c = "pairwise")) /\
  expected_train_ds (default_namespace model_arguments) <> None.
Proof.
  destruct (X16_parsed_bundle_has_typed_keys (default_namespace model_arguments)
              default_namespace_parsed) as (H1 & H2 & _).
  split; assumption.
Defined.

Section KeyErrors.

Variable env : collaborators.
Variable K : string -> Prop.

Lemma kew_bind {A B} (c : M A) (k : A -> M B) :
  key_errors_within K env c ->
  (forall a, outcome c = Ok a -> key_errors_within K env (k a)) ->
  key_errors_within K env (bind c k).
Proof.
  destruct c as [l [a|e]]; intros Hc Hk key.
  - specialize (Hk a eq_refl key). unfold bind. destruct (k a) as [l' r'].
    simpl in *. intros -> Hall. apply Forall_app in Hall as [_ Hall]. auto.
  - unfold bind. simpl. intros [= ->] Hall. exact (Hc key eq_refl Hall).
Qed.

Lemma kew_ret {A} (a : A) : key_errors_within K env (ret a).
Proof. intros key Ho. discriminate. Qed.

Lemma kew_getitem_present h key v :
  h !! key = Some v -> key_errors_within K env (getitem h key).
Proof. intros Hk. rewrite (getitem_Some _ _ _ Hk). apply kew_ret. Qed.

Lemma kew_getitem_within h key : K key -> key_errors_within K env (getitem h key).
Proof.
  intros HK k. unfold getitem. destruct (h !! key); [discriminate|].
  simpl. intros [= <-] _. exact HK.
Qed.

Lemma kew_call {A} ev (r : option exn) (a : A) :
  raised_by env ev = r -> key_errors_within K env (call ev (returning r a)).
Proof.
  intros Hr k. destruct r as [e|]; simpl; [|discriminate].
  intros _ Hall. apply Forall_cons in Hall as [Hev _]. congruence.
Qed.

Lemma kew_from_pretrained bt :
  key_errors_within K env (BertModel_from_pretrained env bt).
Proof.
  intros k. unfold BertModel_from_pretrained. simpl.
  destruct (from_pretrained env bt) as [enc|e] eqn:E; [discriminate|].
  intros _ Hall. apply Forall_cons in Hall as [Hev _]. simpl in Hev.
  rewrite E in Hev. discriminate.
Qed.

Lemma kew_Dropout dp : key_errors_within K env (Dropout dp).
Proof.
  intros k. unfold Dropout. destruct (as_number dp); [|discriminate].
  destruct (_ && _); discriminate.
Qed.

Lemma kew_new_Linear bd n : key_errors_within K env (new_Linear env bd n).
Proof.
  intros k Ho _. exfalso. exact (new_Linear_no_KeyError env bd n k Ho).
Qed.

End KeyErrors.

Lemma kew_build_train_ds env h c :
  h !! "bert_type" = Some c ->
  key_errors_within is_path_key env (build_train_ds env h).
Proof.
  intros Hc. unfold build_train_ds.
  destruct (py_eq_str _ "pointwise"); [|destruct (py_eq_str _ "pairwise")];
    [| |apply kew_ret].
  - apply kew_bind; [apply kew_getitem_within; left; reflexivity|intros a _].
    apply kew_bind; [apply kew_getitem_within; right; left; reflexivity|intros b _].
    apply kew_bind; [apply (kew_getitem_present _ _ _ _ _ Hc)|intros c' _].
    apply kew_bind; [apply kew_call; reflexivity|intros d _; apply kew_ret].
  - apply kew_bind; [apply kew_getitem_within; left; reflexivity|intros a _].
    apply kew_bind; [apply kew_getitem_within; right; right; reflexivity|intros b _].
    apply kew_bind; [apply (kew_getitem_present _ _ _ _ _ Hc)|intros c' _].
    apply kew_bind; [apply kew_call; reflexivity|intros d _; apply kew_ret].
Qed.

Lemma kew_build_eval_ds env h k c :
  h !! "bert_type" = Some c ->
  key_errors_within is_path_key env (build_eval_ds env h k).
Proof.
  intros Hc. unfold build_eval_ds.
  destruct (is_not_None (get h k)) eqn:Hn; [|apply kew_ret].
  apply kew_bind; [apply kew_getitem_within; left; reflexivity|intros a _].
  apply kew_bind; [apply (kew_getitem_present _ _ _ _ _ (get_present _ _ Hn))|intros b _].
  apply kew_bind; [apply (kew_getitem_present _ _ _ _ _ Hc)|intros c' _].
  apply kew_bind; [apply kew_call; reflexivity|intros d _; apply kew_ret].
Qed.

(** X17: for a bundle as the parser returns it, a KeyError that
    construction raises itself can only be for a data path
    ([data_file], [train_file_pointwise], [train_file_pairwise]), the
    keys that no argument of the model registers; and
    [configure_optimizers] on the constructed ranker raises no KeyError
    of its own. *)
Theorem X17_parsed_bundle_key_errors env h :
  parsed_by model_arguments h ->
  key_errors_within is_path_key env (init env h) /\
  (forall m, outcome (init env h) = Ok m ->
             key_errors_within (fun _ => False) env (configure_optimizers env m)).
Proof.
  intros Hp.
  destruct (parsed_lookup h 0 _ Hp eq_refl) as (bt & Hbt & _).
  change (h !! "bert_type" = Some bt) in Hbt.
  destruct (parsed_lookup h 1 _ Hp eq_refl) as (bd & Hbd & _).
  change (h !! "bert_dim" = Some bd) in Hbd.
  destruct (parsed_lookup h 2 _ Hp eq_refl) as (dp & Hdp & _).
  change (h !! "dropout" = Some dp) in Hdp.
  destruct (parsed_lookup h 3 _ Hp eq_refl) as (lr & Hlr & _).
  change (h !! "lr" = Some lr) in Hlr.
  destruct (parsed_lookup h 4 _ Hp eq_refl) as (lm & Hlm & _).
  change (h !! "loss_margin" = Some lm) in Hlm.
  destruct (parsed_lookup h 5 _ Hp eq_refl) as (bs & Hbs & _).
  change (h !! "batch_size" = Some bs) in Hbs.
  destruct (parsed_lookup h 6 _ Hp eq_refl) as (ws & Hws & _).
  change (h !! "warmup_steps" = Some ws) in Hws.
  destruct (parsed_lookup h 7 _ Hp eq_refl) as (fb & Hfb & _).
  change (h !! "freeze_bert" = Some fb) in Hfb.
  split.
  - unfold init. apply kew_bind.
    { unfold build_datasets.
      apply kew_bind; [apply (kew_build_train_ds _ _ _ Hbt)|intros tr _].
      apply kew_bind; [apply (kew_build_eval_ds _ _ _ _ Hbt)|intros va _].
      apply kew_bind; [apply (kew_build_eval_ds _ _ _ _ Hbt)|intros te _].
      apply kew_ret. }
    intros [[tr va] te] _. unfold finish_init.
    apply kew_bind; [apply (kew_getitem_present _ _ _ _ _ Hlm)|intros ? _].
    apply kew_bind; [apply (kew_getitem_present _ _ _ _ _ Hbs)|intros ? _].
    apply kew_bind; [apply kew_call; reflexivity|intros _ _].
    apply kew_bind; [apply (kew_getitem_present _ _ _ _ _ Hbt)|intros ? _].
    apply kew_bind; [apply kew_from_pretrained|intros enc _].
    apply kew_bind; [apply (kew_getitem_present _ _ _ _ _ Hdp)|intros ? _].
    apply kew_bind; [apply kew_Dropout|intros ? _].
    apply kew_bind; [apply (kew_getitem_present _ _ _ _ _ Hbd)|intros ? _].
    apply kew_bind; [apply kew_new_Linear|intros ? _].
    rewrite (freeze_loop_present _ _ _ Hfb), bind_ret. apply kew_ret.
  - intros m Hm.
    assert (hparams m = h) as Hh.
    { destruct (init_Ok_inv _ _ _ Hm)
        as (tr & va & te & bt' & enc & dp' & d & w & _ & _ & _ & _ & _ & _ & _ & _ & E & _).
      exact E. }
    unfold configure_optimizers. rewrite Hh.
    apply kew_bind; [apply (kew_getitem_present _ _ _ _ _ Hlr)|intros ? _].
    apply kew_bind; [apply kew_call; reflexivity|intros opt _].
    apply kew_bind; [apply (kew_getitem_present _ _ _ _ _ Hws)|intros ? _].
    apply kew_bind; [apply kew_call; reflexivity|intros ? _; apply kew_ret].
Qed.

Lemma X17_parsed_bundle_key_errors_witness :
  key_errors_within is_path_key example_env
    (init example_env (default_namespace model_arguments)) /\
  outcome (init example_env (default_namespace model_arguments)) =
    Err (KeyError "data_file").
Proof.
  split.
  - apply (X17_parsed_bundle_key_errors example_env
             (default_namespace model_arguments) default_namespace_parsed).
  - vm_compute. reflexivity.
Defined.

(** X18: the defaults that [add_model_specific_args] registers are
    enough for the constructor.  For a bundle made of these defaults, a
    data file and a pairwise training file, with collaborators that do
    not raise and a machine that can allocate a head of width 768,
    construction makes exactly three calls and returns a ranker: the
    pairwise training dataset on the two paths and "bert-base-uncased";
    the harness with that dataset, no validation or test dataset, a
    margin of 0.2, a batch size of 32 and 16 workers; the encoder
    "bert-base-uncased".  The ranker has a dropout of 0.1, a head of
    width 768 and every parameter trainable. *)
Theorem X18_default_bundle_constructs env a b :
  quiet env ->
  768 <= max_numel env ->
  exists m,
    init env (default_bundle a b) =
      ([EvPairwiseTrainDataset a b (VStr "bert-base-uncased");
        EvBaseRankerInit (default_bundle a b)
          (Some (Dataset Pairwise a b (VStr "bert-base-uncased"))) None None
          (VFloat (2 # 10)) (VInt 32) (VInt 16);
        EvFromPretrained (VStr "bert-base-uncased")],
       Ok m) /\
    dropout m = (1 # 10)%Q /\
    in_features (classification m) = 768%nat /\
    Forall (fun p => p_requires_grad p = true) (bert m) /\
    params_with_grad m = parameters m.
Proof.
  intros Hq Hmem.
  assert (linear_width env (VInt 768) 1 = Some 768%nat) as Hw.
  { unfold linear_width. simpl as_size. cbv beta iota.
    destruct (Z.leb_spec (768 * Z.of_nat 1) (max_numel env)); [reflexivity|lia]. }
  assert (default_bundle a b !! "bert_dim" = Some (VInt 768)) as Hbd'
    by (vm_compute; reflexivity).
  assert (complete env (default_bundle a b) = true) as Hc.
  { unfold complete. apply andb_true_intro. split; [vm_compute; reflexivity|].
    unfold head_keys_ok. rewrite Hbd', Hw, andb_true_r. vm_compute. reflexivity. }
  pose proof (init_total env _ Hq Hc) as Hok.
  destruct (outcome (init env (default_bundle a b))) as [m|] eqn:Hm; [|discriminate].
  assert (default_bundle a b !! "training_mode" = Some (VStr "pairwise")) as Hmode
    by (vm_compute; reflexivity).
  assert (default_bundle a b !! "data_file" = Some a) as Ha
    by (vm_compute; reflexivity).
  assert (default_bundle a b !! "train_file_pairwise" = Some b) as Hb
    by (vm_compute; reflexivity).
  assert (default_bundle a b !! "bert_type" = Some (VStr "bert-base-uncased")) as Hbt
    by (vm_compute; reflexivity).
  assert (default_bundle a b !! "freeze_bert" = Some (VBool false)) as Hfb
    by (vm_compute; reflexivity).
  assert (default_bundle a b !! "loss_margin" = Some (VFloat (2 # 10))) as Hlm
    by (vm_compute; reflexivity).
  assert (default_bundle a b !! "batch_size" = Some (VInt 32)) as Hbs
    by (vm_compute; reflexivity).
  assert (get (default_bundle a b) "num_workers" = VInt 16) as Hnw
    by (vm_compute; reflexivity).
  assert (default_bundle a b !! "dropout" = Some (VFloat (1 # 10))) as Hdp'
    by (vm_compute; reflexivity).
  destruct Hq as (_ & Hpa & _ & Hba & _).
  assert (build_datasets env (default_bundle a b) =
          ([EvPairwiseTrainDataset a b (VStr "bert-base-uncased")],
           Ok (Some (Dataset Pairwise a b (VStr "bert-base-uncased")), None, None)))
    as Hds.
  { unfold build_datasets.
    rewrite (build_train_ds_pairwise env _ _ _ _ Hmode Ha Hb Hbt).
    rewrite !build_eval_ds_omitted by (vm_compute; reflexivity).
    unfold PairwiseTrainDataset, call. rewrite Hpa. reflexivity. }
  exists m. split.
  { rewrite (M_eta (init env (default_bundle a b))), Hm, init_log, Hds.
    simpl outcome. cbv iota.
    rewrite (finish_init_reaches_registry env _ _ _ _ _ _ _ Hlm Hbs (Hba _ _ _ _ _ _ _) Hbt).
    rewrite Hnw. reflexivity. }
  destruct (init_Ok_inv _ _ _ Hm)
    as (tr & va & te & bt & enc & dp & d & w & _ & _ & _ & Hdp & Hnum & Hbd & Hwd & Hfl & _ & Hcls & _).
  rewrite Hdp' in Hdp. injection Hdp as <-.
  rewrite Hbd' in Hbd. injection Hbd as <-.
  rewrite Hw in Hwd. injection Hwd as <-.
  split; [simpl in Hnum; congruence|].
  split; [rewrite Hcls; reflexivity|].
  split.
  - apply (freeze_loop_outcome _ _ _ _ Hfb) in Hfl. rewrite Hfl.
    rewrite Forall_forall. intros p Hp.
    apply list_elem_of_fmap in Hp as (x & -> & _). reflexivity.
  - rewrite (params_with_grad_spec _ _ _ _ Hm Hfb). reflexivity.
Qed.

Lemma X18_default_bundle_constructs_witness :
  exists m,
    init example_env (default_bundle (VStr "data.jsonl") (VStr "pairs.tsv")) =
      ([EvPairwiseTrainDataset (VStr "data.jsonl") (VStr "pairs.tsv")
          (VStr "bert-base-uncased");
        EvBaseRankerInit (default_bundle (VStr "data.jsonl") (VStr "pairs.tsv"))
          (Some (Dataset Pairwise (VStr "data.jsonl") (VStr "pairs.tsv")
                   (VStr "bert-base-uncased"))) None None
          (VFloat (2 # 10)) (VInt 32) (VInt 16);
        EvFromPretrained (VStr "bert-base-uncased")],
       Ok m) /\
    dropout m = (1 # 10)%Q /\
    in_features (classification m) = 768%nat.
Proof.
  destruct (X18_default_bundle_constructs example_env
              (VStr "data.jsonl") (VStr "pairs.tsv") example_env_quiet)
    as (m & H1 & H2 & H3 & _).
  - vm_compute. discriminate.
  - exists m. auto.
Defined.

(** ** The training file of the other mode *)

Lemma build_eval_ds_same_lookups env h h' k :
  h' !! k = h !! k -> h' !! "data_file" = h !! "data_file" ->
  h' !! "bert_type" = h !! "bert_type" ->
  build_eval_ds env h' k = build_eval_ds env h k.
Proof.
  intros Hk Ha Hc. unfold build_eval_ds, get, getitem. rewrite Hk, Ha, Hc.
  reflexivity.
Qed.

Lemma build_datasets_pointwise_lookups env h h' :
  h !! "training_mode" = Some (VStr "pointwise") ->
  (forall k, k <> "train_file_pairwise" -> h' !! k = h !! k) ->
  build_datasets env h' = build_datasets env h.
Proof.
  intros Hm Hsame.
  assert (h' !! "training_mode" = Some (VStr "pointwise")) as Hm'
    by (rewrite Hsame; [exact Hm|discriminate]).
  unfold build_datasets.
  rewrite (build_eval_ds_same_lookups env h h' "val_file"),
    (build_eval_ds_same_lookups env h h' "test_file")
    by (apply Hsame; discriminate).
  f_equal. unfold build_train_ds.
  rewrite (get_Some _ _ _ Hm), (get_Some _ _ _ Hm').
  change (py_eq_str (VStr "pointwise") "pointwise") with true. cbv iota.
  unfold getitem.
  rewrite (Hsame "data_file"), (Hsame "train_file_pointwise"), (Hsame "bert_type")
    by discriminate.
  reflexivity.
Qed.

Lemma build_datasets_pairwise_lookups env h h' :
  h !! "training_mode" = Some (VStr "pairwise") ->
  (forall k, k <> "train_file_pointwise" -> h' !! k = h !! k) ->
  build_datasets env h' = build_datasets env h.
Proof.
  intros Hm Hsame.
  assert (h' !! "training_mode" = Some (VStr "pairwise")) as Hm'
    by (rewrite Hsame; [exact Hm|discriminate]).
  unfold build_datasets.
  rewrite (build_eval_ds_same_lookups env h h' "val_file"),
    (build_eval_ds_same_lookups env h h' "test_file")
    by (apply Hsame; discriminate).
  f_equal. unfold build_train_ds.
  rewrite (get_Some _ _ _ Hm), (get_Some _ _ _ Hm').
  change (py_eq_str (VStr "pairwise") "pointwise") with false.
  change (py_eq_str (VStr "pairwise") "pairwise") with true. cbv iota.
  unfold getitem.
  rewrite (Hsame "data_file"), (Hsame "train_file_pairwise"), (Hsame "bert_type")
    by discriminate.
  reflexivity.
Qed.

(** X19: the training file of the mode that is not selected is never
    read.  In pointwise mode the dataset step makes the same calls and
    returns the same handles or the same exception whether
    [train_file_pairwise] is absent, present or changed; in pairwise mode
    likewise for [train_file_pointwise].  A bundle that names both files
    is accepted without a complaint. *)
Theorem X19_other_training_file_is_ignored env h :
  (h !! "training_mode" = Some (VStr "pointwise") ->
   (forall v, build_datasets env (<["train_file_pairwise" := v]> h) =
              build_datasets env h) /\
   build_datasets env (delete "train_file_pairwise" h) = build_datasets env h) /\
  (h !! "training_mode" = Some (VStr "pairwise") ->
   (forall v, build_datasets env (<["train_file_pointwise" := v]> h) =
              build_datasets env h) /\
   build_datasets env (delete "train_file_pointwise" h) = build_datasets env h).
Proof.
  split; intros Hm; split.
  - intros v. apply build_datasets_pointwise_lookups; [exact Hm|].
    intros k Hk. apply lookup_insert_ne. congruence.
  - apply build_datasets_pointwise_lookups; [exact Hm|].
    intros k Hk. apply lookup_delete_ne. congruence.
  - intros v. apply build_datasets_pairwise_lookups; [exact Hm|].
    intros k Hk. apply lookup_insert_ne. congruence.
  - apply build_datasets_pairwise_lookups; [exact Hm|].
    intros k Hk. apply lookup_delete_ne. congruence.
Qed.

Lemma X19_other_training_file_is_ignored_witness :
  build_datasets example_env
    (<["train_file_pairwise" := VStr "pairs.tsv"]> example_bundle) =
  build_datasets example_env example_bundle /\
  build_datasets example_env (delete "train_file_pointwise" pairwise_bundle) =
  build_datasets example_env pairwise_bundle.
Proof.
  split.
  - apply (proj1 (X19_other_training_file_is_ignored example_env example_bundle)).
    vm_compute; reflexivity.
  - apply (proj2 (X19_other_training_file_is_ignored example_env pairwise_bundle)).
    vm_compute; reflexivity.
Defined.
